(** * Speaking Speed Analyzer: the recording engine of [App.tsx]

    A shallow embedding of the React component in [src/src/App.tsx] (the
    variant with the table of regional profiles) together with the places
    where the earlier variant in [src/unnamed/part_000] differs.

    Conventions of the embedding.
    - A JavaScript string is the list of its UTF-16 code units.
    - A JavaScript [number] holding a count is a [nat], one holding a rounded
      speed is a [Z], and one holding a time in seconds is a rational [Q].
      The division and the multiplication of the speed,
      [(words / duration) * 60], are those of IEEE 754 binary64: each reads
      its operands as the doubles nearest to them and rounds its exact result
      to the nearest double, a tie going to the even one ([Double.div],
      [Double.mul]).  Results beyond the largest double, where JavaScript
      gives [Infinity], are outside the model.  A time stands for the
      double nearest to it: the elapsed time [(now - start) / 1000] is kept
      as the exact quotient and rounded where the speed reads it, and its
      comparisons with 0 and with 30 are the same before and after.
    - The component's [useState] cells and [useRef] cells are the fields of
      one record; an event handler is a computation over that record which
      also emits the calls it makes on the browser (recognition, timers,
      console).  No handler reads a cell after writing it, so running the
      [set...] calls in sequence agrees with React's batched update.
    - A handler made by an effect sees the cells of the render the effect
      belongs to.  The handlers of a recognition object read one cell,
      [isRecording], so each object is recorded with the value it closed
      over.
    - What the browser decides (whether [recognition.start()] throws, the
      value of [Date.now()]) is an argument of the handler. *)

From Stdlib Require Import List String Ascii Bool Arith ZArith NArith QArith Qround Qabs
  Qpower Lia Lqa DecimalString DecimalZ DecimalPos.
From Stdlib Require Floats.
Import ListNotations.

Set Implicit Arguments.
Close Scope Q_scope.

(* ------------------------------------------------------------------ *)
(** ** JavaScript strings *)

Module JsString.

Definition t : Type := list N.

(** A literal, for the examples: each character becomes one code unit. *)
Definition of_string (s : string) : t :=
  map N_of_ascii (list_ascii_of_string s).

(** ECMAScript [WhiteSpace] and [LineTerminator]: the characters removed by
    [String.prototype.trim] and matched by the regular expression class
    [\s].  Both are defined from the same two productions. *)
Definition is_whitespace (c : N) : bool :=
  ((9 <=? c) && (c <=? 13) (* TAB LF VT FF CR *)
   || (c =? 32)            (* SPACE *)
   || (c =? 160)           (* NO-BREAK SPACE *)
   || (c =? 5760)          (* U+1680 *)
   || (8192 <=? c) && (c <=? 8202) (* U+2000 .. U+200A *)
   || (c =? 8232) || (c =? 8233)   (* LINE and PARAGRAPH SEPARATOR *)
   || (c =? 8239) || (c =? 8287)   (* U+202F, U+205F *)
   || (c =? 12288)         (* IDEOGRAPHIC SPACE *)
   || (c =? 65279))%N.     (* U+FEFF *)

Fixpoint trimStart (s : t) : t :=
  match s with
  | [] => []
  | c :: rest => if is_whitespace c then trimStart rest else s
  end.

Definition trimEnd (s : t) : t := rev (trimStart (rev s)).

(** [s.trim()] *)
Definition trim (s : t) : t := trimEnd (trimStart s).

(** A string in a condition: the empty string is falsy, any other truthy. *)
Definition truthy (s : t) : bool :=
  match s with [] => false | _ :: _ => true end.

(** [s.split(/\s+/)]: the pieces of [s] between the maximal runs of white
    space, the empty pieces before a leading run and after a trailing run
    included; the empty string gives one empty piece.  [in_run] says that the
    previous code unit was white space, [cur] is the piece being read. *)
Fixpoint split_from (in_run : bool) (cur : t) (s : t) : list t :=
  match s with
  | [] => [cur]
  | c :: rest =>
      if is_whitespace c
      then if in_run then split_from true cur rest
           else cur :: split_from true [] rest
      else split_from false (cur ++ [c]) rest
  end.

Definition split_whitespace (s : t) : list t := split_from false [] s.

(** [s.split(/\s+/).filter(word => word.length > 0)] *)
Definition words (s : t) : list t :=
  filter (fun word => 0 <? List.length word) (split_whitespace s).

End JsString.

(* ------------------------------------------------------------------ *)
(** ** Numbers *)

(** [Math.round]: the nearest integer, a tie going up. *)
Definition Math_round (x : Q) : Z := Qfloor (x + (1 # 2))%Q.

Definition number_of_nat (n : nat) : Q := inject_Z (Z.of_nat n).

(** [x > 0] and [x >= y] on numbers. *)
Definition Qgtb0 (x : Q) : bool := negb (Qle_bool x 0).
Definition Qgeb (x y : Q) : bool := Qle_bool y x.

(** The arithmetic of JavaScript numbers, IEEE 754 binary64: 53 bits of
    precision, the smallest positive number [2 ^ -1074]. *)
Module Double.

(** The [k] with [2 ^ k <= a < 2 ^ (k + 1)], for [a > 0]. *)
Definition ilog2 (a : Q) : Z :=
  let k := (Z.log2 (Qnum a) - Z.log2 (Zpos (Qden a)))%Z in
  if Qle_bool (2 ^ k) a then k else (k - 1)%Z.

(** The nearest integer, a tie going to the even one. *)
Definition round_half_even (x : Q) : Z :=
  let below := Qfloor x in
  match (x - inject_Z below ?= 1 # 2)%Q with
  | Lt => below
  | Gt => (below + 1)%Z
  | Eq => if Z.even below then below else (below + 1)%Z
  end.

(** The double nearest to [x], a tie going to the one with the even
    significand: [x] is scaled by the power of 2 that brings it to 53 bits
    (for a subnormal [x], by [2 ^ -1074]) and rounded there. *)
Definition nearest (x : Q) : Q :=
  if Qeq_bool x 0 then 0%Q
  else
    let a := Qabs x in
    let e := Z.max (ilog2 a - 52) (-1074) in
    let m := round_half_even (a / 2 ^ e) in
    ((if Qle_bool 0 x then 1 else -1) * (inject_Z m * 2 ^ e))%Q.

(** [x / y] and [x * y]. *)
Definition div (x y : Q) : Q := nearest (nearest x / nearest y).
Definition mul (x y : Q) : Q := nearest (nearest x * nearest y).

(** The value of a float of the Standard Library's specification of
    binary64, to compare [div] and [mul] with the primitive floats. *)
Definition of_spec_float (f : SpecFloat.spec_float) : Q :=
  match f with
  | SpecFloat.S754_finite negative m e =>
      ((if negative then -1 else 1) * (inject_Z (Zpos m) * 2 ^ e))%Q
  | _ => 0%Q
  end.

End Double.

(* ------------------------------------------------------------------ *)
(** ** The recognition events of the Web Speech API, as the code reads them *)

Module Speech.

(** [event.results[i]]: [isFinal] and the transcript of its first
    alternative, [event.results[i][0].transcript]. *)
Record Result : Type := mkResult {
  isFinal : bool;
  transcript : JsString.t
}.

Record Event : Type := mkEvent {
  resultIndex : nat;
  results : list Result
}.

(** The text of the results of [rs] that satisfy [keep], in order. *)
Definition text_of (keep : Result -> bool) (rs : list Result) : JsString.t :=
  List.concat (map transcript (filter keep rs)).

(** [r1] and [r2] are the same result. *)
Definition result_eqb (r1 r2 : Result) : bool :=
  Bool.eqb (isFinal r1) (isFinal r2)
  && (List.length (transcript r1) =? List.length (transcript r2))
  && forallb (fun p => N.eqb (fst p) (snd p))
       (combine (transcript r1) (transcript r2)).

(** What the specification says of the recognition capability: the final
    results are the leading ones and are never touched again, and only the
    results after them, the interim tail, may be revised, made final or
    followed by new ones.  [extends rs1 rs2] decides that the result list
    [rs2] of a snapshot continues the list [rs1] of the one before it in
    that way. *)
Fixpoint extends (rs1 rs2 : list Result) : bool :=
  match rs1 with
  | [] => true
  | r1 :: rest1 =>
      if isFinal r1
      then match rs2 with
           | [] => false
           | r2 :: rest2 => result_eqb r1 r2 && extends rest1 rest2
           end
      else forallb (fun r => negb (isFinal r)) rest1
  end.

(** A stream of snapshots, [event] then [later], in which each continues
    the one before it. *)
Fixpoint continuous (event : Event) (later : list Event) : bool :=
  match later with
  | [] => true
  | next :: rest => extends (results event) (results next) && continuous next rest
  end.

End Speech.

(** [for (let i = start; i < stop; i++) body]: the loop variable runs over
    [start, start+1, ..., stop-1] and the body updates the loop's locals. *)
Definition for_range (A : Type) (start stop : nat) (body : nat -> A -> A) (init : A) : A :=
  fold_left (fun acc i => body i acc) (seq start (stop - start)) init.

(* ------------------------------------------------------------------ *)
(** ** The component *)

Module SpeechResult.

(** [interface SpeechResult]; [timestamp] is the [Date] as milliseconds. *)
Record t : Type := mk {
  transcript : JsString.t;
  wordCount : nat;
  duration : Q;
  wpm : Z;
  timestamp : Z;
  region : string
}.

End SpeechResult.

Module RegionSpeed.

(** [RegionSpeed.ranges]; [normal] is the pair [[low, high]]. *)
Record Ranges : Type := mkRanges {
  slow : Z;
  normal : Z * Z;
  fast : Z;
  veryFast : Z
}.

(** [interface RegionSpeed], without the flag and the context sentence,
    which only the rendering reads. *)
Record t : Type := mk {
  name : string;
  ranges : Ranges
}.

End RegionSpeed.

Module App.

Import RegionSpeed.

(** [REGIONAL_SPEEDS], in the order of the source. *)
Definition REGIONAL_SPEEDS : list (string * RegionSpeed.t) :=
  [ ("us", mk "United States" (mkRanges 120 (150, 180) 200 220));
    ("uk", mk "United Kingdom" (mkRanges 110 (140, 170) 190 210));
    ("au", mk "Australia" (mkRanges 115 (145, 175) 195 215));
    ("ca", mk "Canada" (mkRanges 118 (148, 178) 198 218));
    ("in", mk "India" (mkRanges 130 (160, 190) 210 230));
    ("sg", mk "Singapore" (mkRanges 135 (165, 195) 215 235));
    ("za", mk "South Africa" (mkRanges 125 (155, 185) 205 225));
    ("ie", mk "Ireland" (mkRanges 115 (145, 175) 195 215));
    ("nz", mk "New Zealand" (mkRanges 112 (142, 172) 192 212)) ]%string%Z.

(** [REGIONAL_SPEEDS[region]]; [None] stands for a key that is not in the
    table, on which the source goes on to read [.ranges] of [undefined] and
    throws a [TypeError]. *)
Fixpoint lookup (A : Type) (key : string) (table : list (string * A)) : option A :=
  match table with
  | [] => None
  | (k, v) :: rest => if String.eqb k key then Some v else lookup key rest
  end.

(** The [useState] cells of [App], then its [useRef] cells, and the
    recognition objects.

    The effect on [[isRecording]] builds a new recognition object each time
    it runs and gives it handlers that close over the [isRecording] of that
    render; the object stays alive as long as the browser runs it, whatever
    [recognitionRef] holds later.  [recognitions] lists the objects built so
    far, oldest first, each by the [isRecording] its handlers closed over
    (the only cell a handler of a recognition object reads), and
    [recognitionRef] is the position in that list of the object the ref
    holds, [None] for [null].  [intervalRef] says whether the ref holds a
    timer handle, [startTimeRef] is in milliseconds. *)
Record State : Type := mkState {
  isRecording : bool;
  transcript : JsString.t;
  wordCount : nat;
  duration : Q;
  wpm : Z;
  results : list SpeechResult.t;
  isSupported : bool;
  error : string;
  selectedRegion : string;
  isDarkMode : bool;
  recognitions : list bool;
  recognitionRef : option nat;
  startTimeRef : Z;
  intervalRef : bool;
  currentTranscriptRef : JsString.t
}.

(** The state of the first render: [selectedRegion] and [isDarkMode] come
    from [localStorage] ([saved || 'us'], [saved ? JSON.parse(saved) : false]). *)
Definition initial (savedRegion : option string) (savedDarkMode : bool) : State :=
  {| isRecording := false; transcript := []; wordCount := 0; duration := 0;
     wpm := 0; results := []; isSupported := true; error := "";
     selectedRegion := match savedRegion with
                       | Some (String c r) => String c r
                       | _ => "us"%string
                       end;
     isDarkMode := savedDarkMode;
     recognitions := []; recognitionRef := None;
     startTimeRef := 0; intervalRef := false;
     currentTranscriptRef := [] |}.

(** What a handler asks of the browser. *)
Inductive Call : Type :=
| RecognitionStart (object : nat)
| RecognitionStop (object : nat)
| SetInterval
| ClearInterval
| ConsoleLog (message : string).

(** A handler: a state transformer that also lists its calls in order. *)
Definition Handler (A : Type) : Type := State -> A * State * list Call.

Definition ret (A : Type) (a : A) : Handler A := fun s => (a, s, []).

Definition bind (A B : Type) (m : Handler A) (k : A -> Handler B) : Handler B :=
  fun s =>
    let '(a, s1, c1) := m s in
    let '(b, s2, c2) := k a s1 in
    (b, s2, c1 ++ c2).

Definition get : Handler State := fun s => (s, s, []).
Definition modify (f : State -> State) : Handler unit := fun s => (tt, f s, []).
Definition call (c : Call) : Handler unit := fun s => (tt, s, [c]).
Definition when (b : bool) (m : Handler unit) : Handler unit :=
  if b then m else ret tt.

Definition state_of (A : Type) (r : A * State * list Call) : State := snd (fst r).
Definition calls_of (A : Type) (r : A * State * list Call) : list Call := snd r.

Declare Scope handler_scope.
Delimit Scope handler_scope with handler.
Notation "x <- m ;; k" := (bind m (fun x => k))
  (at level 61, m at next level, right associativity) : handler_scope.
Notation "m ;; k" := (bind m (fun _ => k))
  (at level 61, right associativity) : handler_scope.

(** The [set...] functions of the [useState] cells and the assignments to
    the [.current] of the refs. *)
Definition setIsRecording (v : bool) : Handler unit :=
  modify (fun s => mkState v (transcript s) (wordCount s) (duration s) (wpm s)
    (results s) (isSupported s) (error s) (selectedRegion s) (isDarkMode s)
    (recognitions s) (recognitionRef s) (startTimeRef s) (intervalRef s) (currentTranscriptRef s)).
Definition setTranscript (v : JsString.t) : Handler unit :=
  modify (fun s => mkState (isRecording s) v (wordCount s) (duration s) (wpm s)
    (results s) (isSupported s) (error s) (selectedRegion s) (isDarkMode s)
    (recognitions s) (recognitionRef s) (startTimeRef s) (intervalRef s) (currentTranscriptRef s)).
Definition setWordCount (v : nat) : Handler unit :=
  modify (fun s => mkState (isRecording s) (transcript s) v (duration s) (wpm s)
    (results s) (isSupported s) (error s) (selectedRegion s) (isDarkMode s)
    (recognitions s) (recognitionRef s) (startTimeRef s) (intervalRef s) (currentTranscriptRef s)).
Definition setDuration (v : Q) : Handler unit :=
  modify (fun s => mkState (isRecording s) (transcript s) (wordCount s) v (wpm s)
    (results s) (isSupported s) (error s) (selectedRegion s) (isDarkMode s)
    (recognitions s) (recognitionRef s) (startTimeRef s) (intervalRef s) (currentTranscriptRef s)).
Definition setWpm (v : Z) : Handler unit :=
  modify (fun s => mkState (isRecording s) (transcript s) (wordCount s) (duration s) v
    (results s) (isSupported s) (error s) (selectedRegion s) (isDarkMode s)
    (recognitions s) (recognitionRef s) (startTimeRef s) (intervalRef s) (currentTranscriptRef s)).
(** [setResults(prev => f(prev))] *)
Definition setResults (f : list SpeechResult.t -> list SpeechResult.t) : Handler unit :=
  modify (fun s => mkState (isRecording s) (transcript s) (wordCount s) (duration s) (wpm s)
    (f (results s)) (isSupported s) (error s) (selectedRegion s) (isDarkMode s)
    (recognitions s) (recognitionRef s) (startTimeRef s) (intervalRef s) (currentTranscriptRef s)).
Definition setIsSupported (v : bool) : Handler unit :=
  modify (fun s => mkState (isRecording s) (transcript s) (wordCount s) (duration s) (wpm s)
    (results s) v (error s) (selectedRegion s) (isDarkMode s)
    (recognitions s) (recognitionRef s) (startTimeRef s) (intervalRef s) (currentTranscriptRef s)).
Definition setError (v : string) : Handler unit :=
  modify (fun s => mkState (isRecording s) (transcript s) (wordCount s) (duration s) (wpm s)
    (results s) (isSupported s) v (selectedRegion s) (isDarkMode s)
    (recognitions s) (recognitionRef s) (startTimeRef s) (intervalRef s) (currentTranscriptRef s)).
Definition setSelectedRegion (v : string) : Handler unit :=
  modify (fun s => mkState (isRecording s) (transcript s) (wordCount s) (duration s) (wpm s)
    (results s) (isSupported s) (error s) v (isDarkMode s)
    (recognitions s) (recognitionRef s) (startTimeRef s) (intervalRef s) (currentTranscriptRef s)).
Definition setIsDarkMode (v : bool) : Handler unit :=
  modify (fun s => mkState (isRecording s) (transcript s) (wordCount s) (duration s) (wpm s)
    (results s) (isSupported s) (error s) (selectedRegion s) v
    (recognitions s) (recognitionRef s) (startTimeRef s) (intervalRef s) (currentTranscriptRef s)).
(** [new SpeechRecognition()] with handlers that close over [closure]. *)
Definition new_recognition (closure : bool) : Handler unit :=
  modify (fun s => mkState (isRecording s) (transcript s) (wordCount s) (duration s) (wpm s)
    (results s) (isSupported s) (error s) (selectedRegion s) (isDarkMode s)
    (recognitions s ++ [closure]) (recognitionRef s) (startTimeRef s) (intervalRef s) (currentTranscriptRef s)).
Definition set_recognitionRef (v : option nat) : Handler unit :=
  modify (fun s => mkState (isRecording s) (transcript s) (wordCount s) (duration s) (wpm s)
    (results s) (isSupported s) (error s) (selectedRegion s) (isDarkMode s)
    (recognitions s) v (startTimeRef s) (intervalRef s) (currentTranscriptRef s)).
Definition set_startTimeRef (v : Z) : Handler unit :=
  modify (fun s => mkState (isRecording s) (transcript s) (wordCount s) (duration s) (wpm s)
    (results s) (isSupported s) (error s) (selectedRegion s) (isDarkMode s)
    (recognitions s) (recognitionRef s) v (intervalRef s) (currentTranscriptRef s)).
Definition set_intervalRef (v : bool) : Handler unit :=
  modify (fun s => mkState (isRecording s) (transcript s) (wordCount s) (duration s) (wpm s)
    (results s) (isSupported s) (error s) (selectedRegion s) (isDarkMode s)
    (recognitions s) (recognitionRef s) (startTimeRef s) v (currentTranscriptRef s)).
Definition set_currentTranscriptRef (v : JsString.t) : Handler unit :=
  modify (fun s => mkState (isRecording s) (transcript s) (wordCount s) (duration s) (wpm s)
    (results s) (isSupported s) (error s) (selectedRegion s) (isDarkMode s)
    (recognitions s) (recognitionRef s) (startTimeRef s) (intervalRef s) v).

Local Open Scope handler_scope.

(** [object.start()] under [try]: the call is made, and the browser decides
    whether it throws; the result says whether it did. *)
Definition try_recognition_start (object : nat) (throws : bool) : Handler bool :=
  call (RecognitionStart object) ;; ret throws.

(** The effect on [[transcript, duration, isRecording]]:
    "Calculate WPM only after 30 seconds of speaking". *)
Definition wpmEffect : Handler unit :=
  s <- get ;;
  if isRecording s && Qgeb (duration s) 30
     && JsString.truthy (JsString.trim (transcript s))
  then
    let words := JsString.words (JsString.trim (transcript s)) in
    let currentWordCount := List.length words in
    let currentWpm :=
      Math_round (Double.mul (Double.div (number_of_nat currentWordCount) (duration s)) 60) in
    setWordCount currentWordCount ;;
    setWpm currentWpm
  else if isRecording s && JsString.truthy (JsString.trim (transcript s))
  then
    let words := JsString.words (JsString.trim (transcript s)) in
    setWordCount (List.length words) ;;
    setWpm 0
  else ret tt.

(** The effect on [[isRecording]] that builds the recognition object;
    [supported] says whether the browser has [SpeechRecognition].  React
    runs it after the first render and after every render in which
    [isRecording] differs from the render before. *)
Definition recognitionEffect (supported : bool) : Handler unit :=
  s <- get ;;
  if negb supported
  then
    setIsSupported false ;;
    setError "Speech recognition is not supported in this browser. Please use Chrome, Edge, or Safari."
  else
    let recognition := List.length (recognitions s) in
    new_recognition (isRecording s) ;;
    set_recognitionRef (Some recognition).

(** The cleanup that effect returns; React runs it before it runs the
    effect again. *)
Definition recognitionCleanup : Handler unit :=
  s <- get ;;
  when (intervalRef s) (call ClearInterval).

(** The two loops of [recognition.onresult].  The first reads the results
    from [event.resultIndex] on into the locals
    [(finalTranscript, interimTranscript)], the second reads all of them
    into [completeTranscript]. *)
Definition changed_transcripts (event : Speech.Event) : JsString.t * JsString.t :=
  for_range (Speech.resultIndex event) (List.length (Speech.results event))
    (fun i '(finalTranscript, interimTranscript) =>
       match nth_error (Speech.results event) i with
       | Some result =>
           let transcript := Speech.transcript result in
           if Speech.isFinal result
           then (finalTranscript ++ transcript, interimTranscript)
           else (finalTranscript, interimTranscript ++ transcript)
       | None => (finalTranscript, interimTranscript)
       end)
    ([], []).

Definition completeTranscript (event : Speech.Event) : JsString.t :=
  for_range 0 (List.length (Speech.results event))
    (fun i completeTranscript =>
       match nth_error (Speech.results event) i with
       | Some result =>
           if Speech.isFinal result
           then completeTranscript ++ Speech.transcript result
           else completeTranscript
       | None => completeTranscript
       end)
    [].

Definition interimTranscript (event : Speech.Event) : JsString.t :=
  snd (changed_transcripts event).

Definition fullTranscript (event : Speech.Event) : JsString.t :=
  completeTranscript event ++ interimTranscript event.

Definition onresult (event : Speech.Event) : Handler unit :=
  let fullTranscript := fullTranscript event in
  set_currentTranscriptRef fullTranscript ;;
  setTranscript fullTranscript.

(** [recognition.onerror]; [code] is [event.error]. *)
Definition onerror (code : string) : Handler unit :=
  setError (String.append "Speech recognition error: " code) ;;
  setIsRecording false.

(** [recognition.onend], of the recognition object [recognition].  The
    [isRecording] it tests is the one its closure holds, and the object it
    starts again is itself. *)
Definition onend (recognition : nat) (restart_throws : bool) : Handler unit :=
  s <- get ;;
  let isRecording := nth recognition (recognitions s) false in
  when isRecording
    (threw <- try_recognition_start recognition restart_throws ;;
     when threw (call (ConsoleLog "Recognition restart failed:"))).

(** [startRecording]; [now] is [Date.now()]. *)
Definition startRecording (start_throws : bool) (now : Z) : Handler unit :=
  s <- get ;;
  if negb (isSupported s) then ret tt
  else
    setError "" ;;
    setTranscript [] ;;
    setWordCount 0 ;;
    setDuration 0 ;;
    setWpm 0 ;;
    set_currentTranscriptRef [] ;;
    set_startTimeRef now ;;
    setIsRecording true ;;
    threw <- match recognitionRef s with
             | Some recognition => try_recognition_start recognition start_throws
             | None => ret false
             end ;;
    if threw
    then
      setError "Failed to start speech recognition. Please try again." ;;
      setIsRecording false
    else
      call SetInterval ;;
      set_intervalRef true.

(** The timer's callback, every 100 ms; [now] is [Date.now()]. *)
Definition tick (now : Z) : Handler unit :=
  s <- get ;;
  let elapsed := (inject_Z (now - startTimeRef s) / 1000)%Q in
  setDuration elapsed.

(** The locals of [stopRecording], each a function of the state the
    handler sees. *)
Definition finalTranscript (s : State) : JsString.t :=
  JsString.trim (currentTranscriptRef s).

Definition finalWordCount (s : State) : nat :=
  List.length (JsString.words (finalTranscript s)).

Definition finalWpm (finalWordCount : nat) (finalDuration : Q) : Z :=
  if Qgtb0 finalDuration
  then Math_round (Double.mul (Double.div (number_of_nat finalWordCount) finalDuration) 60)
  else 0%Z.

(** [const result: SpeechResult = {...}]; [now] is the time of [new Date()]. *)
Definition result (now : Z) (s : State) : SpeechResult.t :=
  {| SpeechResult.transcript := finalTranscript s;
     SpeechResult.wordCount := finalWordCount s;
     SpeechResult.duration := duration s;
     SpeechResult.wpm := finalWpm (finalWordCount s) (duration s);
     SpeechResult.timestamp := now;
     SpeechResult.region := selectedRegion s |}.

(** [finalTranscript && finalWordCount > 0] *)
Definition has_content (s : State) : bool :=
  JsString.truthy (finalTranscript s) && (0 <? finalWordCount s).

(** [[result, ...prev].slice(0, 10)] *)
Definition keep_last_10 (result : SpeechResult.t) (prev : list SpeechResult.t)
  : list SpeechResult.t :=
  firstn 10 (result :: prev).

Definition stopRecording (now : Z) : Handler unit :=
  s <- get ;;
  setIsRecording false ;;
  match recognitionRef s with
  | Some recognition => call (RecognitionStop recognition)
  | None => ret tt
  end ;;
  when (intervalRef s) (call ClearInterval ;; set_intervalRef false) ;;
  when (has_content s) (setResults (keep_last_10 (result now s))).

Definition reset : Handler unit :=
  setTranscript [] ;;
  setWordCount 0 ;;
  setDuration 0 ;;
  setWpm 0 ;;
  setError "" ;;
  set_currentTranscriptRef [].

Definition toggleDarkMode : Handler unit :=
  s <- get ;;
  setIsDarkMode (negb (isDarkMode s)).

(** The names the specification gives to the five labels. *)
Inductive Band : Type := Pending | TooSlow | Ideal | Fast | VeryFast.

Definition label (b : Band) : string :=
  match b with
  | Pending => "Calculating..."
  | TooSlow => "Slow"
  | Ideal => "Ideal"
  | Fast => "Fast"
  | VeryFast => "Very Fast"
  end.

(** The three tests of [getWpmLabel] on the [ranges] of the region. *)
Definition label_in (ranges : Ranges) (wpm : Z) : string :=
  if (wpm <? slow ranges)%Z then "Slow"
  else if ((wpm >=? fst (normal ranges)) && (wpm <=? snd (normal ranges)))%Z
  then "Ideal"
  else if (wpm <? fast ranges)%Z then "Fast"
  else "Very Fast".

(** [getWpmLabel(wpm, region)]; [None] is the [TypeError] of a region that
    is not in the table. *)
Definition getWpmLabel (wpm : Z) (region : string) : option string :=
  if (wpm =? 0)%Z then Some "Calculating..."%string
  else
    match lookup region REGIONAL_SPEEDS with
    | None => None
    | Some speed => Some (label_in (RegionSpeed.ranges speed) wpm)
    end.

(** The invariant the specification asks of a profile:
    [slow < normal.low <= normal.high < fast < veryFast]. *)
Definition valid_ranges (r : Ranges) : bool :=
  ((slow r <? fst (normal r)) && (fst (normal r) <=? snd (normal r))
   && (snd (normal r) <? fast r) && (fast r <? veryFast r))%Z.

(** Every piece of the component that changes its state: the three buttons,
    the timer, the callbacks of the recognition object, the region menu and
    the effects.  Nothing is assumed on the order in which they run. *)
Inductive Event : Type :=
| ClickStart (start_throws : bool) (now : Z)
| ClickStop (now : Z)
| ClickReset
| ClickDarkMode
| SelectRegion (region : string)
| TimerTick (now : Z)
| RecognitionResult (event : Speech.Event)
| RecognitionError (code : string)
| RecognitionEnd (recognition : nat) (restart_throws : bool)
| EffectWpm
| EffectRecognition (supported : bool)
| CleanupRecognition.

Definition handle (ev : Event) : Handler unit :=
  match ev with
  | ClickStart start_throws now => startRecording start_throws now
  | ClickStop now => stopRecording now
  | ClickReset => reset
  | ClickDarkMode => toggleDarkMode
  | SelectRegion region => setSelectedRegion region
  | TimerTick now => tick now
  | RecognitionResult event => onresult event
  | RecognitionError code => onerror code
  | RecognitionEnd recognition restart_throws => onend recognition restart_throws
  | EffectWpm => wpmEffect
  | EffectRecognition supported => recognitionEffect supported
  | CleanupRecognition => recognitionCleanup
  end.

(** The state after a list of events, first to last, in any order. *)
Definition run (evs : list Event) (s : State) : State :=
  fold_left (fun s ev => state_of (handle ev s)) evs s.

(** *** The component under React

    The events above in the order React and the page allow: a handler runs,
    React renders, and after the render it runs the cleanup of each effect
    whose dependencies changed and then those effects, in the order of the
    source. *)

(** The comparison of a dependency with its value at the render before. *)
Definition same_text (a b : JsString.t) : bool :=
  (List.length a =? List.length b)
  && forallb (fun p => N.eqb (fst p) (snd p)) (combine a b).

Definition effects_after (supported : bool) (prev : State) : Handler unit :=
  s <- get ;;
  let isRecording_changed := negb (Bool.eqb (isRecording prev) (isRecording s)) in
  let wpm_dependencies_changed :=
    negb (same_text (transcript prev) (transcript s))
    || negb (Qeq_bool (duration prev) (duration s))
    || isRecording_changed in
  when isRecording_changed recognitionCleanup ;;
  when wpm_dependencies_changed wpmEffect ;;
  when isRecording_changed (recognitionEffect supported).

Definition react (supported : bool) (ev : Event) : Handler unit :=
  prev <- get ;;
  handle ev ;;
  effects_after supported prev.

(** The objects on which a list of calls calls [start()]. *)
Fixpoint started_by (cs : list Call) : list nat :=
  match cs with
  | [] => []
  | RecognitionStart object :: rest => object :: started_by rest
  | _ :: rest => started_by rest
  end.

(** What can happen to the rendered component in state [s], when [started]
    are the recognition objects on which [start()] has been called: the page
    shows the Start button when [isRecording] is false and the Stop button
    when it is true, and no button at all when [isSupported] is false; the
    browser ends only an object that was started; the effects are React's to
    run.  Timers and the other callbacks of recognition are not tracked: a
    tick, a snapshot or an error is allowed at any time, which is more than
    a browser does. *)
Definition offered (ev : Event) (s : State) (started : list nat) : bool :=
  match ev with
  | ClickStart _ _ => isSupported s && negb (isRecording s)
  | ClickStop _ => isSupported s && isRecording s
  | ClickReset | ClickDarkMode | SelectRegion _ => isSupported s
  | TimerTick _ | RecognitionResult _ | RecognitionError _ => true
  | RecognitionEnd recognition _ => existsb (Nat.eqb recognition) started
  | EffectWpm | EffectRecognition _ | CleanupRecognition => false
  end.

(** The state of the component and the objects started after the events
    [evs]; [None] when one of them was not offered. *)
Fixpoint session (supported : bool) (evs : list Event) (s : State) (started : list nat)
  : option (State * list nat) :=
  match evs with
  | [] => Some (s, started)
  | ev :: rest =>
      if offered ev s started
      then session supported rest (state_of (react supported ev s))
             (started ++ started_by (calls_of (react supported ev s)))
      else None
  end.

(** The component after the effects of its first render. *)
Definition first_rendered (supported : bool) (savedRegion : option string)
    (savedDarkMode : bool) : State :=
  state_of ((wpmEffect ;; recognitionEffect supported)
              (initial savedRegion savedDarkMode)).

(** The cells the closures of the recognition objects depend on. *)
Definition view (s : State) : bool * list bool * option nat :=
  (isRecording s, recognitions s, recognitionRef s).

(** The invariant of a session: every object that was started closed over
    [isRecording = false], and the object in [recognitionRef], the one made
    by the latest run of the effect, closed over the current [isRecording]. *)
Definition closures_ok (supported : bool) (s : State) (started : list nat) : Prop :=
  (forall object, In object started ->
     (object < List.length (recognitions s))%nat
     /\ nth object (recognitions s) false = false)
  /\ (forall k, recognitionRef s = Some k ->
        supported = true
        /\ (k < List.length (recognitions s))%nat
        /\ nth k (recognitions s) false = isRecording s).

End App.

(** The earlier variant of the component, [src/unnamed/part_000]: the same
    handlers, with one fixed set of thresholds and no waiting time. *)
Module Earlier.

Import App.
Local Open Scope handler_scope.

(** "Calculate WPM whenever transcript or duration changes" *)
Definition wpmEffect : Handler unit :=
  s <- get ;;
  if isRecording s && Qgtb0 (duration s)
     && JsString.truthy (JsString.trim (transcript s))
  then
    let words := JsString.words (JsString.trim (transcript s)) in
    let currentWordCount := List.length words in
    let currentWpm :=
      Math_round (Double.mul (Double.div (number_of_nat currentWordCount) (duration s)) 60) in
    setWordCount currentWordCount ;;
    setWpm currentWpm
  else ret tt.

Definition getWpmLabel (wpm : Z) : string :=
  if (wpm <? 120)%Z then "Slow"
  else if (wpm <? 160)%Z then "Normal"
  else if (wpm <? 200)%Z then "Fast"
  else "Very Fast".

End Earlier.

(* ------------------------------------------------------------------ *)
(** ** Sessions used as examples *)

Module Examples.

Import App.

Definition final (text : string) : Speech.Result :=
  Speech.mkResult true (JsString.of_string text).

Definition interim (text : string) : Speech.Result :=
  Speech.mkResult false (JsString.of_string text).

Definition snapshot (resultIndex : nat) (results : list Speech.Result) : Event :=
  RecognitionResult (Speech.mkEvent resultIndex results).

(** The component after its first render in a browser that has
    [SpeechRecognition], and after a session of events from there. *)
Definition mounted : State := first_rendered true None false.

Definition after (evs : list Event) : State :=
  match session true evs mounted [] with
  | Some (s, _) => s
  | None => mounted
  end.

(** Started at time 0, a final "hello world" heard, 5 seconds gone. *)
Definition hello_world_until_5s : list Event :=
  [ClickStart false 0; snapshot 0 [final "hello world"]; TimerTick 5000].

Definition recording_at_5s : State := after hello_world_until_5s.

(** Ten such sessions, each stopped, then an eleventh still recording. *)
Definition eleventh_session : State :=
  after (List.concat (List.repeat (hello_world_until_5s ++ [ClickStop 5000]) 10)
         ++ hello_world_until_5s).

(** A session stopped while "hello" was still interim, and the snapshot the
    browser delivers after the stop. *)
Definition stop_after_hello : list Event :=
  [ClickStart false 0; snapshot 0 [interim "hello"]; ClickStop 1000].

Definition stopped_after_hello : State := after stop_after_hello.

Definition late_snapshot : Speech.Event :=
  Speech.mkEvent 0 [final "hello world"].



Definition words_then_blank_at_31s : list Event :=
  [ClickStart false 0; TimerTick 31000; snapshot 0 [interim "a b c"];
   snapshot 0 [interim " "]].

Definition blank_after_words_at_31s : State := after words_then_blank_at_31s.

(** Two consecutive snapshots: the interim "hello wor" becomes the final
    "hello world " and a new interim follows. *)
Definition snapshot_1 : Speech.Event :=
  Speech.mkEvent 0 [final "one "; interim "hello wor"].

Definition snapshot_2 : Speech.Event :=
  Speech.mkEvent 1 [final "one "; final "hello world "; interim "this"].

End Examples.

(* ------------------------------------------------------------------ *)
(** ** What the page shows *)

(** [Math.floor], [Math.min] and [x % y] on numbers: the remainder is what
    is left of [x] after [y] times the quotient rounded towards 0, and so
    takes the sign of [x]. *)
Definition Math_floor (x : Q) : Z := Qfloor x.


Definition Number_remainder (x y : Q) : Q :=
  let quotient := (x / y)%Q in
  let truncated := if Qle_bool 0 quotient then Qfloor quotient else Qceiling quotient in
  (x - y * inject_Z truncated)%Q.

(** [n.toString()] of an integer: its decimal digits.  This is what
    JavaScript prints for an integer a double holds exactly and in full,
    which is every integer below [2 ^ 53] in absolute value; above, it
    prints the shortest digits that identify the double, and from [10^21]
    on the notation with an exponent. *)
Definition Number_toString (n : Z) : JsString.t :=
  JsString.of_string (NilZero.string_of_int (Z.to_int n)).

(** [s.padStart(targetLength, pad)] for a [pad] of one code unit. *)
Definition padStart (targetLength : nat) (pad : N) (s : JsString.t) : JsString.t :=
  List.repeat pad (targetLength - List.length s) ++ s.

Module View.

Import RegionSpeed App.

(** [formatTime(seconds)]: [`${mins}:${secs.toString().padStart(2, '0')}`].
    The quotient [seconds / 60] is taken exactly, and [%] is exact in
    doubles as well; [division_by_60_in_doubles] compares the floor of the
    exact quotient with the floor of the quotient in doubles.  What is
    proved of the minutes printed is for times below [2 ^ 53] seconds. *)
Definition formatTime (seconds : Q) : JsString.t :=
  let mins := Math_floor (seconds / 60) in
  let secs := Math_floor (Number_remainder seconds 60) in
  Number_toString mins ++ JsString.of_string ":"
    ++ padStart 2 48 (Number_toString secs).

(** The class of the text colour of each band. *)
Definition color (b : Band) : string :=
  match b with
  | Pending => "text-gray-400 dark:text-gray-500"
  | TooSlow => "text-red-500"
  | Ideal => "text-green-500"
  | Fast => "text-yellow-500"
  | VeryFast => "text-blue-500"
  end.

(** The three tests of [getWpmColor] on the [ranges] of the region. *)
Definition color_in (ranges : Ranges) (wpm : Z) : string :=
  if (wpm <? slow ranges)%Z then "text-red-500"
  else if ((wpm >=? fst (normal ranges)) && (wpm <=? snd (normal ranges)))%Z
  then "text-green-500"
  else if (wpm <? fast ranges)%Z then "text-yellow-500"
  else "text-blue-500".

(** [getWpmColor(wpm, region)]; [None] is the [TypeError] of a region that
    is not in the table. *)
Definition getWpmColor (wpm : Z) (region : string) : option string :=
  if (wpm =? 0)%Z then Some "text-gray-400 dark:text-gray-500"%string
  else
    match lookup region REGIONAL_SPEEDS with
    | None => None
    | Some speed => Some (color_in (RegionSpeed.ranges speed) wpm)
    end.

(** [const currentRegion = REGIONAL_SPEEDS[selectedRegion]]; the render
    reads [currentRegion.flag] and [currentRegion.ranges], so on [None] it
    throws. *)
Definition currentRegion (s : State) : option RegionSpeed.t :=
  lookup (selectedRegion s) REGIONAL_SPEEDS.

(** The gauge under the three cards, which is rendered only when
    [wpm > 0]: the class of its bar, by tests written out on
    [currentRegion.ranges], and the width of the bar in percent,
    [Math.min((wpm / currentRegion.ranges.veryFast) * 100, 100)]. *)
Definition gauge_color (ranges : Ranges) (wpm : Z) : string :=
  if (wpm <? slow ranges)%Z then "bg-red-500"
  else if ((wpm >=? fst (normal ranges)) && (wpm <=? snd (normal ranges)))%Z
  then "bg-green-500"
  else if (wpm <? fast ranges)%Z then "bg-yellow-500"
  else "bg-blue-500".


(** The options of the region menu are the keys of the table,
    [Object.entries(REGIONAL_SPEEDS)]; [on_menu code] says that [code] is
    one of them, and [from_menu ev] that a choice in the menu is. *)
Definition on_menu (code : string) : bool :=
  existsb (String.eqb code) (map fst REGIONAL_SPEEDS).

Definition from_menu (ev : Event) : bool :=
  match ev with
  | SelectRegion code => on_menu code
  | _ => true
  end.

(** The region of the state and the region of every result are options of
    the menu. *)
Definition regions_on_menu (s : State) : Prop :=
  on_menu (selectedRegion s) = true
  /\ Forall (fun r => on_menu (SpeechResult.region r) = true) (results s).

(** The colour of a line of the history:
    [getWpmColor(result.wpm, result.region)]. *)
Definition history_color (result : SpeechResult.t) : option string :=
  getWpmColor (SpeechResult.wpm result) (SpeechResult.region result).

End View.

(** The rendering of the variant in [src/unnamed/part_000]: the colour of
    the speed and the colour of the bar of the gauge, by fixed thresholds,
    and the four bands they and [Earlier.getWpmLabel] tell apart. *)
Module EarlierView.

Inductive Band : Type := Slow | Normal | Fast | VeryFast.

Definition label (b : Band) : string :=
  match b with
  | Slow => "Slow"
  | Normal => "Normal"
  | Fast => "Fast"
  | VeryFast => "Very Fast"
  end.

Definition color (b : Band) : string :=
  match b with
  | Slow => "text-red-500"
  | Normal => "text-yellow-500"
  | Fast => "text-green-500"
  | VeryFast => "text-blue-500"
  end.

Definition getWpmColor (wpm : Z) : string :=
  if (wpm <? 120)%Z then "text-red-500"
  else if (wpm <? 160)%Z then "text-yellow-500"
  else if (wpm <? 200)%Z then "text-green-500"
  else "text-blue-500".

Definition gauge_color (wpm : Z) : string :=
  if (wpm <? 120)%Z then "bg-red-500"
  else if (wpm <? 160)%Z then "bg-yellow-500"
  else if (wpm <? 200)%Z then "bg-green-500"
  else "bg-blue-500".

End EarlierView.

(* ------------------------------------------------------------------ *)
(** ** The history *)

Module History.

(** What [stopRecording] puts in a result: a transcript that is trimmed and
    not empty, the number of its words, and the speed [finalWpm] gives for
    that number and the duration. *)
Definition consistent (r : SpeechResult.t) : Prop :=
  SpeechResult.transcript r <> []
  /\ JsString.trim (SpeechResult.transcript r) = SpeechResult.transcript r
  /\ SpeechResult.wordCount r = List.length (JsString.words (SpeechResult.transcript r))
  /\ (0 < SpeechResult.wordCount r)%nat
  /\ SpeechResult.wpm r
     = App.finalWpm (SpeechResult.wordCount r) (SpeechResult.duration r)
  /\ (0 <= SpeechResult.wpm r)%Z.

End History.

(* ------------------------------------------------------------------ *)
(** ** The preferences kept in [localStorage] *)

Module Storage.

Import App.

(** The two keys the component uses; [None] is a key that was never
    written. *)
Record t : Type := mk {
  selectedRegion : option string;
  darkMode : option string
}.

(** [JSON.stringify] of a boolean, and [JSON.parse] of a stored text:
    [None] when the text is not one [JSON.stringify] gives for a boolean. *)
Definition JSON_stringify (b : bool) : string :=
  if b then "true" else "false".

Definition JSON_parse (text : string) : option bool :=
  if String.eqb text "true" then Some true
  else if String.eqb text "false" then Some false
  else None.

(** The effect on [[isDarkMode]] and the effect on [[selectedRegion]]. *)
Definition darkModeEffect (s : State) (storage : t) : t :=
  mk (selectedRegion storage) (Some (JSON_stringify (isDarkMode s))).

Definition regionEffect (s : State) (storage : t) : t :=
  mk (Some (App.selectedRegion s)) (darkMode storage).

(** The initialisers of the two cells, [saved || 'us'] and
    [saved ? JSON.parse(saved) : false], and the state of the first render
    they give; [None] when the stored text is not a boolean's. *)
Definition mount (storage : t) : option State :=
  match darkMode storage with
  | None | Some EmptyString => Some (initial (selectedRegion storage) false)
  | Some saved =>
      match JSON_parse saved with
      | Some dark => Some (initial (selectedRegion storage) dark)
      | None => None
      end
  end.

(** The storage after the effects of the first render, and after the
    effects of a render that follows [prev]. *)
Definition first_stored (s : State) (storage : t) : t :=
  regionEffect s (darkModeEffect s storage).

Definition stored_after (prev s : State) (storage : t) : t :=
  let storage :=
    if Bool.eqb (isDarkMode prev) (isDarkMode s) then storage
    else darkModeEffect s storage in
  if String.eqb (App.selectedRegion prev) (App.selectedRegion s) then storage
  else regionEffect s storage.

(** The storage holds what the two effects write for the state [s]. *)
Definition in_step (s : State) (storage : t) : Prop :=
  selectedRegion storage = Some (App.selectedRegion s)
  /\ darkMode storage = Some (JSON_stringify (isDarkMode s)).

(** The state and the storage after the events [evs], each followed by
    React's render and effects. *)
Fixpoint reload_point (supported : bool) (evs : list Event) (s : State) (storage : t)
  : State * t :=
  match evs with
  | [] => (s, storage)
  | ev :: rest =>
      let next := state_of (react supported ev s) in
      reload_point supported rest next (stored_after s next storage)
  end.

End Storage.

(* ------------------------------------------------------------------ *)
(** ** The interval timer *)

Module Timer.

Import App.

(** The interval timers of the page as the calls of the component leave
    them: [running] counts the timers that tick, [held] says that the
    handle in [intervalRef.current] is the handle of one of them.  Every
    [setInterval] of the source is assigned to [intervalRef.current] and
    every [clearInterval] is given [intervalRef.current]. *)
Record t : Type := mk {
  running : nat;
  held : bool
}.

Definition none : t := mk 0 false.

Definition after_call (timers : t) (c : Call) : t :=
  match c with
  | SetInterval => mk (S (running timers)) true
  | ClearInterval =>
      if held timers then mk (pred (running timers)) false else timers
  | _ => timers
  end.

Definition after_calls (cs : list Call) (timers : t) : t :=
  fold_left after_call cs timers.

(** [App.offered] with the timers tracked: the callback of the timer runs
    only while a timer ticks. *)
Definition offered (ev : Event) (s : State) (started : list nat) (timers : t) : bool :=
  App.offered ev s started
  && match ev with
     | TimerTick _ => (0 <? running timers)%nat
     | _ => true
     end.

Fixpoint session (supported : bool) (evs : list Event) (s : State)
    (started : list nat) (timers : t) : option (State * list nat * t) :=
  match evs with
  | [] => Some (s, started, timers)
  | ev :: rest =>
      if offered ev s started timers
      then session supported rest (state_of (react supported ev s))
             (started ++ started_by (calls_of (react supported ev s)))
             (after_calls (calls_of (react supported ev s)) timers)
      else None
  end.

(** The clock never moved: the elapsed time and the speed are 0, in the
    state and in every result. *)
Definition stopped_clock (s : State) : Prop :=
  duration s = 0%Q /\ wpm s = 0%Z
  /\ Forall (fun r => SpeechResult.duration r = 0%Q /\ SpeechResult.wpm r = 0%Z)
       (results s).

(** A session with a final "hello world" that is stopped, and the state it
    ends in. *)
Definition hello_then_stop : list Event :=
  [ClickStart false 0; Examples.snapshot 0 [Examples.final "hello world"];
   ClickStop 5000].

Definition stopped_after_hello_world : State :=
  match session true hello_then_stop Examples.mounted [] none with
  | Some (s, _, _) => s
  | None => Examples.mounted
  end.

(** The same session before the stop: recording, "hello world" heard. *)
Definition hello_world_heard : list Event :=
  [ClickStart false 0; Examples.snapshot 0 [Examples.final "hello world"]].

Definition recording_hello_world : State :=
  match session true hello_world_heard Examples.mounted [] none with
  | Some (s, _, _) => s
  | None => Examples.mounted
  end.

End Timer.

(* ------------------------------------------------------------------ *)
(** ** The earlier variant under React *)

(** The component of [src/unnamed/part_000] under React.  Its handlers and
    its recognition effect are those of [App.tsx] (a result has no region,
    and there is no menu of regions); the effect on
    [[transcript, duration, isRecording]] is [Earlier.wpmEffect]. *)
Module EarlierSession.

Import App.
Local Open Scope handler_scope.

Definition effects_after (supported : bool) (prev : State) : Handler unit :=
  s <- get ;;
  let isRecording_changed := negb (Bool.eqb (isRecording prev) (isRecording s)) in
  let wpm_dependencies_changed :=
    negb (same_text (transcript prev) (transcript s))
    || negb (Qeq_bool (duration prev) (duration s))
    || isRecording_changed in
  when isRecording_changed recognitionCleanup ;;
  when wpm_dependencies_changed Earlier.wpmEffect ;;
  when isRecording_changed (recognitionEffect supported).

Definition react (supported : bool) (ev : Event) : Handler unit :=
  prev <- get ;;
  handle ev ;;
  effects_after supported prev.

(** [Timer.offered], without the menu of regions. *)
Definition offered (ev : Event) (s : State) (started : list nat) (timers : Timer.t)
  : bool :=
  match ev with
  | SelectRegion _ => false
  | _ => Timer.offered ev s started timers
  end.

Fixpoint session (supported : bool) (evs : list Event) (s : State)
    (started : list nat) (timers : Timer.t) : option (State * list nat * Timer.t) :=
  match evs with
  | [] => Some (s, started, timers)
  | ev :: rest =>
      if offered ev s started timers
      then session supported rest (state_of (react supported ev s))
             (started ++ started_by (calls_of (react supported ev s)))
             (Timer.after_calls (calls_of (react supported ev s)) timers)
      else None
  end.

(** The component after the effects of its first render. *)
Definition first_rendered (supported : bool) (savedDarkMode : bool) : State :=
  state_of ((Earlier.wpmEffect ;; recognitionEffect supported)
              (initial None savedDarkMode)).

(** The earlier variant after Start and a final "hello world". *)
Definition recording_hello_world : State :=
  match session true Timer.hello_world_heard (first_rendered true false) [] Timer.none with
  | Some (s, _, _) => s
  | None => first_rendered true false
  end.

End EarlierSession.

(* ================================================================== *)
(** * Properties *)

(** ** Strings: trimming and counting words *)

Section StringFacts.

Import JsString.

Lemma trimStart_head (s : JsString.t) (c : N) (rest : JsString.t) :
  trimStart s = c :: rest -> is_whitespace c = false.
Proof.
  induction s as [|d s IH]; cbn; [discriminate|].
  destruct (is_whitespace d) eqn:Hd; [exact IH|].
  intros E; injection E as -> _; exact Hd.
Qed.

Lemma trimStart_suffix (s : JsString.t) :
  exists dropped, s = dropped ++ trimStart s /\ forallb is_whitespace dropped = true.
Proof.
  induction s as [|d s [dropped [E H]]]; cbn.
  - exists []; split; reflexivity.
  - destruct (is_whitespace d) eqn:Hd.
    + exists (d :: dropped); cbn; rewrite Hd, H; split; [now f_equal|reflexivity].
    + exists []; split; reflexivity.
Qed.

Lemma trimStart_whitespace (s : JsString.t) :
  forallb is_whitespace s = true -> trimStart s = [].
Proof.
  induction s as [|d s IH]; cbn; [reflexivity|].
  destruct (is_whitespace d); cbn; [exact IH|discriminate].
Qed.

Lemma trimStart_empty_iff (s : JsString.t) :
  trimStart s = [] <-> forallb is_whitespace s = true.
Proof.
  split; [|apply trimStart_whitespace].
  induction s as [|d s IH]; cbn; [reflexivity|].
  destruct (is_whitespace d); cbn; [exact IH|discriminate].
Qed.

(** A string is trimmed to the empty string exactly when it is empty or
    all white space. *)
Lemma trim_empty_iff (s : JsString.t) :
  trim s = [] <-> forallb is_whitespace s = true.
Proof.
  unfold trim, trimEnd. split.
  - intros E. apply (f_equal (@rev N)) in E. rewrite rev_involutive in E.
    cbn in E. apply trimStart_empty_iff in E.
    rewrite forallb_forall in E.
    destruct (trimStart_suffix s) as [dropped [Es Hd]].
    rewrite Es, forallb_app, Hd. cbn.
    apply forallb_forall. intros c Hc. apply E. now apply in_rev in Hc.
  - intros H. rewrite (trimStart_whitespace _ H). reflexivity.
Qed.

Lemma trim_has_char (s : JsString.t) :
  trim s <> [] -> exists c, In c (trim s) /\ is_whitespace c = false.
Proof.
  unfold trim, trimEnd. intros H.
  destruct (trimStart (rev (trimStart s))) as [|c rest] eqn:E; [now destruct H|].
  exists c. split.
  - cbn. apply in_or_app. right. now left.
  - exact (trimStart_head _ E).
Qed.

Lemma split_from_cur (in_run : bool) (cur s : JsString.t) :
  cur <> [] ->
  filter (fun word => 0 <? List.length word) (split_from in_run cur s) <> [].
Proof.
  revert in_run cur. induction s as [|c s IH]; intros in_run cur Hcur; cbn.
  - destruct cur; [now destruct Hcur|cbn; discriminate].
  - destruct (is_whitespace c).
    + destruct in_run; [now apply IH|].
      cbn. destruct cur; [now destruct Hcur|cbn; discriminate].
    + apply IH. now destruct cur.
Qed.

Lemma split_from_char (in_run : bool) (cur s : JsString.t) (c : N) :
  In c s -> is_whitespace c = false ->
  filter (fun word => 0 <? List.length word) (split_from in_run cur s) <> [].
Proof.
  revert in_run cur. induction s as [|d s IH]; intros in_run cur Hin Hc; [destruct Hin|].
  cbn. destruct (is_whitespace d) eqn:Hd.
  - destruct Hin as [->|Hin]; [congruence|].
    destruct in_run; [now apply IH|].
    destruct cur; cbn; [now apply IH|discriminate].
  - apply split_from_cur. now destruct cur.
Qed.

(** A string that is not empty after trimming has at least one word. *)
Lemma words_trim_positive (s : JsString.t) :
  trim s <> [] -> (0 < List.length (words (trim s)))%nat.
Proof.
  intros H. destruct (trim_has_char _ H) as [c [Hin Hc]].
  pose proof (split_from_char false [] _ c Hin Hc) as Hw.
  unfold words, split_whitespace.
  destruct (filter _ _); [now destruct Hw|cbn; lia].
Qed.

Lemma JsString_truthy_iff (s : JsString.t) : truthy s = true <-> s <> [].
Proof. destruct s; cbn; split; congruence. Qed.

End StringFacts.

Example split_and_trim_examples :
  JsString.split_whitespace (JsString.of_string "a  b")
  = [JsString.of_string "a"; JsString.of_string "b"]
  /\ JsString.split_whitespace (JsString.of_string " a") = [[]; JsString.of_string "a"]
  /\ JsString.split_whitespace (JsString.of_string "a ") = [JsString.of_string "a"; []]
  /\ JsString.split_whitespace [] = [[]]
  /\ JsString.words [] = []
  /\ JsString.trim (JsString.of_string "  hi there ") = JsString.of_string "hi there"
  /\ List.length (JsString.words (JsString.of_string "hello world")) = 2%nat.
Proof. repeat split. Qed.

Example whitespace_examples :
  map JsString.is_whitespace [9; 13; 32; 160; 8192; 8202; 8232; 12288; 65279]%N
  = [true; true; true; true; true; true; true; true; true]
  /\ map JsString.is_whitespace [8; 14; 33; 97; 8203; 8234]%N
     = [false; false; false; false; false; false].
Proof. split; reflexivity. Qed.

(** ** Numbers: rounding and the comparisons of the guards *)

Section NumberFacts.

Local Open Scope Q_scope.

Lemma Qgtb0_iff (x : Q) : Qgtb0 x = true <-> 0 < x.
Proof.
  unfold Qgtb0. rewrite negb_true_iff, <- not_true_iff_false, Qle_bool_iff.
  split; [apply Qnot_le_lt|apply Qlt_not_le].
Qed.

Lemma Qgtb0_false_iff (x : Q) : Qgtb0 x = false <-> x <= 0.
Proof.
  unfold Qgtb0. rewrite negb_false_iff. apply Qle_bool_iff.
Qed.



(** [Math.round x] is the integer [r] with [r - 1/2 <= x < r + 1/2]. *)
Lemma Math_round_nearest (x : Q) :
  inject_Z (Math_round x) - (1 # 2) <= x /\ x < inject_Z (Math_round x) + (1 # 2).
Proof.
  unfold Math_round. split.
  - pose proof (Qfloor_le (x + (1 # 2))) as H. lra.
  - pose proof (Qlt_floor (x + (1 # 2))) as H.
    rewrite inject_Z_plus in H. change (inject_Z 1) with 1 in H. lra.
Qed.

Lemma Math_round_unique (x : Q) (r : Z) :
  inject_Z r - (1 # 2) <= x -> x < inject_Z r + (1 # 2) -> Math_round x = r.
Proof.
  intros Hlo Hhi. destruct (Math_round_nearest x) as [Glo Ghi].
  assert (inject_Z r < inject_Z (Math_round x + 1)) as A
    by (rewrite inject_Z_plus; change (inject_Z 1) with 1; lra).
  assert (inject_Z (Math_round x) < inject_Z (r + 1)) as B
    by (rewrite inject_Z_plus; change (inject_Z 1) with 1; lra).
  rewrite <- Zlt_Qlt in A, B. lia.
Qed.

Lemma Math_round_comp (x y : Q) : x == y -> Math_round x = Math_round y.
Proof. intros E. unfold Math_round. now rewrite E. Qed.

(** No words: the speed is 0 at any duration. *)
Lemma speed_of_no_words (t : Q) :
  Math_round (Double.mul (Double.div (number_of_nat 0) t) 60) = 0%Z.
Proof. reflexivity. Qed.

End NumberFacts.

(** ** Numbers: the doubles *)

Section DoubleFacts.

Local Open Scope Q_scope.
Import Double.

Lemma two_power_pos (k : Z) : 0 < 2 ^ k.
Proof. apply Qpower_0_lt. reflexivity. Qed.

Lemma two_power_Z (k : Z) : (0 <= k)%Z -> inject_Z (2 ^ k) == 2 ^ k.
Proof. intros H. now rewrite Zpower_Qpower. Qed.

Lemma Qdiv_lt_cross (a b c d : Q) : 0 < b -> 0 < d -> a * d < c * b -> a / b < c / d.
Proof.
  intros Hb Hd H. apply Qlt_shift_div_l; [exact Hd|].
  assert (a / b * d == a * d / b) as -> by (field; lra).
  apply Qlt_shift_div_r; [exact Hb|exact H].
Qed.

Lemma Qdiv_le_cross (a b c d : Q) : 0 < b -> 0 < d -> a * d <= c * b -> a / b <= c / d.
Proof.
  intros Hb Hd H. apply Qle_shift_div_l; [exact Hd|].
  assert (a / b * d == a * d / b) as -> by (field; lra).
  apply Qle_shift_div_r; [exact Hb|exact H].
Qed.

(** [ilog2 a] is the integer part of the binary logarithm of [a]. *)
Lemma ilog2_spec (a : Q) : 0 < a -> 2 ^ ilog2 a <= a /\ a < 2 ^ (ilog2 a + 1).
Proof.
  intros Ha. unfold ilog2.
  destruct a as [n d]. cbn [Qnum Qden].
  assert (0 < n)%Z as Hn.
  { unfold Qlt in Ha. cbn in Ha. lia. }
  pose proof (Z.log2_spec n Hn) as [N1 N2].
  pose proof (Z.log2_spec (Zpos d) ltac:(lia)) as [D1 D2].
  pose proof (Z.log2_nonneg n) as LN. pose proof (Z.log2_nonneg (Zpos d)) as LD.
  set (ln := Z.log2 n) in *. set (ld := Z.log2 (Zpos d)) in *.
  assert (n # d == inject_Z n / inject_Z (Zpos d)) as E by apply Qmake_Qdiv.
  assert (0 < inject_Z (Zpos d)) as Qd by reflexivity.
  assert (forall k, 2 ^ (ln - ld + k) == 2 ^ (ln + k) / 2 ^ ld) as P.
  { intros k. replace (ln - ld + k)%Z with ((ln + k) + - ld)%Z by ring.
    rewrite Qpower_plus by discriminate. rewrite Qpower_opp. reflexivity. }
  assert (inject_Z (2 ^ ln) == 2 ^ ln) as Pn by (apply two_power_Z; exact LN).
  assert (inject_Z (2 ^ (ln + 1)) == 2 ^ (ln + 1)) as Pn1 by (apply two_power_Z; lia).
  assert (inject_Z (2 ^ ld) == 2 ^ ld) as Pd by (apply two_power_Z; exact LD).
  assert (inject_Z (2 ^ (ld + 1)) == 2 ^ (ld + 1)) as Pd1 by (apply two_power_Z; lia).
  rewrite Zle_Qle in N1, D1. rewrite Zlt_Qlt in N2, D2.
  replace (Z.succ ln) with (ln + 1)%Z in N2 by lia.
  replace (Z.succ ld) with (ld + 1)%Z in D2 by lia.
  rewrite Pn in N1. rewrite Pn1 in N2. rewrite Pd in D1. rewrite Pd1 in D2.
  pose proof (two_power_pos ld) as Pld. pose proof (two_power_pos (ld + 1)) as Pld1.
  pose proof (two_power_pos ln) as Pln.
  destruct (Qle_bool (2 ^ (ln - ld)) (n # d)) eqn:C.
  - apply Qle_bool_iff in C. split; [exact C|].
    rewrite E. specialize (P 1%Z). rewrite P.
    pose proof (two_power_pos (ln + 1)) as Q1.
    apply Qdiv_lt_cross; [exact Qd|exact Pld|nra].
  - assert (n # d < 2 ^ (ln - ld)) as C'.
    { apply Qnot_le_lt. intros H. apply Qle_bool_iff in H. congruence. }
    split.
    + rewrite E. replace (ln - ld - 1)%Z with (ln + - (ld + 1))%Z by ring.
      rewrite Qpower_plus by discriminate. rewrite Qpower_opp.
      change (2 ^ ln * / 2 ^ (ld + 1)) with (2 ^ ln / 2 ^ (ld + 1)).
      apply Qdiv_le_cross; [exact Pld1|exact Qd|nra].
    + replace (ln - ld - 1 + 1)%Z with (ln - ld)%Z by ring. exact C'.
Qed.

Lemma round_half_even_close (x : Q) :
  x - (1 # 2) <= inject_Z (round_half_even x) <= x + (1 # 2).
Proof.
  unfold round_half_even.
  pose proof (Qfloor_le x) as Lo. pose proof (Qlt_floor x) as Hi.
  rewrite inject_Z_plus in Hi. change (inject_Z 1) with 1 in Hi.
  destruct (x - inject_Z (Qfloor x) ?= 1 # 2) eqn:C.
  - apply Qeq_alt in C. destruct (Z.even (Qfloor x));
      [|rewrite inject_Z_plus; change (inject_Z 1) with 1]; lra.
  - apply Qlt_alt in C. lra.
  - apply Qgt_alt in C. rewrite inject_Z_plus. change (inject_Z 1) with 1. lra.
Qed.

Lemma Qabs_of_pos (x : Q) : 0 < x -> Qabs x = x.
Proof.
  destruct x as [n d]. unfold Qlt. cbn. intros H.
  destruct n; try lia. reflexivity.
Qed.

(** A positive number as [nearest] rounds it. *)
Lemma nearest_of_pos (x : Q) :
  0 < x ->
  nearest x
  == inject_Z (round_half_even (x / 2 ^ Z.max (ilog2 x - 52) (-1074)))
     * 2 ^ Z.max (ilog2 x - 52) (-1074).
Proof.
  intros H. unfold nearest.
  assert (Qeq_bool x 0 = false) as ->.
  { apply not_true_iff_false. intros E. apply Qeq_bool_iff in E. lra. }
  assert (Qle_bool 0 x = true) as -> by (apply Qle_bool_iff; lra).
  rewrite (Qabs_of_pos H). ring.
Qed.

Lemma nearest_nonneg (x : Q) : 0 <= x -> 0 <= nearest x.
Proof.
  intros H. destruct (Qlt_le_dec 0 x) as [Hp|Hz].
  - rewrite (nearest_of_pos Hp).
    set (e := Z.max _ _). pose proof (two_power_pos e) as Pe.
    pose proof (round_half_even_close (x / 2 ^ e)) as [Lo _].
    assert (0 < x / 2 ^ e) as Hq by (apply Qlt_shift_div_l; [exact Pe|lra]).
    assert (inject_Z (-1) < inject_Z (round_half_even (x / 2 ^ e))) as A
      by (change (inject_Z (-1)) with (-1 # 1); lra).
    rewrite <- Zlt_Qlt in A.
    assert (0 <= inject_Z (round_half_even (x / 2 ^ e))) as B
      by (change 0 with (inject_Z 0); rewrite <- Zle_Qle; lia).
    nra.
  - unfold nearest.
    assert (Qeq_bool x 0 = true) as -> by (apply Qeq_bool_iff; lra).
    lra.
Qed.

(** In the range of the normal numbers the nearest double is within the
    relative error [2 ^ -53]. *)
Lemma nearest_close (x : Q) :
  2 ^ (-1022) <= x ->
  x * (1 - 2 ^ (-53)) <= nearest x <= x * (1 + 2 ^ (-53)).
Proof.
  intros H. pose proof (two_power_pos (-1022)) as P0.
  assert (0 < x) as Hp by lra.
  rewrite (nearest_of_pos Hp).
  destruct (ilog2_spec Hp) as [L1 L2].
  assert (-1022 <= ilog2 x)%Z as HL.
  { assert (2 ^ (-1022) < 2 ^ (ilog2 x + 1)) as A by lra.
    apply Qpower_lt_compat_l_inv in A; [lia|reflexivity]. }
  rewrite Z.max_l by lia.
  set (e := (ilog2 x - 52)%Z). pose proof (two_power_pos e) as Pe.
  pose proof (round_half_even_close (x / 2 ^ e)) as [Lo Hi].
  set (m := inject_Z (round_half_even (x / 2 ^ e))) in *.
  assert (x / 2 ^ e * 2 ^ e == x) as Ex by (field; lra).
  assert (2 ^ e * (1 # 2) <= x * 2 ^ (-53)) as Hu.
  { assert (2 ^ ilog2 x == 2 ^ e * 2 ^ 52) as E1.
    { unfold e. rewrite <- Qpower_plus by discriminate. now replace (ilog2 x - 52 + 52)%Z with (ilog2 x) by ring. }
    change (2 ^ (-53)) with (1 # 9007199254740992).
    change (2 ^ 52) with (4503599627370496 # 1) in E1.
    rewrite E1 in L1. lra. }
  split; nra.
Qed.

End DoubleFacts.

Section SpeedAccuracy.

Local Open Scope Q_scope.
Import Double.

Local Notation "'between'" := (fun lo hi x y : Q => x * lo <= y /\ y <= x * hi).

Lemma between_nearest (x : Q) :
  2 ^ (-1022) <= x -> between (1 - 2 ^ (-53)) (1 + 2 ^ (-53)) x (nearest x).
Proof. intros H. cbv beta. exact (nearest_close H). Qed.

Lemma between_trans (l1 h1 l2 h2 x y z : Q) :
  0 <= x -> 0 <= l1 -> 0 <= l2 -> 0 <= h2 ->
  between l1 h1 x y -> between l2 h2 y z -> between (l1 * l2) (h1 * h2) x z.
Proof.
  cbv beta. intros Hx Hl1 Hl2 Hh2 [A B] [C D].
  assert (0 <= y) as Hy by nra.
  split.
  - apply Qle_trans with (y * l2); [|exact C].
    assert (x * (l1 * l2) == (x * l1) * l2) as -> by ring.
    apply Qmult_le_compat_r; assumption.
  - apply Qle_trans with (y * h2); [exact D|].
    assert (x * (h1 * h2) == (x * h1) * h2) as -> by ring.
    apply Qmult_le_compat_r; assumption.
Qed.

Lemma between_mult (l1 h1 l2 h2 x x' y y' : Q) :
  0 <= x -> 0 <= y -> 0 <= l1 -> 0 <= l2 ->
  between l1 h1 x x' -> between l2 h2 y y' ->
  between (l1 * l2) (h1 * h2) (x * y) (x' * y').
Proof.
  cbv beta. intros Hx Hy Hl1 Hl2 [A B] [C D].
  assert (0 <= x * l1) as P1 by (apply Qmult_le_0_compat; assumption).
  assert (0 <= y * l2) as P2 by (apply Qmult_le_0_compat; assumption).
  split.
  - assert (x * y * (l1 * l2) == (x * l1) * (y * l2)) as -> by ring.
    apply Qmult_le_compat_nonneg; split; assumption.
  - assert (x * y * (h1 * h2) == (x * h1) * (y * h2)) as -> by ring.
    apply Qmult_le_compat_nonneg; split; try assumption; lra.
Qed.

Lemma between_div (l1 h1 l2 h2 x x' y y' : Q) :
  0 <= x -> 0 < y -> 0 <= l1 -> 0 < l2 ->
  between l1 h1 x x' -> between l2 h2 y y' ->
  between (l1 / h2) (h1 / l2) (x / y) (x' / y').
Proof.
  cbv beta. intros Hx Hy Hl1 Hl2 [A B] [C D].
  assert (0 < y * l2) as P2 by (apply Qmult_lt_0_compat; assumption).
  assert (0 < y') as Hy' by lra.
  assert (0 < y * h2) as P3 by lra.
  assert (0 < h2) as Hh2.
  { destruct (Qlt_le_dec 0 h2) as [G|G]; [exact G|]. exfalso.
    assert (y * h2 <= 0) by nra. lra. }
  assert (0 <= x * l1) as P1 by (apply Qmult_le_0_compat; assumption).
  split.
  - assert (x / y * (l1 / h2) == (x * l1) / (y * h2)) as -> by (field; lra).
    apply Qdiv_le_cross; try assumption.
    apply Qmult_le_compat_nonneg; split; try assumption; lra.
  - assert (x / y * (h1 / l2) == (x * h1) / (y * l2)) as -> by (field; lra).
    apply Qdiv_le_cross; try assumption.
    assert (0 <= x') as Hx' by lra.
    apply Qmult_le_compat_nonneg; split; try assumption; lra.
Qed.

(** The speed in doubles is the exact speed up to the relative error
    [2 ^ -50]: three operands read and three results rounded, each within
    [2 ^ -53]. *)
Lemma speed_in_doubles_close (w : nat) (t : Q) :
  (1 <= w)%nat -> (Z.of_nat w <= 2 ^ 53)%Z -> 1 # 1000 <= t -> t <= inject_Z (2 ^ 53) ->
  number_of_nat w / t * 60 * (1 - 2 ^ (-50))
  <= mul (div (number_of_nat w) t) 60
  <= number_of_nat w / t * 60 * (1 + 2 ^ (-50)).
Proof.
  intros Hw1 Hw2 Ht1 Ht2.
  set (u := 2 ^ (-53)).
  assert (1 <= number_of_nat w) as W1.
  { unfold number_of_nat. change 1 with (inject_Z 1). rewrite <- Zle_Qle. lia. }
  assert (number_of_nat w <= inject_Z (2 ^ 53)) as W2.
  { unfold number_of_nat. rewrite <- Zle_Qle. exact Hw2. }
  set (x := number_of_nat w) in *.
  change (inject_Z (2 ^ 53)) with (9007199254740992 # 1) in *.
  assert (2 ^ (-1022) <= 1 # 18014398509481984000000) as Tiny by (vm_compute; discriminate).
  assert (0 < 1 - u) as U1 by reflexivity.
  assert (0 < 1 + u) as U2 by reflexivity.
  assert (0 <= 1 - u) as U1' by (apply Qlt_le_weak; exact U1).
  assert (0 <= 1 + u) as U2' by (apply Qlt_le_weak; exact U2).
  (* the operands of the division *)
  assert (between (1 - u) (1 + u) x (nearest x)) as Bx
    by (apply between_nearest; lra).
  assert (between (1 - u) (1 + u) t (nearest t)) as Bt
    by (apply between_nearest; lra).
  (* the quotient *)
  pose proof (@between_div _ _ _ _ x (nearest x) t (nearest t)
                ltac:(lra) ltac:(lra) U1' U1 Bx Bt) as Bq.
  cbv beta in Bq.
  assert (1 # 9007199254740992000 <= x / t) as Q1.
  { apply Qle_shift_div_l; [lra|]. lra. }
  assert (0 < (1 - u) / (1 + u)) as L1 by reflexivity.
  assert ((1 # 2) <= (1 - u) / (1 + u)) as L1' by (vm_compute; discriminate).
  assert (2 ^ (-1022) <= nearest x / nearest t) as R1.
  { destruct Bq as [Bq _].
    assert (x / t * (1 # 2) <= x / t * ((1 - u) / (1 + u))) as G
      by (apply Qmult_le_l; [lra|exact L1']).
    lra. }
  assert (between (1 - u) (1 + u) (nearest x / nearest t) (div x t)) as Bd
    by (apply between_nearest; exact R1).
  assert (0 <= x / t) as Pq by lra.
  pose proof (@between_trans _ _ _ _ (x / t) _ _ Pq (Qlt_le_weak _ _ L1) U1' U2' Bq Bd)
    as Bdiv.
  cbv beta in Bdiv.
  set (lo2 := (1 - u) / (1 + u) * (1 - u)) in *.
  set (hi2 := (1 + u) / (1 - u) * (1 + u)) in *.
  assert ((1 # 2) <= lo2) as L2 by (vm_compute; discriminate).
  (* the operands of the multiplication *)
  assert (2 ^ (-1022) <= div x t) as R2.
  { destruct Bdiv as [B _].
    assert (x / t * (1 # 2) <= x / t * lo2) as G by (apply Qmult_le_l; [lra|exact L2]).
    lra. }
  assert (between (1 - u) (1 + u) (div x t) (nearest (div x t))) as Bd'
    by (apply between_nearest; exact R2).
  assert (0 <= lo2) as L2' by lra.
  pose proof (@between_trans _ _ _ _ (x / t) _ _ Pq L2' U1' U2' Bdiv Bd') as Bleft.
  cbv beta in Bleft.
  assert (between (1 - u) (1 + u) 60 (nearest 60)) as B60
    by (apply between_nearest; vm_compute; discriminate).
  assert (0 <= lo2 * (1 - u)) as L3 by (vm_compute; discriminate).
  assert (0 <= 60) as P60 by discriminate.
  pose proof (@between_mult _ _ _ _ (x / t) _ 60 _ Pq P60 L3 U1' Bleft B60) as Bprod.
  cbv beta in Bprod.
  set (lo4 := lo2 * (1 - u) * (1 - u)) in *.
  set (hi4 := hi2 * (1 + u) * (1 + u)) in *.
  assert ((1 # 2) <= lo4) as L4 by (vm_compute; discriminate).
  assert (2 ^ (-1022) <= nearest (div x t) * nearest 60) as R3.
  { destruct Bprod as [B _].
    assert (x / t * 60 * (1 # 2) <= x / t * 60 * lo4) as G
      by (apply Qmult_le_l; [lra|exact L4]).
    lra. }
  assert (between (1 - u) (1 + u) (nearest (div x t) * nearest 60)
            (mul (div x t) 60)) as Bm
    by (apply between_nearest; exact R3).
  assert (0 <= x / t * 60) as Pos by nra.
  assert (0 <= lo4) as L4' by lra.
  pose proof (@between_trans _ _ _ _ (x / t * 60) _ _ Pos L4' U1' U2' Bprod Bm) as Ball.
  cbv beta in Ball.
  assert (1 - 2 ^ (-50) <= lo4 * (1 - u)) as Clo by (vm_compute; discriminate).
  assert (hi4 * (1 + u) <= 1 + 2 ^ (-50)) as Chi by (vm_compute; discriminate).
  destruct Ball as [A B]. split; nra.
Qed.

End SpeedAccuracy.

(** ** The handlers as state transformers *)

Import App.

Ltac run_handler :=
  unfold handle, stopRecording, startRecording, reset, onresult, onerror, onend,
    tick, wpmEffect, recognitionEffect, recognitionCleanup, toggleDarkMode,
    try_recognition_start, when, bind, get, call, ret, modify,
    setIsRecording, setTranscript, setWordCount, setDuration, setWpm, setResults,
    setIsSupported, setError, setSelectedRegion, setIsDarkMode, new_recognition,
    set_recognitionRef,
    set_startTimeRef, set_intervalRef, set_currentTranscriptRef, state_of, calls_of in *;
  cbn -[keep_last_10 JsString.trim JsString.words Math_round Qgeb Qgtb0
        Double.mul Double.div fullTranscript firstn String.append] in *.

Lemma stopRecording_state (now : Z) (s : State) :
  state_of (stopRecording now s) =
  mkState false (transcript s) (wordCount s) (duration s) (wpm s)
    (if has_content s then keep_last_10 (result now s) (results s) else results s)
    (isSupported s) (error s) (selectedRegion s) (isDarkMode s)
    (recognitions s) (recognitionRef s) (startTimeRef s) false (currentTranscriptRef s).
Proof.
  run_handler.
  destruct (recognitionRef s), (intervalRef s), (has_content s); reflexivity.
Qed.

(** The effect, by cases on its two guards. *)
Lemma wpmEffect_state (s : State) :
  state_of (wpmEffect s) =
  if isRecording s && JsString.truthy (JsString.trim (transcript s))
  then mkState (isRecording s) (transcript s)
         (List.length (JsString.words (JsString.trim (transcript s))))
         (duration s)
         (if Qgeb (duration s) 30
          then Math_round
                 (Double.mul
                    (Double.div
                       (number_of_nat
                          (List.length (JsString.words (JsString.trim (transcript s)))))
                       (duration s))
                    60)
          else 0%Z)
         (results s) (isSupported s) (error s) (selectedRegion s) (isDarkMode s)
         (recognitions s) (recognitionRef s) (startTimeRef s) (intervalRef s) (currentTranscriptRef s)
  else s.
Proof.
  destruct s as [rec tr wc d w rs sup err reg dark objs rref st iref cref].
  run_handler.
  destruct rec, (Qgeb d 30), (JsString.truthy (JsString.trim tr)); reflexivity.
Qed.

(** Only [stopRecording] writes the list of results. *)
Lemma results_frame (ev : Event) (s : State) :
  (forall now, ev <> ClickStop now) ->
  results (state_of (handle ev s)) = results s.
Proof.
  intros H. destruct ev; try (now destruct (H now)); run_handler; try reflexivity.
  - destruct (isSupported s); [|reflexivity].
    destruct (recognitionRef s); [destruct start_throws|]; reflexivity.
  - destruct (nth recognition (recognitions s) false);
      [destruct restart_throws|]; reflexivity.
  - destruct (isRecording s), (Qgeb (duration s) 30),
      (JsString.truthy (JsString.trim (transcript s))); reflexivity.
  - destruct supported; reflexivity.
  - destruct (intervalRef s); reflexivity.
Qed.

Lemma has_content_iff (s : State) :
  has_content s = true <-> finalTranscript s <> [] /\ (0 < finalWordCount s)%nat.
Proof.
  unfold has_content.
  now rewrite andb_true_iff, JsString_truthy_iff, Nat.ltb_lt.
Qed.

(** The second half of the guard follows from the first. *)
Lemma has_content_trimmed (s : State) :
  has_content s = true <-> finalTranscript s <> [].
Proof.
  rewrite has_content_iff. split; [tauto|].
  intros H; split; [exact H|]. now apply words_trim_positive.
Qed.

Lemma keep_last_10_cons (r : SpeechResult.t) (prev : list SpeechResult.t) :
  keep_last_10 r prev = r :: firstn 9 prev.
Proof. reflexivity. Qed.

Lemma keep_last_10_length (r : SpeechResult.t) (prev : list SpeechResult.t) :
  (List.length (keep_last_10 r prev) <= 10)%nat.
Proof. unfold keep_last_10. apply firstn_le_length. Qed.

Lemma firstn_removelast (A : Type) (l : list A) (n : nat) :
  List.length l = S n -> firstn n l = removelast l.
Proof.
  revert n. induction l as [|a l IH]; intros n H; [discriminate|].
  destruct l as [|b l].
  - cbn in H. injection H as <-. reflexivity.
  - destruct n as [|n]; [discriminate|].
    cbn [firstn]. rewrite (IH n) by (cbn in *; lia). reflexivity.
Qed.

(** Along any run the list of results holds at most 10. *)
Lemma results_bounded (evs : list Event) (s : State) :
  (List.length (results s) <= 10)%nat ->
  (List.length (results (run evs s)) <= 10)%nat.
Proof.
  unfold run. revert s. induction evs as [|ev evs IH]; intros s H; [exact H|].
  cbn [fold_left]. apply IH.
  destruct ev; try (rewrite results_frame by discriminate; exact H).
  cbn [handle]. rewrite stopRecording_state. cbn [results].
  destruct (has_content s); [apply keep_last_10_length|exact H].
Qed.

(** ** Stopping: the final speed and the list of results *)

(** C6, as the code has it.  The speed computed by [stopRecording] from a
    word count [w] and an elapsed time [t] is
    [Math.round((w / t) * 60)] when [t > 0], the quotient and the product
    taken in doubles: the integer nearest to the double the product gives,
    a tie going up.  It is [0] when [t = 0], [0] for no words at any
    [t >= 0], and [0] at [t = 0] for any number of words, and it is the
    speed stored in the result.  For at least one word and a time from one
    millisecond on, the double product is the exact [w / t * 60] up to the
    relative error [2 ^ -50], so the speed is the integer nearest to the
    exact value whenever that value is not within this error of a half. *)
Theorem finalWpm_rounds_words_per_minute (w : nat) (t : Q) :
  let exact := (number_of_nat w / t * 60)%Q in
  let product := Double.mul (Double.div (number_of_nat w) t) 60 in
  ((0 < t)%Q ->
     finalWpm w t = Math_round product
     /\ (inject_Z (finalWpm w t) - (1 # 2) <= product)%Q
     /\ (product < inject_Z (finalWpm w t) + (1 # 2))%Q)
  /\ ((t == 0)%Q -> finalWpm w t = 0%Z)
  /\ ((0 <= t)%Q -> finalWpm 0 t = 0%Z)
  /\ finalWpm w 0 = 0%Z
  /\ (forall now s,
        SpeechResult.wpm (result now s) = finalWpm (finalWordCount s) (duration s))
  /\ ((1 <= w)%nat -> (Z.of_nat w <= 2 ^ 53)%Z ->
      (1 # 1000 <= t)%Q -> (t <= inject_Z (2 ^ 53))%Q ->
      (exact * (1 - 2 ^ (-50)) <= product <= exact * (1 + 2 ^ (-50)))%Q
      /\ (forall r : Z,
            (inject_Z r - (1 # 2) <= exact * (1 - 2 ^ (-50)))%Q ->
            (exact * (1 + 2 ^ (-50)) < inject_Z r + (1 # 2))%Q ->
            finalWpm w t = r)).
Proof.
  intros exact product.
  split; [|split; [|split; [|split; [|split]]]].
  - intros H. unfold finalWpm. apply Qgtb0_iff in H. rewrite H.
    split; [reflexivity|apply Math_round_nearest].
  - intros H. unfold finalWpm.
    assert (Qgtb0 t = false) as -> by (apply Qgtb0_false_iff; rewrite H; apply Qle_refl).
    reflexivity.
  - intros _. unfold finalWpm.
    destruct (Qgtb0 t); [apply speed_of_no_words|reflexivity].
  - reflexivity.
  - reflexivity.
  - intros Hw1 Hw2 Ht1 Ht2.
    pose proof (speed_in_doubles_close Hw1 Hw2 Ht1 Ht2) as [Lo Hi].
    fold exact product in Lo, Hi. split; [split; assumption|].
    intros r Hr1 Hr2. unfold finalWpm.
    assert (Qgtb0 t = true) as -> by (apply Qgtb0_iff; lra).
    fold product. apply Math_round_unique; lra.
Qed.

(** C6, as the claim has it, fails where the exact value is a tie.  Three
    words in 14.4 seconds are 12.5 words per minute, which rounds to 13;
    the double nearest to 14.4 is a little above it, the quotient and the
    product in doubles give 12.499999999999998, and [stopRecording] saves
    12.  In the same way seven words in 2.24 seconds are saved as 187, not
    188. *)
Lemma finalWpm_is_not_the_exact_rounding :
  finalWpm 3 (72 # 5) = 12%Z
  /\ Math_round (number_of_nat 3 / (72 # 5) * 60)%Q = 13%Z
  /\ Qred (Double.mul (Double.div (number_of_nat 3) (72 # 5)) 60)
     = (7036874417766399 # 562949953421312)%Q
  /\ finalWpm 7 (56 # 25) = 187%Z
  /\ Math_round (number_of_nat 7 / (56 # 25) * 60)%Q = 188%Z.
Proof. repeat split; vm_compute; reflexivity. Qed.

(** Two words in five seconds: 24 words per minute, by the bound on the
    error of the doubles. *)
Lemma two_words_in_5s_are_24 :
  (1 <= 2)%nat /\ (1 # 1000 <= 5)%Q /\ (5 <= inject_Z (2 ^ 53))%Q
  /\ finalWpm 2 5 = 24%Z.
Proof.
  split; [lia|]. split; [discriminate|]. split; [discriminate|].
  refine (proj2 (proj2 (proj2 (proj2 (proj2 (proj2
            (finalWpm_rounds_words_per_minute 2 5))))) _ _ _ _) 24%Z _ _).
  - lia.
  - discriminate.
  - discriminate.
  - discriminate.
  - vm_compute. discriminate.
  - vm_compute. reflexivity.
Defined.

(** The arithmetic of [Double] on the numbers above and the arithmetic of
    the primitive floats, which are the binary64 of the machine, give the
    same doubles. *)
Example doubles_as_the_machine_has_them :
  let float_of (n : Z) := PrimFloat.of_uint63 (Uint63Axioms.of_Z n) in
  let value (f : PrimFloat.float) := Double.of_spec_float (FloatOps.Prim2SF f) in
  Qeq_bool (value (PrimFloat.div (float_of 14400%Z) (float_of 1000%Z)))
           (Double.div 14400 1000) = true
  /\ Qeq_bool (value (PrimFloat.mul
                        (PrimFloat.div (float_of 3%Z)
                           (PrimFloat.div (float_of 14400%Z) (float_of 1000%Z)))
                        (float_of 60%Z)))
              (Double.mul (Double.div 3 (72 # 5)) 60) = true
  /\ Qeq_bool (value (PrimFloat.mul
                        (PrimFloat.div (float_of 7%Z)
                           (PrimFloat.div (float_of 2240%Z) (float_of 1000%Z)))
                        (float_of 60%Z)))
              (Double.mul (Double.div 7 (56 # 25)) 60) = true
  /\ Qeq_bool (value (PrimFloat.mul
                        (PrimFloat.div (float_of 7%Z)
                           (PrimFloat.div (float_of 33600%Z) (float_of 1000%Z)))
                        (float_of 60%Z)))
              (Double.mul (Double.div 7 (168 # 5)) 60) = true
  /\ Qeq_bool (value (PrimFloat.div (float_of 1%Z) (float_of 3%Z)))
              (Double.div 1 3) = true
  /\ Qeq_bool (value (PrimFloat.div (float_of 9007199254740993%Z) (float_of 1%Z)))
              (Double.div (inject_Z 9007199254740993) 1) = true.
Proof. repeat split; vm_compute; reflexivity. Qed.

(** C4.  [stopRecording] puts a result in the list exactly when the trimmed
    transcript is not empty and has at least one word; on an empty or
    all-white-space transcript it leaves the list as it was; and no other
    handler or effect of the component changes the list, so a change of the
    list is always a stop on a transcript with content. *)
Theorem results_change_iff_stop_with_content :
  (forall now s,
     results (state_of (stopRecording now s)) =
     if has_content s then keep_last_10 (result now s) (results s) else results s)
  /\ (forall s,
        has_content s = true <->
        JsString.trim (currentTranscriptRef s) <> []
        /\ (0 < List.length (JsString.words (JsString.trim (currentTranscriptRef s))))%nat)
  /\ (forall now s,
        has_content s = true ->
        hd_error (results (state_of (stopRecording now s))) = Some (result now s))
  /\ (forall now s,
        forallb JsString.is_whitespace (currentTranscriptRef s) = true ->
        results (state_of (stopRecording now s)) = results s)
  /\ (forall ev s,
        (forall now, ev <> ClickStop now) ->
        results (state_of (handle ev s)) = results s)
  /\ (forall ev s,
        results (state_of (handle ev s)) <> results s ->
        exists now, ev = ClickStop now /\ has_content s = true).
Proof.
  split; [|split; [|split; [|split; [|split]]]].
  - intros now s. now rewrite stopRecording_state.
  - exact has_content_iff.
  - intros now s H. rewrite stopRecording_state. cbn [results]. now rewrite H.
  - intros now s H. rewrite stopRecording_state. cbn [results].
    assert (has_content s = false) as ->; [|reflexivity].
    apply not_true_iff_false. rewrite has_content_trimmed.
    unfold finalTranscript. apply trim_empty_iff in H. now rewrite H.
  - exact results_frame.
  - intros ev s Hne.
    destruct ev; try (now destruct Hne; apply results_frame).
    exists now. split; [reflexivity|].
    cbn [handle] in Hne. rewrite stopRecording_state in Hne. cbn [results] in Hne.
    destruct (has_content s); [reflexivity|now destruct Hne].
Qed.

(** C5.  When [stopRecording] saves a result it becomes the first entry,
    the entries before it follow in their order, the list never holds more
    than 10, and when it already held 10 the last one, the oldest, is the one
    dropped.  Along any run of the component the list stays within 10. *)
Theorem saved_result_first_and_at_most_10 (now : Z) (s : State) :
  has_content s = true ->
  results (state_of (stopRecording now s)) = result now s :: firstn 9 (results s)
  /\ (List.length (results (state_of (stopRecording now s))) <= 10)%nat
  /\ ((List.length (results s) < 10)%nat ->
        results (state_of (stopRecording now s)) = result now s :: results s)
  /\ (List.length (results s) = 10%nat ->
        results (state_of (stopRecording now s)) = result now s :: removelast (results s))
  /\ (forall evs,
        (List.length (results s) <= 10)%nat ->
        (List.length (results (run evs s)) <= 10)%nat).
Proof.
  intros H. rewrite stopRecording_state. cbn [results]. rewrite H.
  rewrite keep_last_10_cons. repeat split.
  - rewrite <- keep_last_10_cons. apply keep_last_10_length.
  - intros L. now rewrite firstn_all2 by lia.
  - intros L. now rewrite (firstn_removelast _ L).
  - intros evs L. now apply results_bounded.
Qed.

(** ** Reset, the end of recognition, the labels *)

(** C9.  [reset] puts the transcript, the word count, the speed and the
    error message back to the values of the first render (and the elapsed
    time and the transcript ref with them), leaves the list of results and
    every other cell as it was, and calls nothing. *)
Theorem reset_clears_session_and_keeps_results (s : State) :
  state_of (reset s) =
    mkState (isRecording s) [] 0 0%Q 0 (results s) (isSupported s) ""
      (selectedRegion s) (isDarkMode s) (recognitions s) (recognitionRef s) (startTimeRef s)
      (intervalRef s) []
  /\ (forall savedRegion savedDarkMode,
        transcript (state_of (reset s)) = transcript (initial savedRegion savedDarkMode)
        /\ wordCount (state_of (reset s)) = wordCount (initial savedRegion savedDarkMode)
        /\ wpm (state_of (reset s)) = wpm (initial savedRegion savedDarkMode)
        /\ error (state_of (reset s)) = error (initial savedRegion savedDarkMode))
  /\ results (state_of (reset s)) = results s
  /\ calls_of (reset s) = [].
Proof. repeat split. Qed.

(** What [onend] does is decided by the [isRecording] its closure holds.
    When that is true it calls [start()] on its own object at once, and a
    call that throws is only written to the console; when it is false it
    calls nothing.  In both cases the state is untouched. *)
Lemma onend_by_closure (recognition : nat) (restart_throws : bool) (s : State) :
  state_of (onend recognition restart_throws s) = s
  /\ calls_of (onend recognition restart_throws s) =
     if nth recognition (recognitions s) false
     then RecognitionStart recognition ::
            (if restart_throws then [ConsoleLog "Recognition restart failed:"] else [])
     else [].
Proof.
  run_handler.
  destruct (nth recognition (recognitions s) false), restart_throws; split; reflexivity.
Qed.

(** ** The closures of the recognition objects *)

Section Closures.

Local Open Scope handler_scope.

Lemma state_of_bind (A B : Type) (m : Handler A) (k : A -> Handler B) (s : State) :
  state_of (bind m k s) = state_of (k (fst (fst (m s))) (state_of (m s))).
Proof.
  unfold bind, state_of. destruct (m s) as [[a s1] c1]. cbn.
  now destruct (k a s1) as [[b s2] c2].
Qed.

Lemma calls_of_bind (A B : Type) (m : Handler A) (k : A -> Handler B) (s : State) :
  calls_of (bind m k s) =
  calls_of (m s) ++ calls_of (k (fst (fst (m s))) (state_of (m s))).
Proof.
  unfold bind, state_of, calls_of. destruct (m s) as [[a s1] c1]. cbn.
  now destruct (k a s1) as [[b s2] c2].
Qed.

Lemma started_by_app (c1 c2 : list Call) :
  started_by (c1 ++ c2) = started_by c1 ++ started_by c2.
Proof.
  induction c1 as [|c c1 IH]; [reflexivity|].
  destruct c; cbn; now rewrite IH.
Qed.

Lemma wpmEffect_view (s : State) :
  view (state_of (wpmEffect s)) = view s /\ calls_of (wpmEffect s) = [].
Proof.
  split.
  - rewrite wpmEffect_state. now destruct (isRecording s && _).
  - destruct s as [rec tr wc d w rs sup err reg dark objs rref st iref cref].
    run_handler.
    destruct rec, (Qgeb d 30), (JsString.truthy (JsString.trim tr)); reflexivity.
Qed.

Lemma recognitionCleanup_view (s : State) :
  state_of (recognitionCleanup s) = s
  /\ started_by (calls_of (recognitionCleanup s)) = [].
Proof. run_handler. now destruct (intervalRef s). Qed.

Lemma recognitionEffect_view (supported : bool) (s : State) :
  view (state_of (recognitionEffect supported s)) =
    (if supported
     then (isRecording s, recognitions s ++ [isRecording s],
           Some (List.length (recognitions s)))
     else view s)
  /\ calls_of (recognitionEffect supported s) = [].
Proof. run_handler. now destruct supported. Qed.

Lemma effects_after_view (supported : bool) (prev s : State) :
  view (state_of (effects_after supported prev s)) =
    (if negb (Bool.eqb (isRecording prev) (isRecording s)) && supported
     then (isRecording s, recognitions s ++ [isRecording s],
           Some (List.length (recognitions s)))
     else view s)
  /\ started_by (calls_of (effects_after supported prev s)) = [].
Proof.
  unfold effects_after.
  rewrite state_of_bind, calls_of_bind. cbn [get fst snd state_of calls_of app].
  set (changed := negb (Bool.eqb (isRecording prev) (isRecording s))).
  set (deps := _ || _ || changed).
  rewrite !state_of_bind, !calls_of_bind, !started_by_app.
  clearbody changed deps.
  assert (forall s0, state_of (ret tt s0) = s0) as Hret by reflexivity.
  destruct changed, deps; unfold when; cbn [andb];
    rewrite ?Hret;
    rewrite ?(proj1 (recognitionCleanup_view s)), ?(proj2 (recognitionCleanup_view s));
    rewrite ?(proj2 (wpmEffect_view s));
    rewrite ?(proj1 (recognitionEffect_view _ _)), ?(proj2 (recognitionEffect_view _ _));
    try (destruct (wpmEffect_view s) as [Hv _]; unfold view in Hv |- *;
         injection Hv as -> -> ->);
    destruct supported; split; reflexivity.
Qed.

Lemma react_state (supported : bool) (ev : Event) (s : State) :
  state_of (react supported ev s) =
  state_of (effects_after supported s (state_of (handle ev s))).
Proof.
  unfold react. rewrite !state_of_bind. reflexivity.
Qed.

Lemma react_calls (supported : bool) (ev : Event) (s : State) :
  calls_of (react supported ev s) =
  calls_of (handle ev s) ++ calls_of (effects_after supported s (state_of (handle ev s))).
Proof.
  unfold react. rewrite !calls_of_bind. reflexivity.
Qed.

(** What a handler that is offered does to the recognition objects and to
    the ref, and which objects it starts. *)
Lemma handle_view (ev : Event) (s : State) (started : list nat) :
  offered ev s started = true ->
  recognitions (state_of (handle ev s)) = recognitions s
  /\ recognitionRef (state_of (handle ev s)) = recognitionRef s
  /\ (forall object, In object (started_by (calls_of (handle ev s))) ->
        (recognitionRef s = Some object /\ isRecording s = false)
        \/ (In object started /\ nth object (recognitions s) false = true))
  /\ (isRecording (state_of (handle ev s)) = isRecording s
      \/ (exists a b, ev = ClickStart a b) \/ (exists a, ev = ClickStop a)
      \/ (exists a, ev = RecognitionError a)).
Proof.
  intros Hoff.
  destruct s as [rec tr wc d w rs sup err reg dark objs rref st iref cref].
  destruct ev; cbn in Hoff; try discriminate; run_handler.
  - apply andb_true_iff in Hoff. destruct Hoff as [-> Hrec].
    apply negb_true_iff in Hrec. subst rec. cbn.
    destruct rref as [k|], start_throws; cbn; repeat split; auto;
      try (intros object [<-|[]]; now left); try (now intros object []);
      right; left; eauto.
  - destruct rref as [k|], iref, (has_content _); cbn; repeat split; auto;
      try (now intros object []); right; right; left; eauto.
  - repeat split; auto. now intros object [].
  - repeat split; auto. now intros object [].
  - repeat split; auto. now intros object [].
  - repeat split; auto. now intros object [].
  - repeat split; auto. now intros object [].
  - repeat split; auto; try (now intros object []). right; right; right; eauto.
  - apply existsb_exists in Hoff. destruct Hoff as [x [Hin Hx]].
    apply Nat.eqb_eq in Hx. subst x.
    destruct (nth recognition objs false) eqn:E, restart_throws; cbn;
      repeat split; auto; try (now intros object []);
      intros object [<-|[]]; right; split; assumption.
Qed.

Lemma react_keeps_closures (supported : bool) (ev : Event) (s : State) (started : list nat) :
  closures_ok supported s started ->
  offered ev s started = true ->
  closures_ok supported (state_of (react supported ev s))
    (started ++ started_by (calls_of (react supported ev s))).
Proof.
  intros [Hst Href] Hoff.
  destruct (handle_view ev s started Hoff) as [Hrecs [Hr [Hnew Hrec]]].
  rewrite react_state, react_calls, started_by_app.
  destruct (effects_after_view supported s (state_of (handle ev s))) as [Hv Hc].
  rewrite Hc, app_nil_r. unfold view in Hv. rewrite Hrecs, Hr in Hv.
  set (s' := state_of (effects_after supported s (state_of (handle ev s)))) in *.
  set (s1 := state_of (handle ev s)) in *.
  assert (forall object, In object (started ++ started_by (calls_of (handle ev s))) ->
            (object < List.length (recognitions s))%nat
            /\ nth object (recognitions s) false = false) as Hall.
  { intros object Hin. apply in_app_or in Hin. destruct Hin as [Hin|Hin]; [now apply Hst|].
    destruct (Hnew _ Hin) as [[Hk Hidle]|[Hin' Htrue]].
    - destruct (Href _ Hk) as [_ [Hlt Hcl]]. split; [exact Hlt|congruence].
    - destruct (Hst _ Hin') as [_ Hfalse]. congruence. }
  destruct (negb (Bool.eqb (isRecording s) (isRecording s1)) && supported) eqn:Hch;
    injection Hv as Hi Hrs Hrf.
  - apply andb_true_iff in Hch. destruct Hch as [_ ->]. split.
    + intros object Hin. destruct (Hall _ Hin) as [Hlt Hcl].
      rewrite Hrs, length_app, app_nth1 by exact Hlt. split; [lia|exact Hcl].
    + intros k Hk. rewrite Hrf in Hk. injection Hk as <-.
      rewrite Hrs, Hi, length_app, nth_middle. cbn. repeat split; lia.
  - split.
    + intros object Hin. rewrite Hrs. now apply Hall.
    + intros k Hk. rewrite Hrf in Hk. destruct (Href _ Hk) as [-> [Hlt Hcl]].
      rewrite Hrs, Hi. repeat split; try assumption.
      rewrite andb_true_r in Hch. apply negb_false_iff, Bool.eqb_prop in Hch.
      congruence.
Qed.

Lemma session_keeps_closures (supported : bool) (evs : list Event) :
  forall s started s' started',
    closures_ok supported s started ->
    session supported evs s started = Some (s', started') ->
    closures_ok supported s' started'.
Proof.
  induction evs as [|ev evs IH]; intros s started s' started' Hok Hs;
    cbn [session] in Hs.
  - now injection Hs as <- <-.
  - destruct (offered ev s started) eqn:Hoff; [|discriminate].
    exact (IH _ _ _ _ (@react_keeps_closures supported ev s started Hok Hoff) Hs).
Qed.

Lemma first_rendered_closures (supported : bool) (savedRegion : option string)
    (savedDarkMode : bool) :
  closures_ok supported (first_rendered supported savedRegion savedDarkMode) [].
Proof.
  split; [intros object []|].
  destruct supported; cbn; intros k Hk; [|discriminate].
  injection Hk as <-. repeat split. cbn. lia.
Qed.

End Closures.

(** In a session of the component, from its first render on, whatever the
    user and the browser do that the page and React allow: a recognition
    object that has been started closed over [isRecording = false], so when
    the browser ends it, [onend] calls nothing and leaves the state as it
    is.  No session restarts recognition. *)
Theorem no_session_restarts_recognition
    (supported : bool) (savedRegion : option string) (savedDarkMode : bool)
    (evs : list Event) (s : State) (started : list nat) :
  session supported evs (first_rendered supported savedRegion savedDarkMode) []
  = Some (s, started) ->
  forall recognition restart_throws,
    In recognition started ->
    calls_of (onend recognition restart_throws s) = []
    /\ state_of (onend recognition restart_throws s) = s.
Proof.
  intros Hs recognition restart_throws Hin.
  destruct (@session_keeps_closures supported evs _ _ _ _
              (first_rendered_closures supported savedRegion savedDarkMode) Hs)
    as [Hst _].
  destruct (Hst _ Hin) as [_ Hcl].
  destruct (onend_by_closure recognition restart_throws s) as [Hstate Hcalls].
  rewrite Hcalls, Hcl. split; [reflexivity|exact Hstate].
Qed.

(** C8, on the code.  After the first render and a click on Start, the
    recognition object that was started is the one built by the first
    render, number 0, whose handlers closed over [isRecording = false]; the
    render that follows the click builds a second object, which nothing
    starts.  The component is recording, and when the started object ends,
    its [onend] calls nothing: no restart is attempted.  The state stays as
    it is, recording and without a new result. *)
Theorem started_recognition_is_never_restarted :
  isRecording (state_of (react true (ClickStart false 0) Examples.mounted)) = true
  /\ calls_of (react true (ClickStart false 0) Examples.mounted)
     = [RecognitionStart 0; SetInterval; ClearInterval]
  /\ recognitions (state_of (react true (ClickStart false 0) Examples.mounted))
     = [false; true]
  /\ recognitionRef (state_of (react true (ClickStart false 0) Examples.mounted))
     = Some 1%nat
  /\ (forall restart_throws,
        calls_of (onend 0 restart_throws
          (state_of (react true (ClickStart false 0) Examples.mounted))) = []
        /\ state_of (onend 0 restart_throws
             (state_of (react true (ClickStart false 0) Examples.mounted)))
           = state_of (react true (ClickStart false 0) Examples.mounted)).
Proof.
  repeat match goal with |- _ /\ _ => split end;
    try (vm_compute; reflexivity).
  intros [|]; split; vm_compute; reflexivity.
Qed.

Section Labels.

Local Open Scope Z_scope.

(** C7.  For a region of the table, [getWpmLabel] tests in this order:
    [wpm] is 0, the label is the pending one; else [wpm] is below [slow],
    too slow; else [wpm] is within [normal], ideal; else [wpm] is below
    [fast], fast; else very fast.  The three tests on the ranges are the
    same for any ranges whatever. *)
Theorem getWpmLabel_tiers_in_order
    (wpm : Z) (region : string) (speed : RegionSpeed.t) :
  lookup region REGIONAL_SPEEDS = Some speed ->
  let r := RegionSpeed.ranges speed in
  let low := fst (RegionSpeed.normal r) in
  let high := snd (RegionSpeed.normal r) in
  (wpm = 0 -> getWpmLabel wpm region = Some (label Pending))
  /\ (wpm <> 0 -> wpm < RegionSpeed.slow r ->
        getWpmLabel wpm region = Some (label TooSlow))
  /\ (wpm <> 0 -> ~ wpm < RegionSpeed.slow r -> low <= wpm <= high ->
        getWpmLabel wpm region = Some (label Ideal))
  /\ (wpm <> 0 -> ~ wpm < RegionSpeed.slow r -> ~ low <= wpm <= high ->
        wpm < RegionSpeed.fast r ->
        getWpmLabel wpm region = Some (label Fast))
  /\ (wpm <> 0 -> ~ wpm < RegionSpeed.slow r -> ~ low <= wpm <= high ->
        ~ wpm < RegionSpeed.fast r ->
        getWpmLabel wpm region = Some (label VeryFast))
  /\ (forall ranges,
        label_in ranges wpm =
        if wpm <? RegionSpeed.slow ranges then label TooSlow
        else if (fst (RegionSpeed.normal ranges) <=? wpm)
                && (wpm <=? snd (RegionSpeed.normal ranges))
        then label Ideal
        else if wpm <? RegionSpeed.fast ranges then label Fast
        else label VeryFast).
Proof.
  intros Hl r low high. unfold getWpmLabel, label_in. rewrite Hl. fold r.
  repeat match goal with |- _ /\ _ => split end.
  - intros ->. reflexivity.
  - intros H0 H1. apply Z.eqb_neq in H0. apply Z.ltb_lt in H1.
    now rewrite H0, H1.
  - intros H0 H1 [H2 H3]. apply Z.eqb_neq in H0. apply Z.ltb_nlt in H1.
    rewrite H0, H1. fold low high.
    apply Z.geb_le in H2. apply Z.leb_le in H3. now rewrite H2, H3.
  - intros H0 H1 H2 H3. apply Z.eqb_neq in H0. apply Z.ltb_nlt in H1.
    apply Z.ltb_lt in H3. rewrite H0, H1, H3. fold low high.
    destruct ((wpm >=? low) && (wpm <=? high)) eqn:E; [|reflexivity].
    apply andb_true_iff in E. destruct E as [E1 E2].
    apply Z.geb_le in E1. apply Z.leb_le in E2. now destruct H2.
  - intros H0 H1 H2 H3. apply Z.eqb_neq in H0. apply Z.ltb_nlt in H1.
    apply Z.ltb_nlt in H3. rewrite H0, H1, H3. fold low high.
    destruct ((wpm >=? low) && (wpm <=? high)) eqn:E; [|reflexivity].
    apply andb_true_iff in E. destruct E as [E1 E2].
    apply Z.geb_le in E1. apply Z.leb_le in E2. now destruct H2.
  - intros ranges. now rewrite Z.geb_leb.
Qed.

End Labels.

(** The earlier variant labels by fixed thresholds, has no pending label
    and calls the middle tier "Normal". *)
Example earlier_labels :
  Earlier.getWpmLabel 0 = "Slow"%string
  /\ Earlier.getWpmLabel 130 = "Normal"%string
  /\ Earlier.getWpmLabel 170 = "Fast"%string
  /\ Earlier.getWpmLabel 200 = "Very Fast"%string
  /\ getWpmLabel 0 "us" = Some "Calculating..."%string
  /\ getWpmLabel 130 "us" = Some "Fast"%string
  /\ getWpmLabel 170 "us" = Some "Ideal"%string
  /\ getWpmLabel 200 "us" = Some "Very Fast"%string
  /\ getWpmLabel 130 "fr" = None.
Proof. repeat split. Qed.

(** ** The transcript rebuilt from a snapshot *)

Section Snapshots.

Import Speech.

Lemma nth_error_skipn_cons (A : Type) (l : list A) (i : nat) (x : A) :
  nth_error l i = Some x -> skipn i l = x :: skipn (S i) l.
Proof.
  revert i. induction l as [|a l IH]; intros [|i] H; try discriminate.
  - now injection H as ->.
  - cbn in H. cbn [skipn]. now apply IH.
Qed.

(** A counted loop that reads [l[i]] is a fold over the part of [l] it
    visits. *)
Lemma for_range_nth_error (A B : Type) (l : list B)
    (body : nat -> A -> A) (g : B -> A -> A) :
  (forall i x acc, nth_error l i = Some x -> body i acc = g x acc) ->
  forall start init,
    for_range start (List.length l) body init =
    fold_left (fun acc x => g x acc) (skipn start l) init.
Proof.
  intros Hbody start init. unfold for_range.
  assert (forall n a acc, (a + n = List.length l)%nat ->
            fold_left (fun acc i => body i acc) (seq a n) acc =
            fold_left (fun acc x => g x acc) (skipn a l) acc) as Hgen.
  { induction n as [|n IH]; intros a acc Hlen.
    - rewrite skipn_all2 by lia. reflexivity.
    - destruct (nth_error l a) as [x|] eqn:Hx.
      + rewrite (nth_error_skipn_cons _ _ Hx). cbn [seq fold_left].
        rewrite (Hbody _ _ _ Hx). apply IH. lia.
      + apply nth_error_None in Hx. lia. }
  destruct (Nat.le_gt_cases start (List.length l)) as [Hle|Hgt].
  - apply Hgen. lia.
  - replace (List.length l - start)%nat with 0%nat by lia.
    rewrite skipn_all2 by lia. reflexivity.
Qed.

Lemma fold_complete (rs : list Result) (init : JsString.t) :
  fold_left (fun acc r => if isFinal r then acc ++ transcript r else acc) rs init =
  init ++ text_of isFinal rs.
Proof.
  unfold text_of. revert init. induction rs as [|r rs IH]; intros init; cbn.
  - now rewrite app_nil_r.
  - rewrite IH. destruct (isFinal r); cbn; [now rewrite app_assoc|reflexivity].
Qed.

Lemma fold_changed (rs : list Result) (init : JsString.t * JsString.t) :
  fold_left (fun acc r =>
               if isFinal r then (fst acc ++ transcript r, snd acc)
               else (fst acc, snd acc ++ transcript r)) rs init =
  (fst init ++ text_of isFinal rs,
   snd init ++ text_of (fun r => negb (isFinal r)) rs).
Proof.
  unfold text_of. revert init. induction rs as [|r rs IH]; intros [f i]; cbn.
  - now rewrite !app_nil_r.
  - rewrite IH. destruct (isFinal r); cbn; now rewrite app_assoc.
Qed.

(** [completeTranscript] is the text of all the final results. *)
Lemma completeTranscript_finals (event : Event) :
  completeTranscript event = text_of isFinal (results event).
Proof.
  unfold completeTranscript.
  rewrite (@for_range_nth_error _ _ (results event) _
             (fun r acc => if isFinal r then acc ++ transcript r else acc)).
  - now rewrite fold_complete.
  - intros i x acc H. now rewrite H.
Qed.

(** [interimTranscript] is the text of the results from [resultIndex] on
    that are not final. *)
Lemma interimTranscript_interims (event : Event) :
  interimTranscript event =
  text_of (fun r => negb (isFinal r)) (skipn (resultIndex event) (results event)).
Proof.
  unfold interimTranscript, changed_transcripts.
  rewrite (@for_range_nth_error _ _ (results event) _
             (fun r acc => if isFinal r then (fst acc ++ transcript r, snd acc)
                           else (fst acc, snd acc ++ transcript r))).
  - now rewrite fold_changed.
  - intros i x [f n] H. now rewrite H.
Qed.

Lemma code_units_eqb (l1 l2 : JsString.t) :
  List.length l1 = List.length l2 ->
  forallb (fun p => N.eqb (fst p) (snd p)) (combine l1 l2) = true ->
  l1 = l2.
Proof.
  revert l2. induction l1 as [|a l1 IH]; intros [|b l2] Hlen H; try discriminate.
  - reflexivity.
  - cbn in H. apply andb_true_iff in H. destruct H as [Hab H].
    apply N.eqb_eq in Hab. subst b. f_equal. apply IH; [now injection Hlen|exact H].
Qed.

Lemma result_eqb_eq (r1 r2 : Result) : result_eqb r1 r2 = true -> r1 = r2.
Proof.
  destruct r1 as [f1 t1], r2 as [f2 t2]. unfold result_eqb. cbn.
  rewrite !andb_true_iff. intros [[Hf Hlen] Ht].
  apply Bool.eqb_prop in Hf. apply Nat.eqb_eq in Hlen.
  now rewrite Hf, (code_units_eqb _ _ Hlen Ht).
Qed.

Lemma text_of_cons (keep : Result -> bool) (r : Result) (rs : list Result) :
  text_of keep (r :: rs) =
  if keep r then transcript r ++ text_of keep rs else text_of keep rs.
Proof. unfold text_of. cbn. now destruct (keep r). Qed.

Lemma text_of_all_interim (rs : list Result) :
  forallb (fun r => negb (isFinal r)) rs = true -> text_of isFinal rs = [].
Proof.
  unfold text_of. induction rs as [|r rs IH]; cbn; [reflexivity|].
  destruct (isFinal r); cbn; [discriminate|exact IH].
Qed.

(** When [rs2] continues [rs1], the text of the final results of [rs1]
    starts the text of the final results of [rs2]. *)
Lemma extends_finals_prefix (rs1 rs2 : list Result) :
  extends rs1 rs2 = true ->
  exists added, text_of isFinal rs2 = text_of isFinal rs1 ++ added.
Proof.
  revert rs2. induction rs1 as [|r1 rs1 IH]; intros rs2 H.
  - exists (text_of isFinal rs2). reflexivity.
  - cbn [extends] in H. destruct (isFinal r1) eqn:Hf.
    + destruct rs2 as [|r2 rs2]; [discriminate|].
      apply andb_true_iff in H. destruct H as [He H].
      apply result_eqb_eq in He. subst r2.
      destruct (IH _ H) as [added Ha]. exists added.
      now rewrite !text_of_cons, Hf, Ha, app_assoc.
    + exists (text_of isFinal rs2).
      now rewrite text_of_cons, Hf, (text_of_all_interim _ H).
Qed.

End Snapshots.

(** C1.  Take a snapshot [e1] and the next one [e2], whose results continue
    those of [e1] as the recognition capability promises.  After [e1] the
    transcript is the text of the final results followed by the interim
    text.  After [e2] it starts with the same final text, goes on with what
    became final since, and ends with the interim text of [e2] alone: the
    interim text of [e1] is gone, and nothing of the earlier state is read. *)
Theorem final_prefix_is_append_only (e1 e2 : Speech.Event) (s : State) :
  Speech.extends (Speech.results e1) (Speech.results e2) = true ->
  let s1 := state_of (onresult e1 s) in
  let s2 := state_of (onresult e2 s1) in
  transcript s1 = completeTranscript e1 ++ interimTranscript e1
  /\ completeTranscript e1 = Speech.text_of Speech.isFinal (Speech.results e1)
  /\ (exists added,
        completeTranscript e2 = completeTranscript e1 ++ added
        /\ transcript s2 = completeTranscript e1 ++ added ++ interimTranscript e2)
  /\ (forall s', transcript (state_of (onresult e2 s')) = transcript s2).
Proof.
  intros H s1 s2. repeat match goal with |- _ /\ _ => split end.
  - reflexivity.
  - apply completeTranscript_finals.
  - destruct (extends_finals_prefix _ _ H) as [added Ha].
    exists added. rewrite !completeTranscript_finals. split; [exact Ha|].
    subst s2. run_handler. unfold fullTranscript.
    now rewrite completeTranscript_finals, Ha, app_assoc.
  - reflexivity.
Qed.

(** ** Snapshots after a stop *)

Lemma onresult_state (event : Speech.Event) (s : State) :
  state_of (onresult event s) =
  mkState (isRecording s) (fullTranscript event) (wordCount s) (duration s)
    (wpm s) (results s) (isSupported s) (error s) (selectedRegion s)
    (isDarkMode s) (recognitions s) (recognitionRef s) (startTimeRef s) (intervalRef s)
    (fullTranscript event).
Proof. reflexivity. Qed.

(** A snapshot that arrives while [isRecording] is false, with the effects
    React runs after it. *)
Lemma react_late_snapshot (supported : bool) (event : Speech.Event) (s : State) :
  isRecording s = false ->
  state_of (react supported (RecognitionResult event) s) =
    mkState false (fullTranscript event) (wordCount s) (duration s)
      (wpm s) (results s) (isSupported s) (error s) (selectedRegion s)
      (isDarkMode s) (recognitions s) (recognitionRef s) (startTimeRef s)
      (intervalRef s) (fullTranscript event)
  /\ calls_of (react supported (RecognitionResult event) s) = [].
Proof.
  intros H.
  destruct s as [rec tr wc d w rs sup err reg dark objs rref st iref cref].
  cbn [isRecording] in H. subst rec.
  unfold react, effects_after. run_handler.
  destruct (negb (same_text tr (fullTranscript event)) || negb (Qeq_bool d d) || false);
    split; reflexivity.
Qed.

(** C2, as the code has it.  [onresult] does not look at [isRecording]: a
    snapshot that arrives after the stop still replaces the transcript, the
    cell and the ref, by the text rebuilt from it.  The recording flag, the
    word count, the speed, the elapsed time, the error and the list of
    results stay as they were, also once the effect on the transcript has
    run, and nothing is called. *)
Theorem late_snapshot_replaces_only_the_transcript
    (event : Speech.Event) (s : State) :
  isRecording s = false ->
  state_of (wpmEffect (state_of (onresult event s))) =
    mkState false (fullTranscript event) (wordCount s) (duration s)
      (wpm s) (results s) (isSupported s) (error s) (selectedRegion s)
      (isDarkMode s) (recognitions s) (recognitionRef s) (startTimeRef s)
      (intervalRef s) (fullTranscript event)
  /\ calls_of (onresult event s) = []
  /\ calls_of (wpmEffect (state_of (onresult event s))) = []
  /\ (forall supported,
        state_of (react supported (RecognitionResult event) s)
        = state_of (wpmEffect (state_of (onresult event s)))
        /\ calls_of (react supported (RecognitionResult event) s) = []).
Proof.
  intros H.
  assert (state_of (wpmEffect (state_of (onresult event s))) =
          mkState false (fullTranscript event) (wordCount s) (duration s)
            (wpm s) (results s) (isSupported s) (error s) (selectedRegion s)
            (isDarkMode s) (recognitions s) (recognitionRef s) (startTimeRef s)
            (intervalRef s) (fullTranscript event)) as Hstate.
  { rewrite wpmEffect_state, onresult_state. cbn [isRecording]. now rewrite H. }
  split; [exact Hstate|]. split; [reflexivity|]. split.
  - rewrite onresult_state.
    destruct (wpmEffect_view
                (mkState (isRecording s) (fullTranscript event) (wordCount s)
                   (duration s) (wpm s) (results s) (isSupported s) (error s)
                   (selectedRegion s) (isDarkMode s) (recognitions s)
                   (recognitionRef s) (startTimeRef s) (intervalRef s)
                   (fullTranscript event))) as [_ Hc].
    exact Hc.
  - intros supported. rewrite Hstate. exact (react_late_snapshot supported event s H).
Qed.

(** C2, as the claim has it, fails: the session was stopped with the
    transcript "hello", and the snapshot delivered afterwards makes it
    "hello world". *)
Lemma late_snapshot_is_not_discarded :
  session true Examples.stop_after_hello Examples.mounted []
  = Some (Examples.stopped_after_hello, [0%nat])
  /\ isRecording Examples.stopped_after_hello = false
  /\ transcript Examples.stopped_after_hello = JsString.of_string "hello"
  /\ transcript (state_of (onresult Examples.late_snapshot Examples.stopped_after_hello))
     = JsString.of_string "hello world"
  /\ transcript (state_of (onresult Examples.late_snapshot Examples.stopped_after_hello))
     <> transcript Examples.stopped_after_hello.
Proof.
  repeat match goal with |- _ /\ _ => split end;
    try (vm_compute; reflexivity).
  vm_compute. discriminate.
Qed.

(** ** The theorems at the example sessions *)

(** The snapshot ["one " final, "hello wor" interim] followed by
    ["one ", "hello world " final, "this" interim]. *)
Lemma final_prefix_on_two_snapshots :
  Speech.extends (Speech.results Examples.snapshot_1)
                 (Speech.results Examples.snapshot_2) = true
  /\ (transcript (state_of (onresult Examples.snapshot_1 Examples.mounted))
      = completeTranscript Examples.snapshot_1 ++ interimTranscript Examples.snapshot_1
      /\ completeTranscript Examples.snapshot_1
         = Speech.text_of Speech.isFinal (Speech.results Examples.snapshot_1)
      /\ (exists added,
            completeTranscript Examples.snapshot_2
            = completeTranscript Examples.snapshot_1 ++ added
            /\ transcript (state_of (onresult Examples.snapshot_2
                 (state_of (onresult Examples.snapshot_1 Examples.mounted))))
               = completeTranscript Examples.snapshot_1 ++ added
                 ++ interimTranscript Examples.snapshot_2)
      /\ (forall s',
            transcript (state_of (onresult Examples.snapshot_2 s'))
            = transcript (state_of (onresult Examples.snapshot_2
                (state_of (onresult Examples.snapshot_1 Examples.mounted)))))).
Proof.
  split; [reflexivity|].
  exact (final_prefix_is_append_only Examples.snapshot_1 Examples.snapshot_2
           Examples.mounted eq_refl).
Defined.

Example transcripts_of_two_snapshots :
  fullTranscript Examples.snapshot_1 = JsString.of_string "one hello wor"
  /\ fullTranscript Examples.snapshot_2 = JsString.of_string "one hello world this".
Proof. split; reflexivity. Qed.

Lemma late_snapshot_on_stopped_session :
  isRecording Examples.stopped_after_hello = false
  /\ wordCount (state_of (wpmEffect (state_of
       (onresult Examples.late_snapshot Examples.stopped_after_hello)))) = 1%nat
  /\ transcript (state_of (wpmEffect (state_of
       (onresult Examples.late_snapshot Examples.stopped_after_hello))))
     = JsString.of_string "hello world".
Proof.
  split; [reflexivity|].
  rewrite (proj1 (late_snapshot_replaces_only_the_transcript
                    Examples.late_snapshot Examples.stopped_after_hello eq_refl)).
  split; reflexivity.
Defined.

Lemma eleventh_result_evicts_the_oldest :
  has_content Examples.eleventh_session = true
  /\ List.length (results Examples.eleventh_session) = 10%nat
  /\ results (state_of (stopRecording 5000 Examples.eleventh_session))
     = result 5000 Examples.eleventh_session
       :: removelast (results Examples.eleventh_session)
  /\ (List.length (results (state_of (stopRecording 5000 Examples.eleventh_session)))
      <= 10)%nat.
Proof.
  split; [reflexivity|]. split; [reflexivity|].
  pose proof (saved_result_first_and_at_most_10 5000 Examples.eleventh_session eq_refl)
    as [_ [Hlen [_ [Hfull _]]]].
  split; [exact (Hfull eq_refl)|exact Hlen].
Defined.

Lemma us_labels_160_ideal :
  lookup "us" REGIONAL_SPEEDS
  = Some (RegionSpeed.mk "United States"
            (RegionSpeed.mkRanges 120 (150%Z, 180%Z) 200 220))
  /\ getWpmLabel 160 "us" = Some "Ideal"%string.
Proof.
  split; [reflexivity|].
  apply (getWpmLabel_tiers_in_order 160 "us" eq_refl); cbn; lia.
Defined.

(** ** Further properties *)

Lemma one_click_session :
  session true [ClickStart false 0] (first_rendered true None false) []
  = Some (state_of (react true (ClickStart false 0) (first_rendered true None false)),
          [0%nat])
  /\ In 0%nat [0%nat]
  /\ calls_of (onend 0 true
       (state_of (react true (ClickStart false 0) (first_rendered true None false))))
     = [].
Proof.
  assert (session true [ClickStart false 0] (first_rendered true None false) []
          = Some (state_of (react true (ClickStart false 0)
                    (first_rendered true None false)), [0%nat])) as Hs
    by (vm_compute; reflexivity).
  split; [exact Hs|]. split; [now left|].
  exact (proj1 (no_session_restarts_recognition true None false
                  [ClickStart false 0] Hs 0%nat true (or_introl eq_refl))).
Defined.

(** In the guard [finalTranscript && finalWordCount > 0] of [stopRecording]
    the second test never decides: a transcript that is not empty after
    trimming has at least one word. *)
Theorem word_count_test_is_implied (s : State) :
  JsString.truthy (finalTranscript s) = true -> (0 <? finalWordCount s) = true.
Proof.
  intros H. apply JsString_truthy_iff in H.
  apply Nat.ltb_lt. now apply words_trim_positive.
Qed.

Lemma word_count_test_at_5s :
  JsString.truthy (finalTranscript Examples.recording_at_5s) = true
  /\ (0 <? finalWordCount Examples.recording_at_5s) = true.
Proof.
  split; [reflexivity|].
  exact (word_count_test_is_implied Examples.recording_at_5s eq_refl).
Defined.

(** Every entry of [REGIONAL_SPEEDS] has
    [slow < normal.low <= normal.high < fast < veryFast]. *)
Theorem REGIONAL_SPEEDS_are_valid :
  forallb (fun entry => valid_ranges (RegionSpeed.ranges (snd entry))) REGIONAL_SPEEDS
  = true.
Proof. reflexivity. Qed.

(** [stopRecording] calls [stop()] on the object in [recognitionRef], which
    is the one built after the click on Start and which nothing started: in
    no session does the call reach an object that was started. *)
Theorem stop_misses_the_started_recognition
    (supported : bool) (savedRegion : option string) (savedDarkMode : bool)
    (evs : list Event) (s : State) (started : list nat) (now : Z) :
  session supported evs (first_rendered supported savedRegion savedDarkMode) []
  = Some (s, started) ->
  offered (ClickStop now) s started = true ->
  forall recognition,
    In (RecognitionStop recognition) (calls_of (stopRecording now s)) ->
    ~ In recognition started.
Proof.
  intros Hs Hoff recognition Hin Hstarted.
  destruct (@session_keeps_closures supported evs _ _ _ _
              (first_rendered_closures supported savedRegion savedDarkMode) Hs)
    as [Hst Href].
  cbn in Hoff. apply andb_true_iff in Hoff. destruct Hoff as [_ Hrec].
  destruct (Hst _ Hstarted) as [_ Hfalse].
  assert (recognitionRef s = Some recognition) as Hk.
  { revert Hin. run_handler.
    destruct (recognitionRef s) as [k|], (intervalRef s), (has_content s); cbn;
      intros Hin; repeat (destruct Hin as [Hin|Hin]; try discriminate);
      try (now injection Hin as ->); try contradiction. }
  destruct (Href _ Hk) as [_ [_ Hcl]]. congruence.
Qed.

Lemma stop_at_5s_misses_the_started_recognition :
  session true Examples.hello_world_until_5s Examples.mounted []
  = Some (Examples.recording_at_5s, [0%nat])
  /\ calls_of (stopRecording 5000 Examples.recording_at_5s)
     = [RecognitionStop 1; ClearInterval]
  /\ ~ In 1%nat [0%nat].
Proof.
  assert (session true Examples.hello_world_until_5s Examples.mounted []
          = Some (Examples.recording_at_5s, [0%nat])) as Hs
    by (vm_compute; reflexivity).
  split; [exact Hs|]. split; [vm_compute; reflexivity|].
  apply (stop_misses_the_started_recognition true None false
           Examples.hello_world_until_5s 5000 Hs).
  - vm_compute. reflexivity.
  - vm_compute. now left.
Defined.

(** Along a stream of snapshots in which each continues the one before it,
    the text that was final at the first snapshot still starts the
    transcript after the last one. *)
Theorem final_text_survives_the_stream
    (event : Speech.Event) (later : list Speech.Event) (s : State) :
  Speech.continuous event later = true ->
  exists added,
    transcript (run (map RecognitionResult (event :: later)) s)
    = completeTranscript event ++ added.
Proof.
  revert event s. induction later as [|next rest IH]; intros event s H.
  - exists (interimTranscript event). reflexivity.
  - cbn [Speech.continuous] in H. apply andb_true_iff in H. destruct H as [He Hc].
    destruct (IH next (state_of (onresult event s)) Hc) as [added Ha].
    destruct (extends_finals_prefix _ _ He) as [more Hm].
    exists (more ++ added).
    change (run (map RecognitionResult (event :: next :: rest)) s)
      with (run (map RecognitionResult (next :: rest)) (state_of (onresult event s))).
    rewrite Ha, !completeTranscript_finals, Hm, app_assoc. reflexivity.
Qed.

Lemma final_text_survives_two_snapshots :
  Speech.continuous Examples.snapshot_1 [Examples.snapshot_2] = true
  /\ exists added,
       transcript (run (map RecognitionResult [Examples.snapshot_1; Examples.snapshot_2])
                     Examples.mounted)
       = completeTranscript Examples.snapshot_1 ++ added.
Proof.
  split; [reflexivity|].
  exact (final_text_survives_the_stream Examples.snapshot_1 [Examples.snapshot_2]
           Examples.mounted eq_refl).
Defined.

(* ------------------------------------------------------------------ *)
(** ** Words across the seams of a transcript *)

Section WordFacts.

Import JsString.

Local Notation "'nonempty'" := (fun word : list N => (0 <? List.length word)%nat).

Lemma split_from_run_start (s : JsString.t) :
  filter nonempty (split_from true [] s) = filter nonempty (split_from false [] s).
Proof.
  destruct s as [|c s]; cbn; [reflexivity|].
  destruct (is_whitespace c); reflexivity.
Qed.

Lemma split_from_app_whitespace (a b : JsString.t) (c : N) :
  is_whitespace c = true ->
  forall in_run cur, (in_run = true -> cur = []) ->
  filter nonempty (split_from in_run cur (a ++ c :: b))
  = filter nonempty (split_from in_run cur a) ++ words b.
Proof.
  intros Hc. induction a as [|d a IH]; intros in_run cur Hinv.
  - cbn [app split_from]. rewrite Hc.
    destruct in_run.
    + rewrite (Hinv eq_refl). cbn. apply split_from_run_start.
    + cbn [filter]. rewrite split_from_run_start.
      unfold words, split_whitespace.
      destruct (nonempty cur); reflexivity.
  - cbn [app split_from]. destruct (is_whitespace d).
    + destruct in_run.
      * apply IH. exact Hinv.
      * cbn [filter]. rewrite (IH true []) by reflexivity.
        destruct (nonempty cur); reflexivity.
    + apply IH. discriminate.
Qed.

Lemma words_app_whitespace (a b : JsString.t) (c : N) :
  is_whitespace c = true -> words (a ++ c :: b) = words a ++ words b.
Proof.
  intros Hc. unfold words at 1 2, split_whitespace.
  apply split_from_app_whitespace; [exact Hc|discriminate].
Qed.

Lemma words_whitespace (s : JsString.t) :
  forallb is_whitespace s = true -> words s = [].
Proof.
  induction s as [|c s IH]; [reflexivity|].
  cbn [forallb]. intros H. apply andb_prop in H as [Hc Hs].
  change (c :: s) with ([] ++ c :: s).
  rewrite (@words_app_whitespace [] s c Hc). exact (IH Hs).
Qed.

Lemma words_drop_leading (dropped s : JsString.t) :
  forallb is_whitespace dropped = true -> words (dropped ++ s) = words s.
Proof.
  induction dropped as [|c dropped IH]; [reflexivity|].
  cbn [forallb]. intros H. apply andb_prop in H as [Hc Hd].
  change ((c :: dropped) ++ s) with ([] ++ c :: (dropped ++ s)).
  rewrite (@words_app_whitespace [] _ c Hc). exact (IH Hd).
Qed.

Lemma words_drop_trailing (s dropped : JsString.t) :
  forallb is_whitespace dropped = true -> words (s ++ dropped) = words s.
Proof.
  destruct dropped as [|c dropped]; [now rewrite app_nil_r|].
  cbn [forallb]. intros H. apply andb_prop in H as [Hc Hd].
  rewrite (@words_app_whitespace s _ c Hc), (@words_whitespace _ Hd).
  apply app_nil_r.
Qed.

Lemma trimEnd_prefix (s : JsString.t) :
  exists dropped, s = trimEnd s ++ dropped /\ forallb is_whitespace dropped = true.
Proof.
  unfold trimEnd. destruct (trimStart_suffix (rev s)) as [dropped [E H]].
  exists (rev dropped). split.
  - rewrite <- rev_app_distr, <- E. symmetry. apply rev_involutive.
  - apply forallb_forall. intros c Hc. apply in_rev in Hc.
    rewrite forallb_forall in H. now apply H.
Qed.

Lemma words_trim (s : JsString.t) : words (trim s) = words s.
Proof.
  unfold trim.
  destruct (trimStart_suffix s) as [d1 [E1 H1]].
  destruct (trimEnd_prefix (trimStart s)) as [d2 [E2 H2]].
  rewrite E1 at 2. rewrite (@words_drop_leading _ _ H1).
  rewrite E2 at 2. now rewrite (@words_drop_trailing _ _ H2).
Qed.

(** Trimming twice is trimming once. *)
Lemma trimStart_fixed (s : JsString.t) :
  match s with [] => True | c :: _ => is_whitespace c = false end ->
  trimStart s = s.
Proof. destruct s as [|c s]; cbn; [reflexivity|]. now intros ->. Qed.

Lemma trimStart_last (s : JsString.t) (c : N) :
  trimStart (s ++ [c]) <> [] -> exists rest, trimStart (s ++ [c]) = rest ++ [c].
Proof.
  induction s as [|d s IH]; cbn.
  - destruct (is_whitespace c); [now intros []|]. intros _. now exists [].
  - destruct (is_whitespace d); [exact IH|]. intros _. now exists (d :: s).
Qed.

Lemma trimStart_idempotent (s : JsString.t) : trimStart (trimStart s) = trimStart s.
Proof.
  apply trimStart_fixed. destruct (trimStart s) as [|c rest] eqn:E; [exact I|].
  exact (trimStart_head _ E).
Qed.

Lemma trim_trimStart (s : JsString.t) : trimStart (trim s) = trim s.
Proof.
  unfold trim, trimEnd. apply trimStart_fixed.
  destruct (trimStart s) as [|c rest] eqn:E; [exact I|].
  pose proof (trimStart_head _ E) as Hc.
  cbn [rev].
  destruct (trimStart (rev rest ++ [c])) as [|d z] eqn:Ez; [exact I|].
  destruct (@trimStart_last (rev rest) c) as [z' Ez']; [rewrite Ez; discriminate|].
  rewrite Ez in Ez'. rewrite Ez', rev_app_distr. exact Hc.
Qed.

Lemma trim_idempotent (s : JsString.t) : trim (trim s) = trim s.
Proof.
  unfold trim at 1. rewrite trim_trimStart.
  unfold trim, trimEnd. rewrite rev_involutive, trimStart_idempotent. reflexivity.
Qed.


Lemma split_from_length_cur (s cur1 cur2 : JsString.t) :
  cur1 <> [] -> cur2 <> [] ->
  List.length (filter nonempty (split_from false cur1 s))
  = List.length (filter nonempty (split_from false cur2 s)).
Proof.
  revert cur1 cur2. induction s as [|c s IH]; intros cur1 cur2 H1 H2.
  - destruct cur1; [now destruct H1|]. destruct cur2; [now destruct H2|]. reflexivity.
  - cbn [split_from]. destruct (is_whitespace c).
    + destruct cur1; [now destruct H1|]. destruct cur2; [now destruct H2|]. reflexivity.
    + apply IH; now intros E; apply app_eq_nil in E as [_ E].
Qed.

Lemma last_whitespace_default (s : JsString.t) (d1 d2 : N) :
  is_whitespace d1 = is_whitespace d2 ->
  is_whitespace (last s d1) = is_whitespace (last s d2).
Proof.
  intros H. induction s as [|c s IH]; [exact H|].
  destruct s as [|e s]; [reflexivity|exact IH].
Qed.

Lemma last_cons_default (s : JsString.t) (c d : N) : last (c :: s) d = last s c.
Proof.
  revert c d. induction s as [|e s IH]; intros c d; [reflexivity|].
  change (last (c :: e :: s) d) with (last (e :: s) d). rewrite !IH. reflexivity.
Qed.

Lemma split_from_junction (b a : JsString.t) :
  forall in_run cur, (in_run = true -> cur = []) ->
  (List.length (filter nonempty (split_from in_run cur (a ++ b)))
   + (if negb (is_whitespace (last a (if nonempty cur then 0 else 32)%N))
         && negb (is_whitespace (hd 32%N b))
      then 1 else 0)
   = List.length (filter nonempty (split_from in_run cur a))
     + List.length (words b))%nat.
Proof.
  induction a as [|d a IH]; intros in_run cur Hinv.
  - cbn [app last split_from].
    destruct cur as [|x cur].
    + cbn. destruct in_run; [rewrite split_from_run_start|]; unfold words, split_whitespace; apply Nat.add_0_r.
    + destruct in_run; [now discriminate (Hinv eq_refl)|].
      change (is_whitespace (if (0 <? List.length (x :: cur))%nat then 0 else 32)%N)
        with false.
      change (List.length (filter nonempty [x :: cur])) with 1%nat.
      destruct b as [|c b]; [reflexivity|].
      cbn [hd split_from]. unfold words, split_whitespace. cbn [split_from].
      destruct (is_whitespace c); cbn [negb andb].
      * change (filter nonempty ((x :: cur) :: split_from true [] b))
          with ((x :: cur) :: filter nonempty (split_from true [] b)).
        change (filter nonempty ([] :: split_from true [] b))
          with (filter nonempty (split_from true [] b)).
        cbn [List.length]. now rewrite Nat.add_0_r.
      * rewrite (@split_from_length_cur b ((x :: cur) ++ [c]) [c]) by discriminate.
        apply Nat.add_comm.
  - rewrite last_cons_default. cbn [app split_from].
    destruct (is_whitespace d) eqn:Hd.
    + destruct in_run.
      * rewrite (Hinv eq_refl). specialize (IH true [] (fun _ => eq_refl)).
        change (0 <? List.length (@nil N))%nat with false in IH. cbn iota in IH.
        rewrite (@last_whitespace_default a d 32%N) by (now rewrite Hd). exact IH.
      * cbn [filter]. specialize (IH true [] (fun _ => eq_refl)).
        change (0 <? List.length (@nil N))%nat with false in IH. cbn iota in IH.
        rewrite (@last_whitespace_default a d 32%N) by (now rewrite Hd).
        destruct (0 <? List.length cur)%nat; cbn [List.length app]; lia.
    + assert (Hne : (0 <? List.length (cur ++ [d]))%nat = true).
      { rewrite length_app. apply Nat.ltb_lt. cbn [List.length]. lia. }
      specialize (IH false (cur ++ [d]) ltac:(discriminate)).
      rewrite Hne in IH.
      rewrite (@last_whitespace_default a d 0%N) by (now rewrite Hd). exact IH.
Qed.

Lemma words_junction (a b : JsString.t) :
  (List.length (words (a ++ b))
   + (if negb (is_whitespace (last a 32%N)) && negb (is_whitespace (hd 32%N b))
      then 1 else 0)
   = List.length (words a) + List.length (words b))%nat.
Proof.
  exact (@split_from_junction b a false [] ltac:(discriminate)).
Qed.

End WordFacts.

(** [onresult] joins the fragments of a snapshot without a separator.  The
    words of a joined text [a ++ b] are as many as those of [a] and of [b]
    together, less one when [a] ends and [b] starts with a code unit that is
    not white space: the word at the end of [a] and the word at the start of
    [b] are then one word.  (32 is the space, so an empty part counts as
    ending and as starting with white space.) *)
Theorem joined_fragments_share_a_word (a b : JsString.t) :
  (List.length (JsString.words (a ++ b))
   + (if negb (JsString.is_whitespace (last a 32%N))
         && negb (JsString.is_whitespace (hd 32%N b))
      then 1 else 0)
   = List.length (JsString.words a) + List.length (JsString.words b))%nat.
Proof. exact (words_junction a b). Qed.

Example hello_and_world_joined :
  List.length (JsString.words (JsString.of_string "hello" ++ JsString.of_string "world"))
  = 1%nat
  /\ List.length (JsString.words (JsString.of_string "hello " ++ JsString.of_string "world"))
     = 2%nat.
Proof. split; reflexivity. Qed.

(** The [trim()] in front of [split(/\s+/).filter(word => word.length > 0)]
    changes nothing, since the filter drops the empty pieces a leading or
    trailing run of white space leaves.  So the word count [stopRecording]
    takes is the number of words of [currentTranscriptRef] as it stands,
    and the count the effect sets is that of the transcript as it stands. *)
Theorem trim_before_split_is_redundant (text : JsString.t) (s : State) :
  JsString.words (JsString.trim text) = JsString.words text
  /\ finalWordCount s = List.length (JsString.words (currentTranscriptRef s))
  /\ wordCount (state_of (wpmEffect s))
     = if isRecording s && JsString.truthy (JsString.trim (transcript s))
       then List.length (JsString.words (transcript s))
       else wordCount s.
Proof.
  split; [apply words_trim|]. split.
  - unfold finalWordCount, finalTranscript. now rewrite words_trim.
  - rewrite wpmEffect_state.
    destruct (isRecording s && JsString.truthy (JsString.trim (transcript s)));
      [cbn [wordCount]; now rewrite words_trim|reflexivity].
Qed.

(* ------------------------------------------------------------------ *)
(** ** What the handlers keep *)

Ltac by_cases :=
  repeat match goal with
         | |- context [if ?b then _ else _] => destruct b; cbn
         | |- context [match ?o with Some _ => _ | None => _ end] => destruct o; cbn
         end.

Lemma handle_keeps_agreement (ev : Event) (s : State) :
  currentTranscriptRef s = transcript s ->
  currentTranscriptRef (state_of (handle ev s)) = transcript (state_of (handle ev s)).
Proof.
  destruct s as [rec tr wc d w rs sup err reg dark objs rref st iref cref].
  cbn [currentTranscriptRef transcript]. intros ->.
  destruct ev; run_handler; by_cases; reflexivity.
Qed.

Lemma run_keeps_agreement (evs : list Event) (s : State) :
  currentTranscriptRef s = transcript s ->
  currentTranscriptRef (run evs s) = transcript (run evs s).
Proof.
  unfold run. revert s. induction evs as [|ev evs IH]; intros s H; [exact H|].
  cbn [fold_left]. apply IH. now apply handle_keeps_agreement.
Qed.

Section RoundFacts.
Local Open Scope Q_scope.

Lemma Math_round_nonneg (x : Q) : 0 <= x -> (0 <= Math_round x)%Z.
Proof.
  intros H. destruct (Math_round_nearest x) as [_ Hhi].
  assert (inject_Z (-1) < inject_Z (Math_round x)) as A
    by (change (inject_Z (-1)) with (-1 # 1); lra).
  rewrite <- Zlt_Qlt in A. lia.
Qed.

Lemma finalWpm_nonneg (n : nat) (d : Q) : (0 <= finalWpm n d)%Z.
Proof.
  unfold finalWpm. destruct (Qgtb0 d) eqn:Hd; [|lia].
  apply Qgtb0_iff in Hd. apply Math_round_nonneg.
  assert (0 <= number_of_nat n) as Hn.
  { unfold number_of_nat. change 0 with (inject_Z 0). rewrite <- Zle_Qle. lia. }
  unfold Double.mul, Double.div.
  apply nearest_nonneg, Qmult_le_0_compat; apply nearest_nonneg; [|lra].
  unfold Qdiv. apply nearest_nonneg, Qmult_le_0_compat; [now apply nearest_nonneg|].
  apply Qinv_le_0_compat, nearest_nonneg. lra.
Qed.

End RoundFacts.

Lemma result_consistent (now : Z) (s : State) :
  has_content s = true -> History.consistent (result now s).
Proof.
  intros H. apply has_content_iff in H as [Ht Hw].
  unfold History.consistent, result. cbn.
  repeat match goal with |- _ /\ _ => split end.
  - exact Ht.
  - apply trim_idempotent.
  - reflexivity.
  - exact Hw.
  - reflexivity.
  - apply finalWpm_nonneg.
Qed.

Lemma Forall_firstn (A : Type) (P : A -> Prop) (n : nat) (l : list A) :
  Forall P l -> Forall P (firstn n l).
Proof.
  intros H. revert n. induction H as [|x l Hx Hl IH]; intros [|n]; cbn; auto.
Qed.

Lemma run_keeps_history (P : SpeechResult.t -> Prop) (evs : list Event) (s : State) :
  (forall now s, has_content s = true -> P (result now s)) ->
  Forall P (results s) -> Forall P (results (run evs s)).
Proof.
  intros HP. unfold run. revert s. induction evs as [|ev evs IH]; intros s H; [exact H|].
  cbn [fold_left]. apply IH.
  destruct ev; try (rewrite results_frame by discriminate; exact H).
  cbn [handle]. rewrite stopRecording_state. cbn [results].
  destruct (has_content s) eqn:Hc; [|exact H].
  unfold keep_last_10. apply Forall_firstn. constructor; [now apply HP|exact H].
Qed.

(** Every handler that writes the transcript cell writes the same text to
    [currentTranscriptRef], and no effect writes either.  Once they agree,
    they agree after any events in any order; what [stopRecording] would
    save is then the trimmed text on the screen, and it saves exactly when
    that text is not empty. *)
Theorem saved_transcript_is_the_one_shown (evs : list Event) (s : State) :
  currentTranscriptRef s = transcript s ->
  currentTranscriptRef (run evs s) = transcript (run evs s)
  /\ finalTranscript (run evs s) = JsString.trim (transcript (run evs s))
  /\ (has_content (run evs s) = true <-> JsString.trim (transcript (run evs s)) <> []).
Proof.
  intros H. pose proof (run_keeps_agreement evs s H) as E.
  split; [exact E|]. unfold finalTranscript at 1. rewrite E. split; [reflexivity|].
  rewrite has_content_trimmed. unfold finalTranscript. now rewrite E.
Qed.

Lemma saved_transcript_at_5s :
  currentTranscriptRef Examples.mounted = transcript Examples.mounted
  /\ finalTranscript (run Examples.hello_world_until_5s Examples.mounted)
     = JsString.trim (transcript (run Examples.hello_world_until_5s Examples.mounted)).
Proof.
  split; [reflexivity|].
  exact (proj1 (proj2 (@saved_transcript_is_the_one_shown
                         Examples.hello_world_until_5s Examples.mounted eq_refl))).
Defined.

(** The list of results only ever receives results [stopRecording] built:
    after any events in any order, every result has a transcript that is
    trimmed and not empty, the number of words of that transcript as its
    word count, at least one word, and the speed [finalWpm] gives for that
    count and its duration, which is never negative. *)
Theorem history_entries_are_consistent (evs : list Event) (s : State) :
  Forall History.consistent (results s) ->
  Forall History.consistent (results (run evs s)).
Proof. apply run_keeps_history. intros now s0. apply result_consistent. Qed.

Lemma history_after_a_stop_at_5s :
  Forall History.consistent (results Examples.mounted)
  /\ Forall History.consistent
       (results (run (Examples.hello_world_until_5s ++ [ClickStop 5000]) Examples.mounted)).
Proof.
  assert (Forall History.consistent (results Examples.mounted)) as H by constructor.
  split; [exact H|].
  exact (@history_entries_are_consistent
           (Examples.hello_world_until_5s ++ [ClickStop 5000]) Examples.mounted H).
Defined.

Example history_of_a_stop_at_5s :
  map SpeechResult.wpm
    (results (run (Examples.hello_world_until_5s ++ [ClickStop 5000]) Examples.mounted))
  = [24%Z].
Proof. vm_compute. reflexivity. Qed.

(* ------------------------------------------------------------------ *)
(** ** Colours, labels and the gauge *)

Section Colours.

Local Open Scope Z_scope.
Import RegionSpeed.

Lemma label_in_band (ranges : Ranges) (wpm : Z) :
  exists b hue,
    label_in ranges wpm = label b
    /\ View.color_in ranges wpm = View.color b
    /\ View.color b = String.append "text-" hue
    /\ View.gauge_color ranges wpm = String.append "bg-" hue.
Proof.
  unfold label_in, View.color_in, View.gauge_color.
  destruct (wpm <? slow ranges);
    [exists TooSlow, "red-500"%string; repeat split|].
  destruct ((wpm >=? fst (normal ranges)) && (wpm <=? snd (normal ranges)));
    [exists Ideal, "green-500"%string; repeat split|].
  destruct (wpm <? fast ranges);
    [exists Fast, "yellow-500"%string|exists VeryFast, "blue-500"%string];
    repeat split.
Qed.

(** [getWpmColor] and [getWpmLabel] decide by the same tests: for every
    speed and region code they give the colour and the label of one band,
    the pending band exactly at speed 0, and for a code that is not in the
    table and a speed other than 0 both fail.  The bar of the gauge, which
    repeats the tests inline on [currentRegion], has the hue of that
    colour. *)
Theorem color_follows_label (wpm : Z) (region : string) :
  (exists b,
     getWpmLabel wpm region = Some (label b)
     /\ View.getWpmColor wpm region = Some (View.color b)
     /\ (wpm = 0 <-> b = Pending)
     /\ (wpm <> 0 ->
         exists speed hue,
           lookup region REGIONAL_SPEEDS = Some speed
           /\ View.color b = String.append "text-" hue
           /\ View.gauge_color (RegionSpeed.ranges speed) wpm = String.append "bg-" hue))
  \/ (wpm <> 0
      /\ lookup region REGIONAL_SPEEDS = None
      /\ getWpmLabel wpm region = None
      /\ View.getWpmColor wpm region = None).
Proof.
  unfold getWpmLabel, View.getWpmColor.
  destruct (wpm =? 0) eqn:E0.
  - apply Z.eqb_eq in E0. left. exists Pending.
    split; [reflexivity|]. split; [reflexivity|]. split; [tauto|]. intros H. contradiction.
  - apply Z.eqb_neq in E0.
    destruct (lookup region REGIONAL_SPEEDS) as [speed|]; [left|right; auto].
    destruct (label_in_band (RegionSpeed.ranges speed) wpm) as [b [hue [Hl [Hc [Hh Hg]]]]].
    exists b. rewrite Hl, Hc.
    split; [reflexivity|]. split; [reflexivity|]. split; [split|].
    + contradiction.
    + intros ->. exfalso. unfold label_in in Hl.
      destruct (wpm <? slow (RegionSpeed.ranges speed)); [discriminate|].
      destruct ((wpm >=? fst (normal (RegionSpeed.ranges speed)))
                && (wpm <=? snd (normal (RegionSpeed.ranges speed)))); [discriminate|].
      destruct (wpm <? fast (RegionSpeed.ranges speed)); discriminate.
    + intros _. exists speed, hue. auto.
Qed.

(** For ranges with [slow < low <= high < fast < veryFast] the four labels
    are intervals of the speed: "Slow" below [slow], "Ideal" from [low] to
    [high], "Very Fast" from [fast] on, and "Fast" on both sides of the
    ideal range, from [slow] up to [low] and above [high] up to [fast]: a
    speed between too slow and ideal is labelled "Fast". *)
Theorem labels_by_intervals (ranges : Ranges) (wpm : Z) :
  valid_ranges ranges = true ->
  let low := fst (normal ranges) in
  let high := snd (normal ranges) in
  (label_in ranges wpm = label TooSlow <-> wpm < slow ranges)
  /\ (label_in ranges wpm = label Ideal <-> low <= wpm <= high)
  /\ (label_in ranges wpm = label Fast <->
      slow ranges <= wpm < low \/ high < wpm < fast ranges)
  /\ (label_in ranges wpm = label VeryFast <-> fast ranges <= wpm).
Proof.
  intros Hv low high. unfold valid_ranges in Hv.
  apply andb_prop in Hv as [Hv H4]. apply andb_prop in Hv as [Hv H3].
  apply andb_prop in Hv as [H1 H2].
  fold low high in H1, H2, H3.
  apply Z.ltb_lt in H1, H3, H4. apply Z.leb_le in H2.
  unfold label_in. fold low high. rewrite Z.geb_leb.
  destruct (wpm <? slow ranges) eqn:E1;
    [apply Z.ltb_lt in E1|apply Z.ltb_ge in E1].
  { cbn. repeat split; intros; try discriminate; try lia. }
  destruct (low <=? wpm) eqn:E2; [apply Z.leb_le in E2|apply Z.leb_gt in E2];
  (destruct (wpm <=? high) eqn:E3; [apply Z.leb_le in E3|apply Z.leb_gt in E3]);
  (destruct (wpm <? fast ranges) eqn:E4;
     [apply Z.ltb_lt in E4|apply Z.ltb_ge in E4]);
  cbn; repeat split; intros; try discriminate; try lia.
Qed.

Lemma labels_by_intervals_us :
  valid_ranges (mkRanges 120 (150, 180) 200 220) = true
  /\ label_in (mkRanges 120 (150, 180) 200 220) 130 = label Fast
  /\ label_in (mkRanges 120 (150, 180) 200 220) 190 = label Fast.
Proof.
  split; [reflexivity|].
  pose proof (@labels_by_intervals (mkRanges 120 (150, 180) 200 220)) as H.
  split.
  - apply (H 130 eq_refl). left. cbn. lia.
  - apply (H 190 eq_refl). right. cbn. lia.
Defined.

(** In the variant of [src/unnamed/part_000] the label, the colour of the
    speed and the colour of the bar are decided by the same three
    thresholds 120, 160 and 200: every speed gets the label and the colour
    of one band, and the bar has the hue of that colour. *)
Theorem earlier_color_follows_label (wpm : Z) :
  exists b hue,
    Earlier.getWpmLabel wpm = EarlierView.label b
    /\ EarlierView.getWpmColor wpm = EarlierView.color b
    /\ EarlierView.color b = String.append "text-" hue
    /\ EarlierView.gauge_color wpm = String.append "bg-" hue.
Proof.
  unfold Earlier.getWpmLabel, EarlierView.getWpmColor, EarlierView.gauge_color.
  destruct (wpm <? 120);
    [exists EarlierView.Slow, "red-500"%string; repeat split|].
  destruct (wpm <? 160);
    [exists EarlierView.Normal, "yellow-500"%string; repeat split|].
  destruct (wpm <? 200);
    [exists EarlierView.Fast, "green-500"%string
    |exists EarlierView.VeryFast, "blue-500"%string];
    repeat split.
Qed.

End Colours.

Section Gauge.

Local Open Scope Q_scope.
Import RegionSpeed.



End Gauge.


(* ------------------------------------------------------------------ *)
(** ** The elapsed time as text *)

Section FloorFacts.

Local Open Scope Q_scope.

Lemma Qfloor_unique (x : Q) (r : Z) :
  inject_Z r <= x -> x < inject_Z (r + 1) -> Qfloor x = r.
Proof.
  intros Hlo Hhi.
  pose proof (Qfloor_le x) as Glo. pose proof (Qlt_floor x) as Ghi.
  assert (inject_Z r < inject_Z (Qfloor x + 1)) as A by lra.
  assert (inject_Z (Qfloor x) < inject_Z (r + 1)) as B by lra.
  rewrite <- Zlt_Qlt in A, B. lia.
Qed.

Lemma Qfloor_nonneg (x : Q) : 0 <= x -> (0 <= Qfloor x)%Z.
Proof.
  intros H. pose proof (Qlt_floor x) as Ghi.
  assert (inject_Z (-1) < inject_Z (Qfloor x)) as A.
  { rewrite inject_Z_plus in Ghi. change (inject_Z 1) with 1 in Ghi.
    change (inject_Z (-1)) with (-1 # 1). lra. }
  rewrite <- Zlt_Qlt in A. lia.
Qed.

(** The whole minutes and the seconds left over, for a time that is not
    negative. *)
Lemma minutes_of_seconds (x : Q) :
  0 <= x -> Qfloor (x / 60) = (Qfloor x / 60)%Z.
Proof.
  intros H.
  pose proof (Qfloor_le x) as Glo. pose proof (Qlt_floor x) as Ghi.
  rewrite inject_Z_plus in Ghi. change (inject_Z 1) with 1 in Ghi.
  pose proof (Z.div_mod (Qfloor x) 60 ltac:(lia)) as E.
  pose proof (Z.mod_pos_bound (Qfloor x) 60 ltac:(lia)) as B.
  set (n := Qfloor x) in *. set (q := (n / 60)%Z) in *. set (m := (n mod 60)%Z) in *.
  assert (inject_Z n == 60 * inject_Z q + inject_Z m) as En.
  { rewrite E. rewrite inject_Z_plus, inject_Z_mult. reflexivity. }
  assert (0 <= inject_Z m /\ inject_Z m <= 59) as [Bm1 Bm2].
  { change 0 with (inject_Z 0). change 59 with (inject_Z 59).
    rewrite <- !Zle_Qle. lia. }
  apply Qfloor_unique.
  - apply Qle_shift_div_l; [reflexivity|]. lra.
  - rewrite inject_Z_plus. change (inject_Z 1) with 1.
    apply Qlt_shift_div_r; [reflexivity|]. lra.
Qed.

Lemma seconds_left_over (x : Q) :
  0 <= x -> Qfloor (Number_remainder x 60) = (Qfloor x mod 60)%Z.
Proof.
  intros H. unfold Number_remainder.
  assert (0 <= x / 60) as H60.
  { apply Qle_shift_div_l; [reflexivity|]. lra. }
  apply Qle_bool_iff in H60. rewrite H60.
  rewrite (minutes_of_seconds H).
  pose proof (Qfloor_le x) as Glo. pose proof (Qlt_floor x) as Ghi.
  rewrite inject_Z_plus in Ghi. change (inject_Z 1) with 1 in Ghi.
  pose proof (Z.div_mod (Qfloor x) 60 ltac:(lia)) as E.
  set (n := Qfloor x) in *. set (q := (n / 60)%Z) in *. set (m := (n mod 60)%Z) in *.
  assert (inject_Z n == 60 * inject_Z q + inject_Z m) as En.
  { rewrite E. rewrite inject_Z_plus, inject_Z_mult. reflexivity. }
  apply Qfloor_unique.
  - lra.
  - rewrite inject_Z_plus. change (inject_Z 1) with 1. lra.
Qed.

End FloorFacts.

Section Digits.

Lemma of_string_inj (s1 s2 : string) :
  JsString.of_string s1 = JsString.of_string s2 -> s1 = s2.
Proof.
  unfold JsString.of_string. revert s2.
  induction s1 as [|c1 s1 IH]; intros [|c2 s2]; cbn; try discriminate; [reflexivity|].
  intros E. injection E as Ec Es. f_equal; [|now apply IH].
  now rewrite <- (ascii_N_embedding c1), <- (ascii_N_embedding c2), Ec.
Qed.

Lemma to_int_nonnil (n : Z) :
  Z.to_int n <> Decimal.Pos Decimal.Nil /\ Z.to_int n <> Decimal.Neg Decimal.Nil.
Proof.
  destruct n as [|p|p]; cbn; split; try discriminate;
    intros E; injection E as E; exact (DecimalPos.Unsigned.to_uint_nonnil _ E).
Qed.

Lemma Number_toString_inj (n1 n2 : Z) :
  Number_toString n1 = Number_toString n2 -> n1 = n2.
Proof.
  unfold Number_toString. intros E. apply of_string_inj in E.
  apply DecimalZ.to_int_inj.
  destruct (to_int_nonnil n1) as [A1 B1]. destruct (to_int_nonnil n2) as [A2 B2].
  pose proof (NilZero.isi _ A1 B1) as I1. pose proof (NilZero.isi _ A2 B2) as I2.
  rewrite E in I1. rewrite I1 in I2. now injection I2.
Qed.

(** The two digits of a number of seconds below 60. *)
Lemma two_digits (m : Z) :
  (0 <= m < 60)%Z ->
  padStart 2 48 (Number_toString m)
  = [(48 + Z.to_N (m / 10))%N; (48 + Z.to_N (m mod 10))%N].
Proof.
  intros H. rewrite <- (Z2Nat.id m) by lia.
  assert (Z.to_nat m < 60)%nat as Hk by lia.
  generalize dependent (Z.to_nat m). clear. intros k Hk.
  do 60 (destruct k as [|k]; [reflexivity|]). lia.
Qed.

End Digits.

Lemma formatTime_fields (seconds : Q) :
  (0 <= seconds)%Q ->
  View.formatTime seconds
  = Number_toString (Qfloor seconds / 60)
    ++ [58%N; (48 + Z.to_N (Qfloor seconds mod 60 / 10))%N;
        (48 + Z.to_N (Qfloor seconds mod 60 mod 10))%N].
Proof.
  intros H. unfold View.formatTime, Math_floor.
  rewrite (minutes_of_seconds H), (seconds_left_over H).
  rewrite two_digits by (apply Z.mod_pos_bound; lia). reflexivity.
Qed.

(** For a time that is not negative and below [2 ^ 53] seconds
    [formatTime] prints the whole minutes in decimal, not reduced to
    hours, a colon, and the whole seconds left over as exactly two digits,
    the first from 0 to 5.  The fraction of a second is dropped.  The
    minutes are then below [2 ^ 53], where [toString] prints every digit. *)
Theorem formatTime_minutes_and_two_digits (seconds : Q) :
  (0 <= seconds)%Q ->
  (seconds < inject_Z (2 ^ 53))%Q ->
  let whole := Qfloor seconds in
  let tens := (48 + Z.to_N (whole mod 60 / 10))%N in
  let units := (48 + Z.to_N (whole mod 60 mod 10))%N in
  View.formatTime seconds = Number_toString (whole / 60) ++ [58%N; tens; units]
  /\ (0 <= whole / 60 < 2 ^ 53)%Z
  /\ (48 <= tens <= 53)%N /\ (48 <= units <= 57)%N.
Proof.
  intros H Hmax whole tens units. split; [exact (formatTime_fields H)|].
  assert (0 <= whole < 2 ^ 53)%Z as Bw.
  { split; [now apply Qfloor_nonneg|].
    rewrite Zlt_Qlt. apply Qle_lt_trans with seconds; [apply Qfloor_le|exact Hmax]. }
  split.
  { split; [apply Z.div_pos; lia|].
    apply Z.le_lt_trans with whole; [apply Z.div_le_upper_bound; lia|lia]. }
  pose proof (Z.mod_pos_bound whole 60 ltac:(lia)) as B.
  pose proof (Z.mod_pos_bound (whole mod 60) 10 ltac:(lia)) as B10.
  assert (0 <= whole mod 60 / 10 <= 5)%Z as Bt.
  { split; [apply Z.div_pos; lia|].
    assert (whole mod 60 / 10 < 6)%Z; [apply Z.div_lt_upper_bound; lia|lia]. }
  unfold tens, units. clear tens units.
  generalize dependent (whole mod 60 / 10)%Z. intros t Ht.
  generalize dependent (whole mod 60 mod 10)%Z. intros u Hu.
  lia.
Qed.

Lemma formatTime_of_62_5 :
  (0 <= 125 # 2)%Q /\ (125 # 2 < inject_Z (2 ^ 53))%Q
  /\ View.formatTime (125 # 2) = JsString.of_string "1:02".
Proof.
  split; [discriminate|]. split; [reflexivity|].
  exact (proj1 (@formatTime_minutes_and_two_digits (125 # 2)
                  ltac:(discriminate) ltac:(reflexivity))).
Defined.

(** The division by 60 in doubles and the exact one have the same floor on
    times below [2 ^ 53] seconds, also just below a whole minute and at
    the largest such doubles; at [10 ^ 19] seconds they differ. *)
Example division_by_60_in_doubles :
  forallb (fun seconds : Q =>
             (Math_floor (Double.div seconds 60) =? Math_floor (seconds / 60))%Z
             && Qeq_bool (Double.nearest seconds) seconds)
    [125 # 2; 60 - 2 ^ (-47); 120 - 2 ^ (-46); 3600 - 2 ^ (-41);
     inject_Z (60 * 2 ^ 40) - 2 ^ (-7); 2 ^ 53 - 1; 2 ^ 53 - 60;
     inject_Z (60 * 150119987579016) - 1]%Q
  = true
  /\ Math_floor (Double.div (inject_Z (10 ^ 19)) 60) = 166666666666666656%Z
  /\ Math_floor (inject_Z (10 ^ 19) / 60) = 166666666666666666%Z.
Proof. repeat split; vm_compute; reflexivity. Qed.

(** Two times that are not negative are printed alike by [formatTime]
    exactly when they have the same whole number of seconds: the text
    loses the fraction and nothing else. *)
Theorem formatTime_separates_whole_seconds (a b : Q) :
  (0 <= a)%Q -> (0 <= b)%Q ->
  View.formatTime a = View.formatTime b <-> Qfloor a = Qfloor b.
Proof.
  intros Ha Hb. rewrite (formatTime_fields Ha), (formatTime_fields Hb).
  split; [|now intros ->].
  intros E.
  remember (48 + Z.to_N (Qfloor a mod 60 / 10))%N as ta eqn:Hta.
  remember (48 + Z.to_N (Qfloor b mod 60 / 10))%N as tb eqn:Htb.
  remember (48 + Z.to_N (Qfloor a mod 60 mod 10))%N as ua eqn:Hua.
  remember (48 + Z.to_N (Qfloor b mod 60 mod 10))%N as ub eqn:Hub.
  apply (f_equal (@rev N)) in E. rewrite !rev_app_distr in E.
  cbn [rev app] in E. injection E as Eu Et Em. subst ta tb ua ub.
  apply (f_equal (@rev N)) in Em. rewrite !rev_involutive in Em.
  apply Number_toString_inj in Em.
  pose proof (Z.mod_pos_bound (Qfloor a) 60 ltac:(lia)) as Ba.
  pose proof (Z.mod_pos_bound (Qfloor b) 60 ltac:(lia)) as Bb.
  pose proof (Z.div_mod (Qfloor a) 60 ltac:(lia)) as Da.
  pose proof (Z.div_mod (Qfloor b) 60 ltac:(lia)) as Db.
  pose proof (Z.div_mod (Qfloor a mod 60) 10 ltac:(lia)) as Ea.
  pose proof (Z.div_mod (Qfloor b mod 60) 10 ltac:(lia)) as Eb.
  pose proof (Z.mod_pos_bound (Qfloor a mod 60) 10 ltac:(lia)) as Ma.
  pose proof (Z.mod_pos_bound (Qfloor b mod 60) 10 ltac:(lia)) as Mb.
  assert (0 <= Qfloor a mod 60 / 10)%Z as Ta by (apply Z.div_pos; lia).
  assert (0 <= Qfloor b mod 60 / 10)%Z as Tb by (apply Z.div_pos; lia).
  apply N.add_cancel_l in Eu, Et. apply Z2N.inj in Eu, Et; lia.
Qed.

Lemma formatTime_at_62_seconds :
  (0 <= 125 # 2)%Q /\ (0 <= 62)%Q /\ View.formatTime (125 # 2) = View.formatTime 62.
Proof.
  split; [discriminate|]. split; [discriminate|].
  apply (@formatTime_separates_whole_seconds (125 # 2) 62); [discriminate|discriminate|].
  reflexivity.
Defined.

(* ------------------------------------------------------------------ *)
(** ** The timer under React *)

Section Timers.

Lemma wpmEffect_clock (s : State) :
  duration (state_of (wpmEffect s)) = duration s
  /\ results (state_of (wpmEffect s)) = results s
  /\ intervalRef (state_of (wpmEffect s)) = intervalRef s
  /\ (duration s = 0%Q -> wpm s = 0%Z -> wpm (state_of (wpmEffect s)) = 0%Z).
Proof.
  rewrite wpmEffect_state.
  destruct (isRecording s && JsString.truthy (JsString.trim (transcript s)));
    cbn [duration results intervalRef wpm]; repeat split; auto.
  intros -> _. reflexivity.
Qed.

Lemma recognitionEffect_clock (supported : bool) (s : State) :
  duration (state_of (recognitionEffect supported s)) = duration s
  /\ results (state_of (recognitionEffect supported s)) = results s
  /\ intervalRef (state_of (recognitionEffect supported s)) = intervalRef s
  /\ wpm (state_of (recognitionEffect supported s)) = wpm s.
Proof. run_handler. destruct supported; repeat split. Qed.

Lemma recognitionCleanup_calls (s : State) :
  calls_of (recognitionCleanup s) = if intervalRef s then [ClearInterval] else [].
Proof. run_handler. now destruct (intervalRef s). Qed.

(** What the effects of a render leave of the cells the clock is read
    from, and the calls they make. *)
Lemma effects_after_clock (supported : bool) (prev s : State) :
  duration (state_of (effects_after supported prev s)) = duration s
  /\ results (state_of (effects_after supported prev s)) = results s
  /\ (duration s = 0%Q -> wpm s = 0%Z ->
      wpm (state_of (effects_after supported prev s)) = 0%Z)
  /\ calls_of (effects_after supported prev s)
     = if negb (Bool.eqb (isRecording prev) (isRecording s)) && intervalRef s
       then [ClearInterval] else [].
Proof.
  unfold effects_after.
  rewrite state_of_bind, calls_of_bind. cbn [get fst snd state_of calls_of app].
  set (changed := negb (Bool.eqb (isRecording prev) (isRecording s))).
  set (deps := _ || _ || changed).
  rewrite !state_of_bind, !calls_of_bind.
  clearbody changed deps.
  assert (forall s0, state_of (ret tt s0) = s0) as Hret by reflexivity.
  assert (forall s0, calls_of (ret tt s0) = []) as Hcret by reflexivity.
  destruct (wpmEffect_clock s) as [W1 [W2 [W3 W4]]].
  destruct changed, deps; unfold when; cbn [andb];
    rewrite ?Hret, ?Hcret;
    rewrite ?(proj1 (recognitionCleanup_view s)), ?recognitionCleanup_calls;
    rewrite ?(proj2 (wpmEffect_view s)), ?(proj2 (recognitionEffect_view _ _));
    rewrite ?Hret, ?Hcret, ?app_nil_r;
    try (destruct (recognitionEffect_clock supported (state_of (wpmEffect s)))
           as [R1 [R2 [R3 R4]]]; rewrite R1, R2, R4);
    try (destruct (recognitionEffect_clock supported s)
           as [R1 [R2 [R3 R4]]]; rewrite R1, R2, R4);
    repeat match goal with |- _ /\ _ => split end; auto.
Qed.

(** A handler that runs while no timer ticks leaves the clock at 0, and the
    calls of the handler and of the effects after it leave no timer
    ticking. *)
Lemma handle_stopped_clock (ev : Event) (s : State) (started : list nat) :
  Timer.offered ev s started Timer.none = true ->
  Timer.stopped_clock s ->
  Timer.stopped_clock (state_of (handle ev s))
  /\ (forall supported,
        Timer.after_calls
          (calls_of (handle ev s)
           ++ calls_of (effects_after supported s (state_of (handle ev s))))
          Timer.none = Timer.none).
Proof.
  unfold Timer.offered, Timer.stopped_clock. intros Hoff [Hd [Hw Hr]].
  apply andb_prop in Hoff as [Hoff Htick].
  assert (forall supported s1,
            calls_of (effects_after supported s s1)
            = if negb (Bool.eqb (isRecording s) (isRecording s1)) && intervalRef s1
              then [ClearInterval] else []) as Hc
    by (intros; apply effects_after_clock).
  destruct s as [rec tr wc d w rs sup err reg dark objs rref st iref cref].
  cbn [duration wpm results] in Hd, Hw, Hr. subst d w.
  destruct ev; cbn in Hoff, Htick; try discriminate;
    (split; [|intros supported; rewrite Hc; clear Hc]); try clear Hc.
  - apply andb_prop in Hoff as [-> Hrec]. apply negb_true_iff in Hrec. subst rec.
    run_handler. destruct rref, start_throws; cbn; auto.
  - apply andb_prop in Hoff as [-> Hrec]. apply negb_true_iff in Hrec. subst rec.
    run_handler. destruct rref, start_throws; reflexivity.
  - cbn [handle]. rewrite stopRecording_state. cbn [duration wpm results].
    split; [reflexivity|]. split; [reflexivity|].
    destruct (has_content _); [|exact Hr].
    unfold keep_last_10. apply Forall_firstn. constructor; [|exact Hr].
    split; reflexivity.
  - apply andb_prop in Hoff as [-> ->]. cbn [handle]. rewrite stopRecording_state.
    cbn [isRecording intervalRef]. run_handler.
    destruct rref, iref, (has_content _); reflexivity.
  - run_handler. auto.
  - run_handler. destruct rec, iref; reflexivity.
  - run_handler. auto.
  - run_handler. destruct rec; reflexivity.
  - run_handler. auto.
  - run_handler. destruct rec; reflexivity.
  - run_handler. auto.
  - run_handler. destruct rec; reflexivity.
  - run_handler. auto.
  - run_handler. destruct rec, iref; reflexivity.
  - run_handler. destruct (nth recognition objs false), restart_throws; cbn; auto.
  - run_handler. destruct (nth recognition objs false), restart_throws, rec; reflexivity.
Qed.

Lemma react_stopped_clock (supported : bool) (ev : Event) (s : State) (started : list nat) :
  Timer.offered ev s started Timer.none = true ->
  Timer.stopped_clock s ->
  Timer.stopped_clock (state_of (react supported ev s))
  /\ Timer.after_calls (calls_of (react supported ev s)) Timer.none = Timer.none.
Proof.
  intros Hoff Hs.
  destruct (@handle_stopped_clock ev s started Hoff Hs) as [[Hd [Hw Hr]] Hc].
  rewrite react_state, react_calls. split; [|apply Hc].
  destruct (effects_after_clock supported s (state_of (handle ev s)))
    as [E1 [E2 [E3 _]]].
  unfold Timer.stopped_clock. rewrite E1, E2. auto.
Qed.

Lemma session_stopped_clock (supported : bool) (evs : list Event) :
  forall s started s' started' timers',
    Timer.stopped_clock s ->
    Timer.session supported evs s started Timer.none = Some (s', started', timers') ->
    Timer.stopped_clock s' /\ timers' = Timer.none
    /\ Forall (fun ev => forall now, ev <> TimerTick now) evs.
Proof.
  induction evs as [|ev evs IH]; intros s started s' started' timers' Hs H;
    cbn [Timer.session] in H.
  - injection H as <- _ <-. auto.
  - destruct (Timer.offered ev s started Timer.none) eqn:Hoff; [|discriminate].
    destruct (@react_stopped_clock supported ev s started Hoff Hs) as [Hs1 Ht].
    rewrite Ht in H.
    destruct (IH _ _ _ _ _ Hs1 H) as [A [B C]].
    split; [exact A|]. split; [exact B|]. constructor; [|exact C].
    intros now ->. unfold Timer.offered in Hoff.
    rewrite andb_false_r in Hoff. discriminate.
Qed.

End Timers.

(** [startRecording] sets the timer and sets [isRecording]; the render that
    follows changes the dependency of the recognition effect, so React runs
    the cleanup of that effect, which clears the timer in [intervalRef]:
    the calls of a click on Start end in [SetInterval; ClearInterval].  In
    every session from the first render in which the callback of the timer
    runs only while a timer is running, no timer is running after any
    event, the callback never runs, the elapsed time and the speed stay 0,
    and every result in the history has duration 0 and speed 0. *)
Theorem timer_is_cleared_before_it_ticks
    (supported : bool) (savedRegion : option string) (savedDarkMode : bool)
    (evs : list Event) (s : State) (started : list nat) (timers : Timer.t) :
  Timer.session supported evs
    (first_rendered supported savedRegion savedDarkMode) [] Timer.none
  = Some (s, started, timers) ->
  Timer.running timers = 0%nat
  /\ Forall (fun ev => forall now, ev <> TimerTick now) evs
  /\ duration s = 0%Q /\ wpm s = 0%Z
  /\ Forall (fun r => SpeechResult.duration r = 0%Q /\ SpeechResult.wpm r = 0%Z)
       (results s).
Proof.
  intros H.
  assert (Timer.stopped_clock (first_rendered supported savedRegion savedDarkMode)) as H0.
  { destruct supported; repeat split; constructor. }
  destruct (@session_stopped_clock supported evs _ _ _ _ _ H0 H) as [[A [B C]] [-> D]].
  auto.
Qed.

Lemma hello_world_is_saved_at_speed_0 :
  Timer.session true Timer.hello_then_stop (first_rendered true None false) [] Timer.none
  = Some (Timer.stopped_after_hello_world, [0%nat], Timer.none)
  /\ (Timer.running Timer.none = 0%nat
      /\ Forall (fun ev => forall now, ev <> TimerTick now) Timer.hello_then_stop
      /\ duration Timer.stopped_after_hello_world = 0%Q
      /\ wpm Timer.stopped_after_hello_world = 0%Z
      /\ Forall (fun r => SpeechResult.duration r = 0%Q /\ SpeechResult.wpm r = 0%Z)
           (results Timer.stopped_after_hello_world)).
Proof.
  assert (Timer.session true Timer.hello_then_stop (first_rendered true None false)
            [] Timer.none
          = Some (Timer.stopped_after_hello_world, [0%nat], Timer.none)) as Hs
    by (vm_compute; reflexivity).
  split; [exact Hs|].
  exact (@timer_is_cleared_before_it_ticks true None false _ _ _ _ Hs).
Defined.

Example timer_calls_of_a_start :
  calls_of (react true (ClickStart false 0) Examples.mounted)
  = [RecognitionStart 0; SetInterval; ClearInterval]
  /\ List.length (results Timer.stopped_after_hello_world) = 1%nat.
Proof. split; vm_compute; reflexivity. Qed.

(* ------------------------------------------------------------------ *)
(** ** The speed while recording and at a stop *)

Lemma first_render_stopped_clock (supported : bool) (savedRegion : option string)
    (savedDarkMode : bool) (evs : list Event) (s : State) (started : list nat)
    (timers : Timer.t) :
  Timer.session supported evs
    (first_rendered supported savedRegion savedDarkMode) [] Timer.none
  = Some (s, started, timers) ->
  Timer.stopped_clock s.
Proof.
  intros H.
  assert (Timer.stopped_clock (first_rendered supported savedRegion savedDarkMode)) as H0.
  { destruct supported; repeat split; constructor. }
  exact (proj1 (@session_stopped_clock supported evs _ _ _ _ _ H0 H)).
Qed.




(** The speed of the branch from 30 seconds on is the one of the doubles:
    seven words at 33.6 seconds are 12.5 words per minute, and the effect
    would show 12. *)
Example speed_of_7_words_at_33_6s :
  Math_round (Double.mul (Double.div (number_of_nat 7) (168 # 5)) 60) = 12%Z
  /\ Math_round (number_of_nat 7 / (168 # 5) * 60)%Q = 13%Z.
Proof. split; vm_compute; reflexivity. Qed.

(** C10, on the code.  One click on Start, a final "hello world", and a
    click on Stop five seconds after the start: the result saved has two
    words, duration 0 and speed 0, where two words in five seconds are 24
    words per minute.  The timer set by [startRecording] is cleared by the
    cleanup of the recognition effect in the render after the click, so
    [duration] is still 0 when [stopRecording] reads it: in every session
    from the first render the elapsed time is 0, and what a stop saves has
    duration 0 and speed 0.  [stopRecording] itself, on a state whose
    elapsed time is positive and whose transcript is not empty after
    trimming, does save [Math.round((words / duration) * 60)], taken in
    doubles, whatever speed is shown. *)
Theorem early_stop_saves_speed_0 :
  Timer.session true Timer.hello_then_stop Examples.mounted [] Timer.none
  = Some (Timer.stopped_after_hello_world, [0%nat], Timer.none)
  /\ map SpeechResult.wordCount (results Timer.stopped_after_hello_world) = [2%nat]
  /\ map SpeechResult.duration (results Timer.stopped_after_hello_world) = [0%Q]
  /\ map SpeechResult.wpm (results Timer.stopped_after_hello_world) = [0%Z]
  /\ finalWpm 2 5 = 24%Z
  /\ (forall supported savedRegion savedDarkMode evs s started timers now,
        Timer.session supported evs
          (first_rendered supported savedRegion savedDarkMode) [] Timer.none
        = Some (s, started, timers) ->
        duration s = 0%Q
        /\ SpeechResult.duration (result now s) = 0%Q
        /\ SpeechResult.wpm (result now s) = 0%Z)
  /\ (forall now s,
        JsString.trim (currentTranscriptRef s) <> [] -> (0 < duration s)%Q ->
        hd_error (results (state_of (stopRecording now s))) = Some (result now s)
        /\ SpeechResult.wpm (result now s)
           = Math_round
               (Double.mul (Double.div (number_of_nat (finalWordCount s)) (duration s))
                  60)).
Proof.
  split; [vm_compute; reflexivity|]. split; [vm_compute; reflexivity|].
  split; [vm_compute; reflexivity|]. split; [vm_compute; reflexivity|].
  split; [vm_compute; reflexivity|]. split.
  - intros supported savedRegion savedDarkMode evs s started timers now Hs.
    destruct (first_render_stopped_clock _ _ _ _ Hs) as [Hd _].
    split; [exact Hd|]. cbn [result SpeechResult.duration SpeechResult.wpm].
    rewrite Hd. split; reflexivity.
  - intros now s Ht Hpos.
    assert (has_content s = true) as Hc by now apply has_content_trimmed.
    split.
    + rewrite stopRecording_state. cbn [results]. now rewrite Hc.
    + cbn [result SpeechResult.wpm]. unfold finalWpm.
      apply Qgtb0_iff in Hpos. now rewrite Hpos.
Qed.

(* ------------------------------------------------------------------ *)
(** ** Start, stop, reset and errors under React *)

Section Frames.

(** The cells no effect writes. *)
Lemma wpmEffect_frame (s : State) :
  let s' := state_of (wpmEffect s) in
  isRecording s' = isRecording s /\ transcript s' = transcript s
  /\ duration s' = duration s /\ results s' = results s
  /\ error s' = error s
  /\ selectedRegion s' = selectedRegion s /\ isDarkMode s' = isDarkMode s
  /\ startTimeRef s' = startTimeRef s
  /\ currentTranscriptRef s' = currentTranscriptRef s.
Proof.
  cbv zeta. rewrite wpmEffect_state.
  destruct (isRecording s && JsString.truthy (JsString.trim (transcript s)));
    repeat split.
Qed.

Lemma recognitionEffect_frame (supported : bool) (s : State) :
  let s' := state_of (recognitionEffect supported s) in
  isRecording s' = isRecording s /\ transcript s' = transcript s
  /\ duration s' = duration s /\ results s' = results s
  /\ (supported = true -> error s' = error s)
  /\ selectedRegion s' = selectedRegion s /\ isDarkMode s' = isDarkMode s
  /\ startTimeRef s' = startTimeRef s
  /\ currentTranscriptRef s' = currentTranscriptRef s
  /\ wordCount s' = wordCount s /\ wpm s' = wpm s.
Proof. run_handler. destruct supported; repeat split; auto; discriminate. Qed.

Lemma effects_after_frame (supported : bool) (prev s : State) :
  let s' := state_of (effects_after supported prev s) in
  isRecording s' = isRecording s /\ transcript s' = transcript s
  /\ duration s' = duration s /\ results s' = results s
  /\ (supported = true -> error s' = error s)
  /\ selectedRegion s' = selectedRegion s /\ isDarkMode s' = isDarkMode s
  /\ startTimeRef s' = startTimeRef s
  /\ currentTranscriptRef s' = currentTranscriptRef s
  /\ (isRecording s = false -> wordCount s' = wordCount s /\ wpm s' = wpm s).
Proof.
  cbv zeta. unfold effects_after.
  rewrite state_of_bind. cbn [get fst snd state_of].
  set (changed := negb (Bool.eqb (isRecording prev) (isRecording s))).
  set (deps := _ || _ || changed).
  rewrite !state_of_bind.
  clearbody changed deps.
  assert (forall s0, state_of (ret tt s0) = s0) as Hret by reflexivity.
  assert (when changed recognitionCleanup s = when changed recognitionCleanup s) as _
    by reflexivity.
  assert (state_of (when changed recognitionCleanup s) = s) as ->.
  { destruct changed; [apply recognitionCleanup_view|reflexivity]. }
  set (s1 := state_of (when deps wpmEffect s)).
  assert (isRecording s1 = isRecording s /\ transcript s1 = transcript s
          /\ duration s1 = duration s /\ results s1 = results s
          /\ error s1 = error s
          /\ selectedRegion s1 = selectedRegion s /\ isDarkMode s1 = isDarkMode s
          /\ startTimeRef s1 = startTimeRef s
          /\ currentTranscriptRef s1 = currentTranscriptRef s
          /\ (isRecording s = false -> wordCount s1 = wordCount s /\ wpm s1 = wpm s))
    as [A1 [A2 [A3 [A4 [A5 [A6 [A7 [A8 [A9 A10]]]]]]]]].
  { subst s1. destruct deps; unfold when; [|rewrite Hret; repeat split].
    destruct (wpmEffect_frame s) as [B1 [B2 [B3 [B4 [B5 [B6 [B7 [B8 B9]]]]]]]].
    repeat match goal with |- _ /\ _ => split end; auto.
    intros Hrec. rewrite wpmEffect_state, Hrec. split; reflexivity. }
  clearbody s1.
  destruct changed; unfold when; [|rewrite Hret; repeat split; auto; now apply A10].
  destruct (recognitionEffect_frame supported s1)
    as [B1 [B2 [B3 [B4 [B5 [B6 [B7 [B8 [B9 [B10 B11]]]]]]]]]].
  rewrite B1, B2, B3, B4, B6, B7, B8, B9, B10, B11.
  repeat match goal with |- _ /\ _ => split end; auto.
  intros Hs. rewrite (B5 Hs). exact A5.
Qed.

End Frames.

Lemma has_content_blank (s : State) :
  currentTranscriptRef s = [] -> has_content s = false.
Proof. unfold has_content, finalTranscript. now intros ->. Qed.

Lemma react_results_stop (supported : bool) (now : Z) (s : State) :
  results (state_of (react supported (ClickStop now) s))
  = if has_content s then keep_last_10 (result now s) (results s) else results s.
Proof.
  rewrite react_state.
  destruct (effects_after_frame supported s (state_of (handle (ClickStop now) s)))
    as [_ [_ [_ [-> _]]]].
  cbn [handle]. now rewrite stopRecording_state.
Qed.

(** [startRecording] and [reset] empty [currentTranscriptRef], and no effect
    writes it: a click on Stop that follows either, with no snapshot in
    between, leaves the list of results as it was before. *)
Theorem stop_after_start_or_reset_saves_nothing
    (supported start_throws : bool) (now later : Z) (s : State) :
  isSupported s = true ->
  results (state_of (react supported (ClickStop later)
                       (state_of (react supported (ClickStart start_throws now) s))))
    = results s
  /\ results (state_of (react supported (ClickStop later)
                          (state_of (react supported ClickReset s))))
     = results s.
Proof.
  intros Hsup. split; rewrite react_results_stop, has_content_blank.
  - rewrite react_state.
    destruct (effects_after_frame supported s
                (state_of (handle (ClickStart start_throws now) s)))
      as [_ [_ [_ [-> _]]]].
    apply results_frame. discriminate.
  - rewrite react_state.
    destruct (effects_after_frame supported s
                (state_of (handle (ClickStart start_throws now) s)))
      as [_ [_ [_ [_ [_ [_ [_ [_ [-> _]]]]]]]]].
    destruct s as [rec tr wc d w rs sup err reg dark objs rref st iref cref].
    cbn [isSupported] in Hsup. subst sup. run_handler.
    destruct rref, start_throws; reflexivity.
  - rewrite react_state.
    destruct (effects_after_frame supported s (state_of (handle ClickReset s)))
      as [_ [_ [_ [-> _]]]].
    reflexivity.
  - rewrite react_state.
    destruct (effects_after_frame supported s (state_of (handle ClickReset s)))
      as [_ [_ [_ [_ [_ [_ [_ [_ [-> _]]]]]]]]].
    reflexivity.
Qed.

(** When [recognitionRef.current.start()] throws, the component is left
    idle with the message of the failure, no timer is set and nothing is
    saved or built; but the transcript, the word count, the speed and the
    elapsed time of the session before have already been cleared, and
    [startTimeRef] holds the time of the click. *)
Theorem failed_start_leaves_the_component_idle
    (supported : bool) (now : Z) (recognition : nat) (s : State) :
  isSupported s = true -> isRecording s = false ->
  recognitionRef s = Some recognition ->
  state_of (react supported (ClickStart true now) s)
  = mkState false [] 0 0%Q 0 (results s) true
      "Failed to start speech recognition. Please try again."
      (selectedRegion s) (isDarkMode s) (recognitions s) (recognitionRef s)
      now (intervalRef s) []
  /\ calls_of (react supported (ClickStart true now) s)
     = [RecognitionStart recognition].
Proof.
  intros Hsup Hrec Href.
  destruct s as [rec tr wc d w rs sup err reg dark objs rref st iref cref].
  cbn [isSupported isRecording recognitionRef] in *. subst sup rec rref.
  unfold react, effects_after. run_handler.
  destruct (negb (same_text tr []) || negb (Qeq_bool d 0) || false);
    split; reflexivity.
Qed.

(** [onerror] with the effects React runs after it: the recording ends with
    the message ["Speech recognition error: " + event.error], the
    transcript, the word count, the elapsed time and the speed stay on the
    screen, nothing is added to the history, [stop()] is not called, and
    the timer is cleared by the cleanup of the recognition effect when the
    component was recording and held one. *)
Theorem recognition_error_ends_the_recording_unsaved
    (code : string) (s : State) :
  let s' := state_of (react true (RecognitionError code) s) in
  isRecording s' = false
  /\ error s' = String.append "Speech recognition error: " code
  /\ transcript s' = transcript s
  /\ currentTranscriptRef s' = currentTranscriptRef s
  /\ wordCount s' = wordCount s /\ duration s' = duration s /\ wpm s' = wpm s
  /\ results s' = results s
  /\ calls_of (react true (RecognitionError code) s)
     = if isRecording s && intervalRef s then [ClearInterval] else [].
Proof.
  cbv zeta. rewrite react_state, react_calls.
  destruct (effects_after_frame true s (state_of (handle (RecognitionError code) s)))
    as [B1 [B2 [B3 [B4 [B5 [B6 [B7 [B8 [B9 B10]]]]]]]]].
  destruct (B10 eq_refl) as [B11 B12].
  rewrite B1, B2, B3, B4, (B5 eq_refl), B9, B11, B12.
  destruct (effects_after_clock true s (state_of (handle (RecognitionError code) s)))
    as [_ [_ [_ ->]]].
  destruct s as [rec tr wc d w rs sup err reg dark objs rref st iref cref].
  run_handler. destruct rec, iref; repeat split.
Qed.

Lemma react_core (supported : bool) (ev : Event) (s : State) :
  let s' := state_of (react supported ev s) in
  let h := state_of (handle ev s) in
  isRecording s' = isRecording h /\ transcript s' = transcript h
  /\ duration s' = duration h /\ results s' = results h
  /\ startTimeRef s' = startTimeRef h
  /\ currentTranscriptRef s' = currentTranscriptRef h.
Proof.
  cbv zeta. rewrite react_state.
  destruct (effects_after_frame supported s (state_of (handle ev s)))
    as [B1 [B2 [B3 [B4 [B5 [B6 [B7 [B8 [B9 B10]]]]]]]]].
  auto 10.
Qed.

Lemma tick_state (now : Z) (s : State) :
  state_of (tick now s) =
  mkState (isRecording s) (transcript s) (wordCount s)
    (inject_Z (now - startTimeRef s) / 1000)%Q
    (wpm s) (results s) (isSupported s) (error s) (selectedRegion s)
    (isDarkMode s) (recognitions s) (recognitionRef s) (startTimeRef s) (intervalRef s)
    (currentTranscriptRef s).
Proof. reflexivity. Qed.

Lemma react_reset_core (supported : bool) (s : State) :
  isRecording (state_of (react supported ClickReset s)) = isRecording s
  /\ results (state_of (react supported ClickReset s)) = results s
  /\ startTimeRef (state_of (react supported ClickReset s)) = startTimeRef s.
Proof.
  destruct (react_core supported ClickReset s) as [R1 [_ [_ [R4 [R5 _]]]]].
  rewrite R1, R4, R5. repeat split.
Qed.

Lemma react_result_core (supported : bool) (event : Speech.Event) (s : State) :
  isRecording (state_of (react supported (RecognitionResult event) s)) = isRecording s
  /\ transcript (state_of (react supported (RecognitionResult event) s))
     = fullTranscript event
  /\ currentTranscriptRef (state_of (react supported (RecognitionResult event) s))
     = fullTranscript event
  /\ results (state_of (react supported (RecognitionResult event) s)) = results s
  /\ startTimeRef (state_of (react supported (RecognitionResult event) s))
     = startTimeRef s.
Proof.
  destruct (react_core supported (RecognitionResult event) s)
    as [R1 [R2 [_ [R4 [R5 R6]]]]].
  rewrite R1, R2, R4, R5, R6. repeat split.
Qed.

Lemma react_tick_core (supported : bool) (now : Z) (s : State) :
  isRecording (state_of (react supported (TimerTick now) s)) = isRecording s
  /\ transcript (state_of (react supported (TimerTick now) s)) = transcript s
  /\ currentTranscriptRef (state_of (react supported (TimerTick now) s))
     = currentTranscriptRef s
  /\ duration (state_of (react supported (TimerTick now) s))
     = (inject_Z (now - startTimeRef s) / 1000)%Q
  /\ results (state_of (react supported (TimerTick now) s)) = results s.
Proof.
  destruct (react_core supported (TimerTick now) s) as [R1 [R2 [R3 [R4 [_ R6]]]]].
  rewrite R1, R2, R3, R4, R6. repeat split.
Qed.

(** [reset] does not touch [isRecording], [startTimeRef] or the list of
    results: after a reset, the next snapshot and the next tick bring the
    transcript, the ref and the elapsed time to what they would be without
    the reset, the elapsed time still counted from the start of the
    session. *)
Theorem reset_does_not_restart_the_session
    (supported : bool) (event : Speech.Event) (now : Z) (s : State) :
  let with_reset :=
    state_of (react supported (TimerTick now)
      (state_of (react supported (RecognitionResult event)
        (state_of (react supported ClickReset s))))) in
  let without :=
    state_of (react supported (TimerTick now)
      (state_of (react supported (RecognitionResult event) s))) in
  isRecording with_reset = isRecording s
  /\ transcript with_reset = transcript without
  /\ currentTranscriptRef with_reset = currentTranscriptRef without
  /\ duration with_reset = duration without
  /\ duration with_reset = (inject_Z (now - startTimeRef s) / 1000)%Q
  /\ results with_reset = results without.
Proof.
  cbv zeta.
  destruct (react_reset_core supported s) as [R1 [R2 R3]].
  generalize dependent (state_of (react supported ClickReset s)). intros r R1 R2 R3.
  destruct (react_result_core supported event r) as [A1 [A2 [A3 [A4 A5]]]].
  destruct (react_result_core supported event s) as [B1 [B2 [B3 [B4 B5]]]].
  generalize dependent (state_of (react supported (RecognitionResult event) r)).
  intros a1 A1 A2 A3 A4 A5.
  generalize dependent (state_of (react supported (RecognitionResult event) s)).
  intros a2 B1 B2 B3 B4 B5.
  destruct (react_tick_core supported now a1) as [C1 [C2 [C3 [C4 C5]]]].
  destruct (react_tick_core supported now a2) as [D1 [D2 [D3 [D4 D5]]]].
  rewrite C1, C2, C3, C4, C5, D2, D3, D4, D5.
  rewrite A1, A2, A3, A4, A5, B2, B3, B4, B5, R1, R2, R3.
  repeat split.
Qed.

Lemma stop_right_after_start :
  isSupported Examples.mounted = true
  /\ results (state_of (react true (ClickStop 5000)
                (state_of (react true (ClickStart false 0) Examples.mounted))))
     = results Examples.mounted.
Proof.
  split; [reflexivity|].
  exact (proj1 (@stop_after_start_or_reset_saves_nothing
                  true false 0 5000 Examples.mounted eq_refl)).
Defined.

Lemma failed_start_after_mount :
  isSupported Examples.mounted = true
  /\ isRecording Examples.mounted = false
  /\ recognitionRef Examples.mounted = Some 0%nat
  /\ calls_of (react true (ClickStart true 7) Examples.mounted) = [RecognitionStart 0].
Proof.
  split; [reflexivity|]. split; [reflexivity|]. split; [reflexivity|].
  exact (proj2 (@failed_start_leaves_the_component_idle
                  true 7 0%nat Examples.mounted eq_refl eq_refl eq_refl)).
Defined.

(* ------------------------------------------------------------------ *)
(** ** Reading a snapshot *)

Section Reading.

Import Speech.

Lemma text_of_app (keep : Result -> bool) (rs1 rs2 : list Result) :
  text_of keep (rs1 ++ rs2) = text_of keep rs1 ++ text_of keep rs2.
Proof. unfold text_of. now rewrite filter_app, map_app, concat_app. Qed.

Lemma text_of_all (keep : Result -> bool) (rs : list Result) :
  forallb keep rs = true -> text_of keep rs = List.concat (map transcript rs).
Proof.
  unfold text_of. induction rs as [|r rs IH]; cbn; [reflexivity|].
  destruct (keep r); cbn; [|discriminate]. intros H. now rewrite IH.
Qed.

Lemma text_of_none (keep : Result -> bool) (rs : list Result) :
  forallb (fun r => negb (keep r)) rs = true -> text_of keep rs = [].
Proof.
  unfold text_of. induction rs as [|r rs IH]; cbn; [reflexivity|].
  destruct (keep r); cbn; [discriminate|exact IH].
Qed.

(** The two loops of [onresult] together: the text of all the final
    results, in order, followed by the text of those results from
    [resultIndex] on that are not final.  An interim result in front of
    [resultIndex] is left out, and final text is put before interim text
    wherever the results stand in the list. *)
Theorem fullTranscript_by_loops (event : Event) :
  fullTranscript event
  = text_of isFinal (results event)
    ++ text_of (fun r => negb (isFinal r)) (skipn (resultIndex event) (results event)).
Proof.
  unfold fullTranscript.
  now rewrite completeTranscript_finals, interimTranscript_interims.
Qed.

(** When the final results of a snapshot lead, the interim ones follow, and
    [resultIndex] does not point behind the first interim result, the
    transcript [onresult] writes to the cell and to the ref is the text of
    all the results in the order of the list, nothing left out. *)
Theorem snapshot_is_read_in_order
    (event : Event) (finals interims : list Result) (s : State) :
  results event = finals ++ interims ->
  forallb isFinal finals = true ->
  forallb (fun r => negb (isFinal r)) interims = true ->
  (resultIndex event <= List.length finals)%nat ->
  fullTranscript event = List.concat (map transcript (results event))
  /\ App.transcript (state_of (onresult event s))
     = List.concat (map transcript (results event))
  /\ currentTranscriptRef (state_of (onresult event s))
     = List.concat (map transcript (results event)).
Proof.
  intros Hr Hf Hi Hidx.
  assert (fullTranscript event = List.concat (map transcript (results event))) as E.
  { unfold fullTranscript.
    rewrite completeTranscript_finals, interimTranscript_interims, Hr.
    rewrite skipn_app.
    replace (resultIndex event - List.length finals)%nat with 0%nat by lia.
    cbn [skipn]. rewrite !text_of_app.
    rewrite (text_of_all _ _ Hf), (text_of_none _ _ Hi), app_nil_r.
    rewrite (text_of_all _ _ Hi).
    assert (forallb isFinal (skipn (resultIndex event) finals) = true) as Hs.
    { apply forallb_forall. intros r Hin. rewrite forallb_forall in Hf.
      apply Hf. revert Hin. clear. revert finals.
      induction (resultIndex event) as [|n IH]; intros [|x l] H; cbn in *; auto. }
    rewrite (text_of_none (fun r => negb (isFinal r))), app_nil_l.
    - now rewrite map_app, concat_app.
    - apply forallb_forall. intros r Hin. rewrite forallb_forall in Hs.
      rewrite (Hs _ Hin). reflexivity. }
  rewrite onresult_state. cbn [App.transcript currentTranscriptRef].
  rewrite E. auto.
Qed.

End Reading.

Lemma snapshot_2_is_read_in_order :
  Speech.results Examples.snapshot_2
  = [Examples.final "one "; Examples.final "hello world "] ++ [Examples.interim "this"]
  /\ (Speech.resultIndex Examples.snapshot_2 <= 2)%nat
  /\ fullTranscript Examples.snapshot_2 = JsString.of_string "one hello world this".
Proof.
  split; [reflexivity|]. split; [cbn; lia|].
  destruct (@snapshot_is_read_in_order Examples.snapshot_2
              [Examples.final "one "; Examples.final "hello world "]
              [Examples.interim "this"] Examples.mounted
              eq_refl eq_refl eq_refl ltac:(cbn; lia)) as [H _].
  rewrite H. reflexivity.
Defined.

(** An interim result in front of [resultIndex] is left out, and a final
    result behind an interim one is moved in front of it. *)
Example snapshots_not_read_in_order :
  fullTranscript (Speech.mkEvent 1 [Examples.interim "a "; Examples.interim "b"])
  = JsString.of_string "b"
  /\ fullTranscript (Speech.mkEvent 0 [Examples.interim "a "; Examples.final "b"])
     = JsString.of_string "ba ".
Proof. split; reflexivity. Qed.

(* ------------------------------------------------------------------ *)
(** ** Regions and preferences *)

Section Regions.

Lemma on_menu_lookup (code : string) :
  View.on_menu code = true <-> lookup code REGIONAL_SPEEDS <> None.
Proof.
  unfold View.on_menu. induction REGIONAL_SPEEDS as [|[k v] table IH]; cbn.
  - split; [discriminate|now intros []].
  - rewrite String.eqb_sym. destruct (String.eqb k code); cbn.
    + split; [discriminate|reflexivity].
    + exact IH.
Qed.

Lemma handle_regions (ev : Event) (s : State) :
  View.from_menu ev = true -> View.regions_on_menu s ->
  View.regions_on_menu (state_of (handle ev s)).
Proof.
  unfold View.regions_on_menu. intros Hev [Hs Hr].
  destruct ev;
    try (rewrite results_frame by discriminate; split; [|exact Hr]).
  - destruct s as [rec tr wc d w rs sup err reg dark objs rref st iref cref].
    run_handler. destruct sup; [destruct rref, start_throws|]; exact Hs.
  - cbn [handle]. rewrite stopRecording_state. cbn [selectedRegion results].
    split; [exact Hs|]. destruct (has_content s); [|exact Hr].
    unfold keep_last_10. apply Forall_firstn. constructor; [exact Hs|exact Hr].
  - exact Hs.
  - exact Hs.
  - exact Hev.
  - exact Hs.
  - exact Hs.
  - exact Hs.
  - destruct s as [rec tr wc d w rs sup err reg dark objs rref st iref cref].
    run_handler. destruct (nth recognition objs false), restart_throws; exact Hs.
  - rewrite wpmEffect_state. destruct (isRecording s && _); exact Hs.
  - run_handler. destruct supported; exact Hs.
  - run_handler. destruct (intervalRef s); exact Hs.
Qed.

Lemma run_regions (evs : list Event) (s : State) :
  forallb View.from_menu evs = true -> View.regions_on_menu s ->
  View.regions_on_menu (run evs s).
Proof.
  unfold run. revert s. induction evs as [|ev evs IH]; intros s Hevs Hs; [exact Hs|].
  cbn [forallb] in Hevs. apply andb_prop in Hevs as [Hev Hevs].
  cbn [fold_left]. apply IH; [exact Hevs|]. now apply handle_regions.
Qed.

End Regions.

Section Preferences.

Import Storage.

Lemma stored_after_in_step (prev s : State) (storage : Storage.t) :
  in_step prev storage -> in_step s (stored_after prev s storage).
Proof.
  unfold in_step, stored_after. intros [Hr Hd].
  destruct (Bool.eqb (isDarkMode prev) (isDarkMode s)) eqn:Ed;
    destruct (String.eqb (App.selectedRegion prev) (App.selectedRegion s)) eqn:Er;
    cbn; try apply Bool.eqb_prop in Ed; try apply String.eqb_eq in Er;
    split; congruence.
Qed.

Lemma reload_point_in_step (supported : bool) (evs : list Event) :
  forall s storage,
    in_step s storage ->
    in_step (fst (reload_point supported evs s storage))
            (snd (reload_point supported evs s storage)).
Proof.
  induction evs as [|ev evs IH]; intros s storage H; [exact H|].
  cbn [reload_point]. apply IH. now apply stored_after_in_step.
Qed.

Lemma mount_in_step (s : State) (storage : Storage.t) :
  in_step s storage ->
  mount storage = Some (initial (Some (App.selectedRegion s)) (isDarkMode s)).
Proof.
  unfold in_step, mount. intros [-> ->]. now destruct (isDarkMode s).
Qed.

End Preferences.

(** The menu offers the keys of [REGIONAL_SPEEDS].  When the region of the
    state and of every result is one of them, it stays so after any events
    whose choices of a region come from the menu; [currentRegion] is then
    defined, [getWpmLabel] and [getWpmColor] do not fail on the region of
    the state at any speed, and the colour of every line of the history is
    defined. *)
Theorem regions_stay_on_the_menu (evs : list Event) (s : State) :
  forallb View.from_menu evs = true ->
  View.regions_on_menu s ->
  View.regions_on_menu (run evs s)
  /\ View.currentRegion (run evs s) <> None
  /\ (forall wpm,
        getWpmLabel wpm (selectedRegion (run evs s)) <> None
        /\ View.getWpmColor wpm (selectedRegion (run evs s)) <> None)
  /\ Forall (fun r => View.history_color r <> None) (results (run evs s)).
Proof.
  intros Hevs Hs. pose proof (run_regions evs Hevs Hs) as [Hr Hh].
  split; [split; assumption|].
  assert (forall code wpm, View.on_menu code = true ->
            getWpmLabel wpm code <> None /\ View.getWpmColor wpm code <> None) as Hc.
  { intros code wpm Hm. apply on_menu_lookup in Hm.
    unfold getWpmLabel, View.getWpmColor.
    destruct (wpm =? 0)%Z; [split; discriminate|].
    destruct (lookup code REGIONAL_SPEEDS); [split; discriminate|now destruct Hm]. }
  split; [now apply on_menu_lookup|]. split; [intros wpm; now apply Hc|].
  apply Forall_forall. intros r Hin. rewrite Forall_forall in Hh.
  apply Hc. now apply Hh.
Qed.

Lemma regions_after_choosing_uk :
  forallb View.from_menu
    (SelectRegion "uk" :: Examples.hello_world_until_5s ++ [ClickStop 5000]) = true
  /\ View.regions_on_menu Examples.mounted
  /\ Forall (fun r => View.history_color r <> None)
       (results (run (SelectRegion "uk" :: Examples.hello_world_until_5s ++ [ClickStop 5000])
                   Examples.mounted)).
Proof.
  assert (View.regions_on_menu Examples.mounted) as H by (split; [reflexivity|constructor]).
  split; [reflexivity|]. split; [exact H|].
  exact (proj2 (proj2 (proj2 (@regions_stay_on_the_menu
           (SelectRegion "uk" :: Examples.hello_world_until_5s ++ [ClickStop 5000])
           Examples.mounted eq_refl H)))).
Defined.

(** A region code left in [localStorage] that is not a key of the table:
    the first render finds no [currentRegion]. *)
Example stale_region_code :
  View.currentRegion (initial (Some "fr"%string) false) = None
  /\ View.getWpmColor 150 "fr" = None
  /\ View.currentRegion (initial (Some ""%string) false)
     = lookup "us" REGIONAL_SPEEDS.
Proof. repeat split. Qed.

(** After the effects of the first render and of every render since, the
    storage holds the region and the dark mode of the state; mounting the
    component again from that storage gives the same dark mode and the same
    region, ['us'] when the region was the empty string. *)
Theorem preferences_survive_a_reload
    (supported : bool) (evs : list Event) (s : State) (storage : Storage.t) :
  let now := Storage.reload_point supported evs s (Storage.first_stored s storage) in
  Storage.in_step (fst now) (snd now)
  /\ exists reloaded,
       Storage.mount (snd now) = Some reloaded
       /\ isDarkMode reloaded = isDarkMode (fst now)
       /\ selectedRegion reloaded
          = match selectedRegion (fst now) with
            | EmptyString => "us"%string
            | code => code
            end.
Proof.
  intros now.
  assert (Storage.in_step (fst now) (snd now)) as H.
  { apply reload_point_in_step. split; reflexivity. }
  split; [exact H|].
  exists (initial (Some (selectedRegion (fst now))) (isDarkMode (fst now))).
  split; [now apply mount_in_step|]. split; [reflexivity|].
  cbn. now destruct (selectedRegion (fst now)).
Qed.

Example reload_after_choosing_uk_in_the_dark :
  Storage.mount (snd (Storage.reload_point true [SelectRegion "uk"; ClickDarkMode]
                        Examples.mounted
                        (Storage.first_stored Examples.mounted (Storage.mk None None))))
  = Some (initial (Some "uk"%string) true).
Proof. vm_compute. reflexivity. Qed.

(* ------------------------------------------------------------------ *)
(** ** The effect on the transcript and the elapsed time *)

Lemma Earlier_wpmEffect_state (s : State) :
  state_of (Earlier.wpmEffect s) =
  if isRecording s && Qgtb0 (duration s)
     && JsString.truthy (JsString.trim (transcript s))
  then mkState (isRecording s) (transcript s)
         (List.length (JsString.words (JsString.trim (transcript s))))
         (duration s)
         (Math_round
            (Double.mul
               (Double.div
                  (number_of_nat
                     (List.length (JsString.words (JsString.trim (transcript s)))))
                  (duration s))
               60))
         (results s) (isSupported s) (error s) (selectedRegion s) (isDarkMode s)
         (recognitions s) (recognitionRef s) (startTimeRef s) (intervalRef s)
         (currentTranscriptRef s)
  else s.
Proof.
  destruct s as [rec tr wc d w rs sup err reg dark objs rref st iref cref].
  unfold Earlier.wpmEffect. run_handler.
  destruct rec, (Qgtb0 d), (JsString.truthy (JsString.trim tr)); reflexivity.
Qed.

(** The effect on [[transcript, duration, isRecording]] writes the word
    count and the speed only, none of its own dependencies, and running it
    again on the state it left changes nothing: the render it causes does
    not bring it back.  The same holds of the effect of the earlier
    variant. *)
Theorem wpmEffect_settles_at_once (s : State) :
  let s' := state_of (wpmEffect s) in
  let e' := state_of (Earlier.wpmEffect s) in
  (transcript s' = transcript s /\ duration s' = duration s
   /\ isRecording s' = isRecording s /\ state_of (wpmEffect s') = s')
  /\ (transcript e' = transcript s /\ duration e' = duration s
      /\ isRecording e' = isRecording s /\ state_of (Earlier.wpmEffect e') = e').
Proof.
  cbv zeta. split.
  - rewrite wpmEffect_state.
    destruct (isRecording s && JsString.truthy (JsString.trim (transcript s))) eqn:G.
    + repeat split. rewrite wpmEffect_state.
      cbn [isRecording transcript duration]. rewrite G. reflexivity.
    + repeat split. rewrite wpmEffect_state, G. reflexivity.
  - rewrite Earlier_wpmEffect_state.
    destruct (isRecording s && Qgtb0 (duration s)
              && JsString.truthy (JsString.trim (transcript s))) eqn:G.
    + repeat split. rewrite Earlier_wpmEffect_state.
      cbn [isRecording transcript duration]. rewrite G. reflexivity.
    + repeat split. rewrite Earlier_wpmEffect_state, G. reflexivity.
Qed.



(** Three words in 31 seconds: the speed shown and saved is 6. *)
Example speed_at_31s :
  wpm (Examples.after (removelast Examples.words_then_blank_at_31s)) = 6%Z
  /\ SpeechResult.wpm
       (result 31000 (Examples.after (removelast Examples.words_then_blank_at_31s)))
     = 6%Z.
Proof. split; vm_compute; reflexivity. Qed.

(** In a browser without [SpeechRecognition] the first effect marks the
    component unsupported, with its message, and builds no recognition
    object; [startRecording] then does nothing at all, whatever the time
    and whether or not [start()] would throw, and the page offers none of
    the buttons. *)
Theorem unsupported_browser_never_records
    (savedRegion : option string) (savedDarkMode start_throws : bool) (now : Z) :
  let s := first_rendered false savedRegion savedDarkMode in
  isSupported s = false
  /\ error s = "Speech recognition is not supported in this browser. Please use Chrome, Edge, or Safari."%string
  /\ recognitions s = [] /\ recognitionRef s = None
  /\ state_of (react false (ClickStart start_throws now) s) = s
  /\ calls_of (react false (ClickStart start_throws now) s) = []
  /\ (forall started later,
        offered (ClickStart start_throws now) s started = false
        /\ offered (ClickStop later) s started = false
        /\ offered ClickReset s started = false).
Proof.
  cbv zeta. split; [reflexivity|]. split; [reflexivity|]. split; [reflexivity|].
  split; [reflexivity|]. split; [|split].
  - unfold react, effects_after, first_rendered. run_handler. reflexivity.
  - unfold react, effects_after, first_rendered. run_handler. reflexivity.
  - intros started later. repeat split.
Qed.

(* ------------------------------------------------------------------ *)
(** ** The earlier variant: the words are not counted *)

Section EarlierTimers.

(** With the clock at 0 the effect of the earlier variant does nothing. *)
Lemma Earlier_wpmEffect_at_0 (s : State) :
  duration s = 0%Q -> Earlier.wpmEffect s = (tt, s, []).
Proof.
  intros H. unfold Earlier.wpmEffect, bind, get. rewrite H.
  change (Qgtb0 0) with false. rewrite andb_false_r. reflexivity.
Qed.

Lemma recognitionEffect_wordCount (supported : bool) (s : State) :
  wordCount (state_of (recognitionEffect supported s)) = wordCount s.
Proof. run_handler. now destruct supported. Qed.

Lemma Earlier_effects_after_at_0 (supported : bool) (prev s : State) :
  duration s = 0%Q ->
  duration (state_of (EarlierSession.effects_after supported prev s)) = 0%Q
  /\ results (state_of (EarlierSession.effects_after supported prev s)) = results s
  /\ wordCount (state_of (EarlierSession.effects_after supported prev s)) = wordCount s
  /\ wpm (state_of (EarlierSession.effects_after supported prev s)) = wpm s
  /\ calls_of (EarlierSession.effects_after supported prev s)
     = calls_of (effects_after supported prev s).
Proof.
  intros H.
  rewrite (proj2 (proj2 (proj2 (effects_after_clock supported prev s)))).
  unfold EarlierSession.effects_after.
  rewrite state_of_bind, calls_of_bind. cbn [get fst snd state_of calls_of app].
  set (changed := negb (Bool.eqb (isRecording prev) (isRecording s))).
  set (deps := _ || _ || changed).
  rewrite !state_of_bind, !calls_of_bind.
  clearbody changed deps.
  assert (forall s0, state_of (ret tt s0) = s0) as Hret by reflexivity.
  assert (forall s0, calls_of (ret tt s0) = []) as Hcret by reflexivity.
  destruct (recognitionEffect_clock supported s) as [R1 [R2 [_ R4]]].
  pose proof (recognitionEffect_wordCount supported s) as R5.
  destruct changed, deps; unfold when; cbn [andb];
    rewrite ?Hret, ?Hcret;
    rewrite ?(proj1 (recognitionCleanup_view s)), ?recognitionCleanup_calls;
    rewrite ?(Earlier_wpmEffect_at_0 s H);
    change (state_of (tt, s, @nil Call)) with s;
    change (calls_of (tt, s, @nil Call)) with (@nil Call);
    rewrite ?Hret, ?Hcret, ?(proj2 (recognitionEffect_view _ _)), ?app_nil_r;
    rewrite ?R1, ?R2, ?R4, ?R5;
    repeat match goal with |- _ /\ _ => split end; auto.
Qed.

Lemma handle_keeps_no_words (ev : Event) (s : State) (started : list nat)
    (timers : Timer.t) :
  Timer.offered ev s started timers = true ->
  wordCount s = 0%nat ->
  wordCount (state_of (handle ev s)) = 0%nat.
Proof.
  unfold Timer.offered. intros Hoff Hw. apply andb_prop in Hoff as [Hoff _].
  destruct s as [rec tr wc d w rs sup err reg dark objs rref st iref cref].
  cbn [wordCount] in Hw. subst wc.
  destruct ev; cbn in Hoff; try discriminate.
  - apply andb_prop in Hoff as [-> _]. run_handler.
    destruct rref, start_throws; reflexivity.
  - cbn [handle]. rewrite stopRecording_state. reflexivity.
  - run_handler. reflexivity.
  - run_handler. reflexivity.
  - run_handler. reflexivity.
  - run_handler. reflexivity.
  - run_handler. reflexivity.
  - run_handler. reflexivity.
  - run_handler. destruct (nth recognition objs false), restart_throws; reflexivity.
Qed.

Lemma Earlier_react_at_0 (supported : bool) (ev : Event) (s : State)
    (started : list nat) :
  EarlierSession.offered ev s started Timer.none = true ->
  Timer.stopped_clock s /\ wordCount s = 0%nat ->
  (Timer.stopped_clock (state_of (EarlierSession.react supported ev s))
   /\ wordCount (state_of (EarlierSession.react supported ev s)) = 0%nat)
  /\ Timer.after_calls (calls_of (EarlierSession.react supported ev s)) Timer.none
     = Timer.none.
Proof.
  intros Hoff [Hs Hw].
  assert (Timer.offered ev s started Timer.none = true) as Hoff'
    by (destruct ev; first [exact Hoff|discriminate Hoff]).
  destruct (@handle_stopped_clock ev s started Hoff' Hs) as [[Hd [Hz Hr]] Hc].
  pose proof (@handle_keeps_no_words ev s started Timer.none Hoff' Hw) as Hw1.
  destruct (Earlier_effects_after_at_0 supported s (state_of (handle ev s)) Hd)
    as [E1 [E2 [E3 [E4 E5]]]].
  assert (state_of (EarlierSession.react supported ev s)
          = state_of (EarlierSession.effects_after supported s (state_of (handle ev s))))
    as -> by (unfold EarlierSession.react; rewrite !state_of_bind; reflexivity).
  assert (calls_of (EarlierSession.react supported ev s)
          = calls_of (handle ev s)
            ++ calls_of (EarlierSession.effects_after supported s (state_of (handle ev s))))
    as -> by (unfold EarlierSession.react; rewrite !calls_of_bind; reflexivity).
  rewrite E5. split; [|apply Hc].
  unfold Timer.stopped_clock. rewrite E1, E2, E3, E4. auto.
Qed.

Lemma Earlier_session_at_0 (supported : bool) (evs : list Event) :
  forall s started s' started' timers',
    Timer.stopped_clock s /\ wordCount s = 0%nat ->
    EarlierSession.session supported evs s started Timer.none
    = Some (s', started', timers') ->
    (Timer.stopped_clock s' /\ wordCount s' = 0%nat) /\ timers' = Timer.none.
Proof.
  induction evs as [|ev evs IH]; intros s started s' started' timers' Hs H;
    cbn [EarlierSession.session] in H.
  - injection H as <- _ <-. auto.
  - destruct (EarlierSession.offered ev s started Timer.none) eqn:Hoff; [|discriminate].
    destruct (@Earlier_react_at_0 supported ev s started Hoff Hs) as [Hs1 Ht].
    rewrite Ht in H. exact (IH _ _ _ _ _ Hs1 H).
Qed.

End EarlierTimers.

(** The earlier variant does not count the words.  Its effect recomputes
    the word count and the speed only while [duration > 0], and its timer
    is cleared by the cleanup of the recognition effect as in [App.tsx]:
    in every session from the first render in which the callback of the
    timer runs only while a timer is running, no timer is running after
    any event, the word count, the speed and the elapsed time are 0
    whatever the transcript, the effect leaves the state as it is, and
    every result in the history has duration 0 and speed 0. *)
Theorem earlier_variant_never_counts_a_word
    (supported savedDarkMode : bool) (evs : list Event) (s : State)
    (started : list nat) (timers : Timer.t) :
  EarlierSession.session supported evs
    (EarlierSession.first_rendered supported savedDarkMode) [] Timer.none
  = Some (s, started, timers) ->
  Timer.running timers = 0%nat
  /\ wordCount s = 0%nat /\ wpm s = 0%Z /\ duration s = 0%Q
  /\ state_of (Earlier.wpmEffect s) = s
  /\ Forall (fun r => SpeechResult.duration r = 0%Q /\ SpeechResult.wpm r = 0%Z)
       (results s).
Proof.
  intros H.
  assert (Timer.stopped_clock (EarlierSession.first_rendered supported savedDarkMode)
          /\ wordCount (EarlierSession.first_rendered supported savedDarkMode) = 0%nat)
    as H0 by (destruct supported; repeat split; constructor).
  destruct (@Earlier_session_at_0 supported evs _ _ _ _ _ H0 H)
    as [[[Hd [Hw Hr]] Hc] ->].
  repeat match goal with |- _ /\ _ => split end; auto.
  now rewrite (Earlier_wpmEffect_at_0 s Hd).
Qed.

Lemma earlier_variant_after_hello_world :
  EarlierSession.session true Timer.hello_world_heard
    (EarlierSession.first_rendered true false) [] Timer.none
  = Some (EarlierSession.recording_hello_world, [0%nat], Timer.none)
  /\ isRecording EarlierSession.recording_hello_world = true
  /\ transcript EarlierSession.recording_hello_world = JsString.of_string "hello world"
  /\ wordCount EarlierSession.recording_hello_world = 0%nat
  /\ wpm EarlierSession.recording_hello_world = 0%Z.
Proof.
  assert (EarlierSession.session true Timer.hello_world_heard
            (EarlierSession.first_rendered true false) [] Timer.none
          = Some (EarlierSession.recording_hello_world, [0%nat], Timer.none)) as Hs
    by (vm_compute; reflexivity).
  split; [exact Hs|]. split; [vm_compute; reflexivity|].
  split; [vm_compute; reflexivity|].
  destruct (@earlier_variant_never_counts_a_word true false _ _ _ _ Hs)
    as [_ [Hw [Hz _]]].
  split; [exact Hw|exact Hz].
Defined.

(** The same session in the variant of [App.tsx] shows two words; and on a
    state two words and five seconds into a recording, which a session with
    a ticking timer would reach, the earlier effect shows 24 words per
    minute where the effect of [App.tsx] waits. *)
Example words_counted_in_the_two_variants :
  wordCount Timer.recording_hello_world = 2%nat
  /\ wordCount EarlierSession.recording_hello_world = 0%nat
  /\ wpm (state_of (Earlier.wpmEffect Examples.recording_at_5s)) = 24%Z
  /\ wpm (state_of (wpmEffect Examples.recording_at_5s)) = 0%Z.
Proof. repeat split; vm_compute; reflexivity. Qed.
